(** * Harvest engine of the tax assistant: model and properties

    A shallow embedding of [apps/coleta/models.py], [apps/coleta/signals.py],
    [apps/coleta/scraper_base.py] and [apps/coleta/scrapers/cosit_scraper.py].
    Python objects become records, the database tables and the raw-file
    directory become finite maps, and the methods of a scraper become
    computations in a state and exception monad over one [World]. *)

From Stdlib Require Import ZArith NArith List Bool Lia String Ascii DecimalString.
From stdpp Require Import base gmap list.
Import ListNotations.

(** ** Python strings

    A [str] is a sequence of Unicode code points.  Literals of the source
    that are plain ASCII are written with [lit]; the few characters outside
    ASCII are given by code point. *)

Definition pystr : Type := list N.

Definition lit (s : string) : pystr := map N_of_ascii (list_ascii_of_string s).
Arguments lit : simpl never.

Module Str.
Local Open Scope N_scope.

Definition c_ccedil : N := 231.   (* U+00E7 *)
Definition c_atilde : N := 227.   (* U+00E3 *)
Definition c_degree : N := 176.   (* U+00B0 *)
Definition c_ordm : N := 186.     (* U+00BA *)

(* s.startswith(p) *)
Fixpoint startswith (p s : pystr) : bool :=
  match p, s with
  | [], _ => true
  | a :: p', b :: s' => (a =? b) && startswith p' s'
  | _ :: _, [] => false
  end.

(* s.endswith(p) *)
Definition endswith (p s : pystr) : bool := startswith (rev p) (rev s).

(* sub in s *)
Fixpoint contains (sub s : pystr) : bool :=
  startswith sub s ||
  match s with
  | [] => false
  | _ :: s' => contains sub s'
  end.

(* s.replace(a, b) for one-character a and b *)
Definition replace (a b : N) (s : pystr) : pystr :=
  map (fun c => if c =? a then b else c) s.

(* s.zfill(width) *)
Definition zfill (width : nat) (s : pystr) : pystr :=
  let zeros := repeat 48 (width - length s) in
  match s with
  | c :: s' => if (c =? 43) || (c =? 45) then c :: zeros ++ s' else zeros ++ s
  | [] => zeros
  end.

(* str(z) for an int *)
Definition of_Z (z : Z) : pystr := lit (NilZero.string_of_int (Z.to_int z)).

(* f"{z:02d}" for a non-negative int *)
Definition of_Z_02d (z : Z) : pystr := zfill 2 (of_Z z).

(* One code point in UTF-8; surrogates cannot be encoded. *)
Definition utf8_char (c : N) : option (list N) :=
  if c <? 0x80 then Some [c]
  else if c <? 0x800 then
    Some [N.lor 0xC0 (N.shiftr c 6); N.lor 0x80 (N.land c 0x3F)]
  else if (0xD800 <=? c) && (c <=? 0xDFFF) then None
  else if c <? 0x10000 then
    Some [N.lor 0xE0 (N.shiftr c 12);
          N.lor 0x80 (N.land (N.shiftr c 6) 0x3F);
          N.lor 0x80 (N.land c 0x3F)]
  else
    Some [N.lor 0xF0 (N.shiftr c 18);
          N.lor 0x80 (N.land (N.shiftr c 12) 0x3F);
          N.lor 0x80 (N.land (N.shiftr c 6) 0x3F);
          N.lor 0x80 (N.land c 0x3F)].

(* s.encode('utf-8'); None stands for UnicodeEncodeError *)
Fixpoint encode_utf8 (s : pystr) : option (list N) :=
  match s with
  | [] => Some []
  | c :: s' =>
      match utf8_char c, encode_utf8 s' with
      | Some bs, Some rest => Some (bs ++ rest)
      | _, _ => None
      end
  end.
End Str.

(** ** pathlib

    A pure POSIX path: where it is anchored and its components.  Read from
    a text, the components are what the slashes separate, without the empty
    ones and the single dots; two dots stay as they are.  A text that
    begins with exactly two slashes has an anchor of its own. *)

Module Path.
Local Open Scope N_scope.

Inductive raiz :=
| Relativo       (* no anchor *)
| Barra          (* '/' *)
| DuasBarras.    (* '//' *)

Definition mesma_raiz (a b : raiz) : bool :=
  match a, b with
  | Relativo, Relativo | Barra, Barra | DuasBarras, DuasBarras => true
  | _, _ => false
  end.

Record t := mk {
  root : raiz;
  parts : list pystr
}.

(* s.split('/') *)
Fixpoint split (s : pystr) : list pystr :=
  match s with
  | [] => [[]]
  | c :: s' =>
      if c =? 47 then [] :: split s'
      else match split s' with
           | p :: ps => (c :: p) :: ps
           | [] => [[c]]
           end
  end.

Definition raiz_de (s : pystr) : raiz :=
  if Str.startswith [47; 47; 47] s then Barra
  else if Str.startswith [47; 47] s then DuasBarras
  else if Str.startswith [47] s then Barra
  else Relativo.

(* a component that is kept: not empty and not '.' *)
Definition componente (p : pystr) : bool :=
  match p with
  | [] => false
  | [c] => negb (c =? 46)
  | _ => true
  end.

(* PurePosixPath(s) *)
Definition of_str (s : pystr) : t :=
  mk (raiz_de s) (List.filter componente (split s)).

(* self / key: an anchored key takes the place of self *)
Definition truediv (p : t) (key : pystr) : t :=
  let q := of_str key in
  match root q with
  | Relativo => mk (root p) (parts p ++ parts q)
  | _ => q
  end.

(* '/'.join(ps) *)
Fixpoint join (ps : list pystr) : pystr :=
  match ps with
  | [] => []
  | [p] => p
  | p :: ps' => p ++ 47 :: join ps'
  end.

(* str(self) *)
Definition str (p : t) : pystr :=
  match root p with
  | Relativo => match parts p with [] => [46] | ps => join ps end
  | Barra => 47 :: join (parts p)
  | DuasBarras => 47 :: 47 :: join (parts p)
  end.

(* l without its leading pre, when it begins with pre *)
Fixpoint sem_prefixo (pre l : list pystr) : option (list pystr) :=
  match pre, l with
  | [], _ => Some l
  | a :: pre', b :: l' => if decide (a = b) then sem_prefixo pre' l' else None
  | _ :: _, [] => None
  end.

(* self.relative_to(other); None stands for ValueError *)
Definition relative_to (p other : t) : option t :=
  if mesma_raiz (root p) (root other) then
    match sem_prefixo (parts other) (parts p) with
    | Some resto => Some (mk Relativo resto)
    | None => None
    end
  else None.
End Path.

(** ** hashlib.sha256

    SHA-256 of FIPS 180-4 over a byte string, words as [N] below 2^32.  The
    constants are computed the way the standard defines them, from the roots
    of the first primes. *)

Module hashlib.
Local Open Scope N_scope.

Definition mask32 : N := 0xFFFFFFFF.
Definition add32 (x y : N) : N := N.land (x + y) mask32.
Definition rotr (n x : N) : N :=
  N.lor (N.shiftr x n) (N.land (N.shiftl x (32 - n)) mask32).
Definition Ch (x y z : N) : N :=
  N.lxor (N.land x y) (N.land (N.lxor x mask32) z).
Definition Maj (x y z : N) : N :=
  N.lxor (N.lxor (N.land x y) (N.land x z)) (N.land y z).
Definition Sigma0 (x : N) : N := N.lxor (N.lxor (rotr 2 x) (rotr 13 x)) (rotr 22 x).
Definition Sigma1 (x : N) : N := N.lxor (N.lxor (rotr 6 x) (rotr 11 x)) (rotr 25 x).
Definition sigma0 (x : N) : N := N.lxor (N.lxor (rotr 7 x) (rotr 18 x)) (N.shiftr x 3).
Definition sigma1 (x : N) : N := N.lxor (N.lxor (rotr 17 x) (rotr 19 x)) (N.shiftr x 10).

(* floor of the k-th root of x, by bisection between lo and hi *)
Fixpoint root_between (fuel : nat) (k x lo hi : N) : N :=
  match fuel with
  | O => lo
  | S fuel' =>
      let mid := (lo + hi) / 2 in
      if mid ^ k <=? x then root_between fuel' k x mid hi
      else root_between fuel' k x lo mid
  end.

(* The first 32 bits of the fractional part of the k-th root of p. *)
Definition frac_root (k p : N) : N :=
  N.land (root_between 40 k (p * 2 ^ (32 * k)) 0 (2 ^ 37)) mask32.

Definition primes : list N :=
  [2; 3; 5; 7; 11; 13; 17; 19; 23; 29; 31; 37; 41; 43; 47; 53; 59; 61; 67; 71; 73;
   79; 83; 89; 97; 101; 103; 107; 109; 113; 127; 131; 137; 139; 149; 151; 157; 163;
   167; 173; 179; 181; 191; 193; 197; 199; 211; 223; 227; 229; 233; 239; 241; 251;
   257; 263; 269; 271; 277; 281; 283; 293; 307; 311].

(* Round constants: cube roots of the first 64 primes. *)
Definition K : list N := map (frac_root 3) primes.

(* Initial hash value: square roots of the first 8 primes. *)
Definition H0 : list N := map (frac_root 2) (firstn 8 primes).

(* The [n] low-order bytes of [x], most significant first. *)
Fixpoint be_bytes (n : nat) (x : N) : list N :=
  match n with
  | O => []
  | S n' => be_bytes n' (N.shiftr x 8) ++ [N.land x 0xFF]
  end.

Definition pad (msg : list N) : list N :=
  let len := N.of_nat (length msg) in
  let k := (119 - len mod 64) mod 64 in
  msg ++ [0x80] ++ repeat 0 (N.to_nat k) ++ be_bytes 8 (8 * len).

Fixpoint be_words (n : nat) (bs : list N) : list N :=
  match n, bs with
  | S n', b0 :: b1 :: b2 :: b3 :: rest =>
      (N.lor (N.shiftl b0 24) (N.lor (N.shiftl b1 16) (N.lor (N.shiftl b2 8) b3)))
        :: be_words n' rest
  | _, _ => []
  end.

(* Message schedule, kept with the most recent word first. *)
Fixpoint extend (n : nat) (w_rev : list N) : list N :=
  match n with
  | O => w_rev
  | S n' =>
      let w := add32 (add32 (sigma1 (nth 1 w_rev 0)) (nth 6 w_rev 0))
                     (add32 (sigma0 (nth 14 w_rev 0)) (nth 15 w_rev 0)) in
      extend n' (w :: w_rev)
  end.

Definition schedule (block : list N) : list N :=
  rev (extend 48 (rev (be_words 16 block))).

Definition round (st : list N) (kw : N * N) : list N :=
  match st with
  | [a; b; c; d; e; f; g; h] =>
      let t1 := add32 (add32 (add32 h (Sigma1 e)) (add32 (Ch e f g) (fst kw))) (snd kw) in
      let t2 := add32 (Sigma0 a) (Maj a b c) in
      [add32 t1 t2; a; b; c; add32 d t1; e; f; g]
  | _ => st
  end.

Definition compress (h : list N) (block : list N) : list N :=
  let st := fold_left round (combine K (schedule block)) h in
  map (fun p => add32 (fst p) (snd p)) (combine h st).

Fixpoint blocks (n : nat) (bs : list N) (h : list N) : list N :=
  match n with
  | O => h
  | S n' => blocks n' (skipn 64 bs) (compress h (firstn 64 bs))
  end.

Definition digest_words (msg : list N) : list N :=
  let p := pad msg in
  blocks (length p / 64) p H0.

Definition hex_digit (x : N) : N :=
  if x <? 10 then 48 + x else 87 + x.

Fixpoint hex (n : nat) (x : N) : list N :=
  match n with
  | O => []
  | S n' => hex n' (N.shiftr x 4) ++ [hex_digit (N.land x 0xF)]
  end.

(* hashlib.sha256(msg).hexdigest() *)
Definition sha256_hexdigest (msg : list N) : pystr :=
  flat_map (hex 8) (digest_words msg).
End hashlib.

(** ** What the platform provides

    Functions of the Python runtime and of third-party packages that the
    scrapers call and whose code is not part of the repository. *)

Class Platform := {
  (* str.lower() *)
  str_lower : pystr -> pystr;
  (* decimal value of a character that the pattern \d matches and int() reads *)
  unicode_digit : N -> option Z;
  (* the characters that the pattern \s matches *)
  unicode_space : N -> bool;
  (* BeautifulSoup(html, 'html.parser').find_all('a', href=True), each link
     as (link.get('href', ''), link.get_text(strip=True)) *)
  soup_links : pystr -> list (pystr * pystr);
  (* (year, month) of datetime.now() when the clock reads the given instant *)
  local_year_month : Z -> Z * Z;
  (* the components of Path(settings.BASE_DIR).parent, the directory of the
     project, which the settings give as an absolute path *)
  projeto : list pystr
}.

(** ** models.py

    Instants are integers counting microseconds.  The columns filled by the
    database itself (auto_now timestamps, the key of a document) and the
    free-form metadados of a run log are left out: no method of the scrapers
    reads or writes them. *)

Module FonteDados.
Record t := mk {
  pk : Z;
  nome : pystr;
  descricao : pystr;
  tipo : pystr;
  url_base : pystr;
  frequencia_coleta : pystr;
  scraper_class : pystr;
  status : pystr;
  ativo : bool;
  ultima_coleta : option Z;
  proxima_coleta : option Z
}.

Definition set_ultima_coleta (v : option Z) (f : t) : t :=
  mk (pk f) (nome f) (descricao f) (tipo f) (url_base f) (frequencia_coleta f)
     (scraper_class f) (status f) (ativo f) v (proxima_coleta f).
End FonteDados.

Module DocumentoFonte.
Record t := mk {
  fonte : Z;
  titulo : pystr;
  tipo_documento : pystr;
  url_origem : pystr;
  identificador_externo : pystr;
  hash_conteudo : pystr;
  caminho_arquivo : pystr;
  tamanho_bytes : Z;
  data_publicacao : option pystr;
  orgao_emissor : pystr;
  numero_documento : pystr;
  status : pystr;
  versao : Z
}.

Definition set_titulo (v : pystr) (d : t) : t :=
  mk (fonte d) v (tipo_documento d) (url_origem d) (identificador_externo d)
     (hash_conteudo d) (caminho_arquivo d) (tamanho_bytes d) (data_publicacao d)
     (orgao_emissor d) (numero_documento d) (status d) (versao d).
Definition set_url_origem (v : pystr) (d : t) : t :=
  mk (fonte d) (titulo d) (tipo_documento d) v (identificador_externo d)
     (hash_conteudo d) (caminho_arquivo d) (tamanho_bytes d) (data_publicacao d)
     (orgao_emissor d) (numero_documento d) (status d) (versao d).
Definition set_hash_conteudo (v : pystr) (d : t) : t :=
  mk (fonte d) (titulo d) (tipo_documento d) (url_origem d) (identificador_externo d)
     v (caminho_arquivo d) (tamanho_bytes d) (data_publicacao d)
     (orgao_emissor d) (numero_documento d) (status d) (versao d).
Definition set_caminho_arquivo (v : pystr) (d : t) : t :=
  mk (fonte d) (titulo d) (tipo_documento d) (url_origem d) (identificador_externo d)
     (hash_conteudo d) v (tamanho_bytes d) (data_publicacao d)
     (orgao_emissor d) (numero_documento d) (status d) (versao d).
Definition set_tamanho_bytes (v : Z) (d : t) : t :=
  mk (fonte d) (titulo d) (tipo_documento d) (url_origem d) (identificador_externo d)
     (hash_conteudo d) (caminho_arquivo d) v (data_publicacao d)
     (orgao_emissor d) (numero_documento d) (status d) (versao d).
Definition set_data_publicacao (v : option pystr) (d : t) : t :=
  mk (fonte d) (titulo d) (tipo_documento d) (url_origem d) (identificador_externo d)
     (hash_conteudo d) (caminho_arquivo d) (tamanho_bytes d) v
     (orgao_emissor d) (numero_documento d) (status d) (versao d).
Definition set_orgao_emissor (v : pystr) (d : t) : t :=
  mk (fonte d) (titulo d) (tipo_documento d) (url_origem d) (identificador_externo d)
     (hash_conteudo d) (caminho_arquivo d) (tamanho_bytes d) (data_publicacao d)
     v (numero_documento d) (status d) (versao d).
Definition set_numero_documento (v : pystr) (d : t) : t :=
  mk (fonte d) (titulo d) (tipo_documento d) (url_origem d) (identificador_externo d)
     (hash_conteudo d) (caminho_arquivo d) (tamanho_bytes d) (data_publicacao d)
     (orgao_emissor d) v (status d) (versao d).
Definition set_status (v : pystr) (d : t) : t :=
  mk (fonte d) (titulo d) (tipo_documento d) (url_origem d) (identificador_externo d)
     (hash_conteudo d) (caminho_arquivo d) (tamanho_bytes d) (data_publicacao d)
     (orgao_emissor d) (numero_documento d) v (versao d).
Definition set_versao (v : Z) (d : t) : t :=
  mk (fonte d) (titulo d) (tipo_documento d) (url_origem d) (identificador_externo d)
     (hash_conteudo d) (caminho_arquivo d) (tamanho_bytes d) (data_publicacao d)
     (orgao_emissor d) (numero_documento d) (status d) v.

(* unique_together = [['fonte', 'identificador_externo']] *)
Definition chave (d : t) : Z * pystr := (fonte d, identificador_externo d).

(* calcular_hash; None stands for the UnicodeEncodeError of encode *)
Definition calcular_hash (conteudo : pystr) : option pystr :=
  match Str.encode_utf8 conteudo with
  | Some bs => Some (hashlib.sha256_hexdigest bs)
  | None => None
  end.
End DocumentoFonte.

Module LogColeta.
Record t := mk {
  pk : Z;
  fonte : Z;
  status : pystr;
  iniciado_em : Z;
  finalizado_em : option Z;
  duracao_segundos : option Z;
  documentos_novos : Z;
  documentos_atualizados : Z;
  documentos_ignorados : Z;
  documentos_erro : Z;
  mensagem : pystr;
  erro_detalhe : pystr
}.

(* calcular_duracao: int(delta.total_seconds()) truncates toward zero.
   total_seconds() is a float; the quotient below is what it gives as long
   as the two instants are less than 2^53 microseconds (285 years) apart. *)
Definition calcular_duracao (l : t) : t :=
  match finalizado_em l with
  | Some fim =>
      mk (pk l) (fonte l) (status l) (iniciado_em l) (finalizado_em l)
         (Some (Z.quot (fim - iniciado_em l) 1000000))
         (documentos_novos l) (documentos_atualizados l)
         (documentos_ignorados l) (documentos_erro l)
         (mensagem l) (erro_detalhe l)
  | None => l
  end.
End LogColeta.

(** ** The world a scraper runs in *)

(* What a run does to the outside, in the order it does it. *)
Inductive event :=
| EvFetch (url : pystr)                       (* session.get(url, timeout=30) *)
| EvSleep                                     (* time.sleep(...) of _delay *)
| EvWriteText (caminho conteudo : pystr)      (* Path.write_text *)
| EvDocCreate (d : DocumentoFonte.t)          (* DocumentoFonte.objects.create *)
| EvDocSave (d : DocumentoFonte.t)            (* DocumentoFonte.save *)
| EvLogCreate (l : LogColeta.t)               (* LogColeta.objects.create *)
| EvLogSave (l : LogColeta.t)                 (* LogColeta.save *)
| EvFonteSave (f : FonteDados.t)              (* FonteDados.save *)
| EvSessionClose.                             (* session.close() *)

(* The attributes of a ScraperBase object. *)
Record Scraper := mkScraper {
  fonte : FonteDados.t;
  log : option LogColeta.t;
  session_open : bool;
  docs_novos : Z;
  docs_atualizados : Z;
  docs_ignorados : Z;
  docs_erro : Z
}.

Record World := mkWorld {
  self : Scraper;
  (* database tables *)
  fontes : gmap Z FonteDados.t;
  documentos : gmap (Z * pystr) DocumentoFonte.t;
  logs : gmap Z LogColeta.t;
  log_seq : Z;                          (* next key of the LogColeta table *)
  (* the files on the disk, by path as str(caminho) gives it *)
  arquivos : gmap pystr pystr;
  trace : list event;
  (* environment: the readings of the clock, the answers of the origin
     (None: the request fails or its status is an error), and which of the
     coming operations on documents and files, and on run logs and sources,
     raise an error *)
  relogio : nat -> Z;
  leituras : nat;
  http : pystr -> option pystr;
  doc_faults : list bool;
  run_faults : list bool
}.

Definition with_self (s : Scraper) (w : World) : World :=
  mkWorld s (fontes w) (documentos w) (logs w) (log_seq w) (arquivos w) (trace w)
          (relogio w) (leituras w) (http w) (doc_faults w) (run_faults w).
Definition with_fontes (m : gmap Z FonteDados.t) (w : World) : World :=
  mkWorld (self w) m (documentos w) (logs w) (log_seq w) (arquivos w) (trace w)
          (relogio w) (leituras w) (http w) (doc_faults w) (run_faults w).
Definition with_documentos (m : gmap (Z * pystr) DocumentoFonte.t) (w : World) : World :=
  mkWorld (self w) (fontes w) m (logs w) (log_seq w) (arquivos w) (trace w)
          (relogio w) (leituras w) (http w) (doc_faults w) (run_faults w).
Definition with_logs (m : gmap Z LogColeta.t) (n : Z) (w : World) : World :=
  mkWorld (self w) (fontes w) (documentos w) m n (arquivos w) (trace w)
          (relogio w) (leituras w) (http w) (doc_faults w) (run_faults w).
Definition with_arquivos (m : gmap pystr pystr) (w : World) : World :=
  mkWorld (self w) (fontes w) (documentos w) (logs w) (log_seq w) m (trace w)
          (relogio w) (leituras w) (http w) (doc_faults w) (run_faults w).
Definition with_trace (t : list event) (w : World) : World :=
  mkWorld (self w) (fontes w) (documentos w) (logs w) (log_seq w) (arquivos w) t
          (relogio w) (leituras w) (http w) (doc_faults w) (run_faults w).
Definition with_leituras (n : nat) (w : World) : World :=
  mkWorld (self w) (fontes w) (documentos w) (logs w) (log_seq w) (arquivos w) (trace w)
          (relogio w) n (http w) (doc_faults w) (run_faults w).
Definition with_doc_faults (l : list bool) (w : World) : World :=
  mkWorld (self w) (fontes w) (documentos w) (logs w) (log_seq w) (arquivos w) (trace w)
          (relogio w) (leituras w) (http w) l (run_faults w).
Definition with_run_faults (l : list bool) (w : World) : World :=
  mkWorld (self w) (fontes w) (documentos w) (logs w) (log_seq w) (arquivos w) (trace w)
          (relogio w) (leituras w) (http w) (doc_faults w) l.

Definition with_fonte (f : FonteDados.t) (s : Scraper) : Scraper :=
  mkScraper f (log s) (session_open s) (docs_novos s) (docs_atualizados s)
            (docs_ignorados s) (docs_erro s).
Definition with_log (l : option LogColeta.t) (s : Scraper) : Scraper :=
  mkScraper (fonte s) l (session_open s) (docs_novos s) (docs_atualizados s)
            (docs_ignorados s) (docs_erro s).
Definition with_session_open (b : bool) (s : Scraper) : Scraper :=
  mkScraper (fonte s) (log s) b (docs_novos s) (docs_atualizados s)
            (docs_ignorados s) (docs_erro s).
Definition with_docs_novos (n : Z) (s : Scraper) : Scraper :=
  mkScraper (fonte s) (log s) (session_open s) n (docs_atualizados s)
            (docs_ignorados s) (docs_erro s).
Definition with_docs_atualizados (n : Z) (s : Scraper) : Scraper :=
  mkScraper (fonte s) (log s) (session_open s) (docs_novos s) n
            (docs_ignorados s) (docs_erro s).
Definition with_docs_ignorados (n : Z) (s : Scraper) : Scraper :=
  mkScraper (fonte s) (log s) (session_open s) (docs_novos s) (docs_atualizados s)
            n (docs_erro s).
Definition with_docs_erro (n : Z) (s : Scraper) : Scraper :=
  mkScraper (fonte s) (log s) (session_open s) (docs_novos s) (docs_atualizados s)
            (docs_ignorados s) n.

(** ** Computations: state with exceptions

    A raised exception keeps the state reached so far, as in Python. *)

Inductive exn :=
| DoesNotExist
| DatabaseError
| IntegrityError
| OSError
| UnicodeEncodeError
| AttributeError
| ValueError
| OverflowError.

Inductive outcome (A : Type) :=
| Ok (a : A)
| Raise (e : exn).
Arguments Ok {A} a.
Arguments Raise {A} e.

Definition M (A : Type) : Type := World -> outcome A * World.

#[global] Instance M_ret : MRet M := fun A a w => (Ok a, w).
#[global] Instance M_bind : MBind M := fun A B f m w =>
  match m w with
  | (Ok a, w') => f a w'
  | (Raise e, w') => (Raise e, w')
  end.

Definition raise {A : Type} (e : exn) : M A := fun w => (Raise e, w).
Definition gets {A : Type} (f : World -> A) : M A := fun w => (Ok (f w), w).
Definition modify (f : World -> World) : M unit := fun w => (Ok tt, f w).
Definition modify_self (f : Scraper -> Scraper) : M unit :=
  modify (fun w => with_self (f (self w)) w).
Definition emit (e : event) : M unit :=
  modify (fun w => with_trace (trace w ++ [e]) w).

(* try: body except Exception as e: handler e *)
Definition try_except {A : Type} (body : M A) (handler : exn -> M A) : M A :=
  fun w =>
    match body w with
    | (Ok a, w') => (Ok a, w')
    | (Raise e, w') => handler e w'
    end.

(* try: body finally: fin *)
Definition try_finally {A : Type} (body : M A) (fin : M unit) : M A :=
  fun w =>
    match body w with
    | (r, w') =>
        match fin w' with
        | (Ok _, w'') => (r, w'')
        | (Raise e, w'') => (Raise e, w'')
        end
    end.

(* str(e); for the errors of the database, of the disk and of the runtime
   the text stands for the message that the library gives *)
Definition exn_str (e : exn) : pystr :=
  match e with
  | DoesNotExist => lit "DocumentoFonte matching query does not exist."
  | DatabaseError => lit "database error"
  | IntegrityError => lit "UNIQUE constraint failed"
  | OSError => lit "os error"
  | UnicodeEncodeError => lit "'utf-8' codec can't encode character"
  | AttributeError => lit "'DocumentoFonte' object has no attribute 'arquivo_upload'"
  | ValueError => lit "path is not in the subpath of the project"
  | OverflowError => lit "date value out of range"
  end.

(* An operation on documents or files: it takes the next entry of the
   schedule and raises when the entry says so; an exhausted schedule means
   no more failures. *)
Definition doc_op (e : exn) : M unit := fun w =>
  if hd false (doc_faults w)
  then (Raise e, with_doc_faults (tl (doc_faults w)) w)
  else (Ok tt, with_doc_faults (tl (doc_faults w)) w).

(* The same for the run log and the source. *)
Definition run_op (e : exn) : M unit := fun w =>
  if hd false (run_faults w)
  then (Raise e, with_run_faults (tl (run_faults w)) w)
  else (Ok tt, with_run_faults (tl (run_faults w)) w).

(* timezone.now() and datetime.now(): the next reading of the clock *)
Definition clock_now : M Z := fun w =>
  (Ok (relogio w (leituras w)), with_leituras (S (leituras w)) w).

(** *** signals.py

    apps.py connects the two receivers when the application starts, so
    Django calls the first inside every save of a document before it writes
    the row, and the second after it has written it. *)

(* instance.arquivo_upload.  DocumentoFonte of models.py declares no field,
   property or method of that name, so reading it raises and gives no
   value. *)
Definition arquivo_upload (instance : DocumentoFonte.t) : M Empty_set :=
  raise AttributeError.

(* processar_arquivo_upload, receiver of pre_save.  Its first statement
   reads instance.arquivo_upload; the statements after it need the value
   read. *)
Definition processar_arquivo_upload (instance : DocumentoFonte.t) : M unit :=
  upload ← arquivo_upload instance;
  match upload : Empty_set with end.

(* log_documento_salvo, receiver of post_save: calls of the logger, and for
   a row just created a reading of instance.arquivo_upload *)
Definition log_documento_salvo (instance : DocumentoFonte.t) (created : bool) : M unit :=
  if created then
    upload ← arquivo_upload instance;
    match upload : Empty_set with end
  else mret tt.

(** *** The ORM and the file system

    An operation on the database or on the disk either raises, when the
    schedule of the environment says so, or takes effect at once.  A save
    of a document runs the receivers of signals.py around the writing of
    the row. *)

(* DocumentoFonte.objects.get(fonte=..., identificador_externo=...) *)
Definition documento_get (fonte_pk : Z) (identificador : pystr) : M DocumentoFonte.t :=
  doc_op DatabaseError;;
  tb ← gets documentos;
  match tb !! (fonte_pk, identificador) with
  | Some d => mret d
  | None => raise DoesNotExist
  end.

(* doc.save() of a document read from the table *)
Definition documento_save (d : DocumentoFonte.t) : M unit :=
  processar_arquivo_upload d;;
  doc_op DatabaseError;;
  modify (fun w => with_documentos (<[DocumentoFonte.chave d := d]> (documentos w)) w);;
  emit (EvDocSave d);;
  log_documento_salvo d false.

(* DocumentoFonte.objects.create(...), which makes the object and saves it;
   status and versao take their defaults *)
Definition documento_create (d : DocumentoFonte.t) : M DocumentoFonte.t :=
  processar_arquivo_upload d;;
  doc_op DatabaseError;;
  tb ← gets documentos;
  match tb !! DocumentoFonte.chave d with
  | Some _ => raise IntegrityError
  | None =>
      modify (fun w => with_documentos (<[DocumentoFonte.chave d := d]> (documentos w)) w);;
      emit (EvDocCreate d);;
      log_documento_salvo d true;;
      mret d
  end.

(* caminho.write_text(conteudo, encoding='utf-8') *)
Definition write_text (caminho : Path.t) (conteudo : pystr) : M unit :=
  doc_op OSError;;
  modify (fun w => with_arquivos (<[Path.str caminho := conteudo]> (arquivos w)) w);;
  emit (EvWriteText (Path.str caminho) conteudo).

(* caminho.relative_to(other) *)
Definition relative_to (caminho other : Path.t) : M Path.t :=
  match Path.relative_to caminho other with
  | Some r => mret r
  | None => raise ValueError
  end.

(** ** scraper_base.py *)

Section ScraperBase.
Context {platform : Platform}.

(* _delay: the pause itself is the only effect *)
Definition _delay : M unit := emit EvSleep.

Definition _criar_log : M LogColeta.t :=
  f ← gets (fun w => fonte (self w));
  agora ← clock_now;
  run_op DatabaseError;;
  id ← gets log_seq;
  let l := LogColeta.mk id (FonteDados.pk f) (lit "iniciado") agora None None
                        0 0 0 0 [] [] in
  modify (fun w => with_logs (<[id := l]> (logs w)) (id + 1) w);;
  emit (EvLogCreate l);;
  modify_self (with_log (Some l));;
  mret l.

Definition _finalizar_log (status mensagem erro : pystr) : M unit :=
  s ← gets self;
  match log s with
  | None => mret tt
  | Some l =>
      agora ← clock_now;
      let l :=
        LogColeta.calcular_duracao
          (LogColeta.mk (LogColeta.pk l) (LogColeta.fonte l) status
             (LogColeta.iniciado_em l) (Some agora) (LogColeta.duracao_segundos l)
             (LogColeta.documentos_novos l) (LogColeta.documentos_atualizados l)
             (LogColeta.documentos_ignorados l) (LogColeta.documentos_erro l)
             (LogColeta.mensagem l) (LogColeta.erro_detalhe l)) in
      let l :=
        LogColeta.mk (LogColeta.pk l) (LogColeta.fonte l) (LogColeta.status l)
          (LogColeta.iniciado_em l) (LogColeta.finalizado_em l)
          (LogColeta.duracao_segundos l)
          (docs_novos s) (docs_atualizados s) (docs_ignorados s) (docs_erro s)
          mensagem erro in
      modify_self (with_log (Some l));;
      (* self.log.save() *)
      run_op DatabaseError;;
      modify (fun w => with_logs (<[LogColeta.pk l := l]> (logs w)) (log_seq w) w);;
      emit (EvLogSave l);;
      (* Atualizar fonte *)
      agora ← clock_now;
      let f := FonteDados.set_ultima_coleta (Some agora) (fonte s) in
      modify_self (with_fonte f);;
      run_op DatabaseError;;
      modify (fun w => with_fontes (<[FonteDados.pk f := f]> (fontes w)) w);;
      emit (EvFonteSave f)
  end.

(* Path(settings.BASE_DIR).parent *)
Definition projeto_dir : Path.t := Path.mk Path.Barra projeto.

Definition _obter_caminho_arquivo (identificador extensao : pystr) : M Path.t :=
  let data_dir := Path.truediv (Path.truediv projeto_dir (lit "data")) (lit "raw") in
  f ← gets (fun w => fonte (self w));
  let fonte_dir :=
    Path.truediv data_dir (Str.replace 32 95 (str_lower (FonteDados.nome f))) in
  (* Organizar por data *)
  agora ← clock_now;
  let ano_mes := local_year_month agora in
  let ano_mes_dir :=
    Path.truediv (Path.truediv fonte_dir (Str.of_Z (fst ano_mes)))
      (Str.of_Z_02d (snd ano_mes)) in
  (* ano_mes_dir.mkdir(parents=True, exist_ok=True) *)
  doc_op OSError;;
  (* Sanitizar identificador *)
  let safe_id := Str.replace 92 95 (Str.replace 47 95 identificador) in
  mret (Path.truediv ano_mes_dir (safe_id ++ lit "." ++ extensao)).

(* len(conteudo.encode('utf-8')) *)
Definition utf8_len (conteudo : pystr) : M Z :=
  match Str.encode_utf8 conteudo with
  | Some bs => mret (Z.of_nat (length bs))
  | None => raise UnicodeEncodeError
  end.

(* metadados[k] when metadados is given, is not empty (a dict is true when
   it is not empty) and has the key *)
Definition dict_get (metadados : option (gmap pystr pystr)) (k : pystr) : option pystr :=
  match metadados with
  | Some m => if decide (m = ∅) then None else m !! k
  | None => None
  end.

(* if 'k' in metadados: doc.campo = metadados['k'] *)
Definition se_presente (valor : option pystr)
    (set : pystr -> DocumentoFonte.t -> DocumentoFonte.t)
    (doc : DocumentoFonte.t) : DocumentoFonte.t :=
  match valor with
  | Some v => set v doc
  | None => doc
  end.

Definition _salvar_documento_body
    (titulo conteudo url identificador tipo_documento : pystr)
    (metadados : option (gmap pystr pystr)) : M (option DocumentoFonte.t) :=
  hash_atual ←
    match DocumentoFonte.calcular_hash conteudo with
    | Some h => mret h
    | None => raise UnicodeEncodeError
    end;
  f ← gets (fun w => fonte (self w));
  try_except
    (doc_existente ← documento_get (FonteDados.pk f) identificador;
     if decide (DocumentoFonte.hash_conteudo doc_existente = hash_atual) then
       modify_self (fun s => with_docs_ignorados (docs_ignorados s + 1) s);;
       mret (Some doc_existente)
     else
       let doc := DocumentoFonte.set_hash_conteudo hash_atual doc_existente in
       let doc := DocumentoFonte.set_versao (DocumentoFonte.versao doc + 1) doc in
       let doc := DocumentoFonte.set_titulo titulo doc in
       let doc := DocumentoFonte.set_url_origem url doc in
       let doc := DocumentoFonte.set_status (lit "coletado") doc in
       (* Atualizar metadados se fornecidos *)
       let doc :=
         se_presente (dict_get metadados (lit "data_publicacao"))
           (fun v => DocumentoFonte.set_data_publicacao (Some v)) doc in
       let doc :=
         se_presente (dict_get metadados (lit "orgao_emissor"))
           DocumentoFonte.set_orgao_emissor doc in
       let doc :=
         se_presente (dict_get metadados (lit "numero_documento"))
           DocumentoFonte.set_numero_documento doc in
       documento_save doc;;
       modify_self (fun s => with_docs_atualizados (docs_atualizados s + 1) s);;
       (* Salvar arquivo atualizado *)
       caminho ← _obter_caminho_arquivo identificador (lit "html");
       write_text caminho conteudo;;
       relativo ← relative_to caminho projeto_dir;
       let doc := DocumentoFonte.set_caminho_arquivo (Path.str relativo) doc in
       tamanho ← utf8_len conteudo;
       let doc := DocumentoFonte.set_tamanho_bytes tamanho doc in
       documento_save doc;;
       mret (Some doc))
    (fun e =>
       match e with
       | DoesNotExist =>
           (* Documento novo *)
           caminho ← _obter_caminho_arquivo identificador (lit "html");
           write_text caminho conteudo;;
           relativo ← relative_to caminho projeto_dir;
           tamanho ← utf8_len conteudo;
           doc_novo ← documento_create
             (DocumentoFonte.mk (FonteDados.pk f) titulo tipo_documento url
                identificador hash_atual (Path.str relativo) tamanho
                (dict_get metadados (lit "data_publicacao"))
                (default [] (dict_get metadados (lit "orgao_emissor")))
                (default [] (dict_get metadados (lit "numero_documento")))
                (lit "coletado") 1);
           modify_self (fun s => with_docs_novos (docs_novos s + 1) s);;
           mret (Some doc_novo)
       | _ => raise e
       end).

Definition _salvar_documento
    (titulo conteudo url identificador tipo_documento : pystr)
    (metadados : option (gmap pystr pystr)) : M (option DocumentoFonte.t) :=
  try_except
    (_salvar_documento_body titulo conteudo url identificador tipo_documento metadados)
    (fun e =>
       modify_self (fun s => with_docs_erro (docs_erro s + 1) s);;
       mret None).

(* The two abstract methods every scraper implements. *)
Class ScraperImpl := {
  coletar : M bool;
  validar_configuracao : M bool
}.

Definition executar {impl : ScraperImpl} : M bool :=
  try_finally
    (try_except
       (valida ← validar_configuracao;
        if negb valida then mret false
        else
          _criar_log;;
          sucesso ← coletar;
          (if sucesso : bool then
             s ← gets self;
             _finalizar_log (lit "sucesso")
               (lit "Coleta conclu" ++ [237%N] ++ lit "da com sucesso. Total: "
                  ++ Str.of_Z (docs_novos s + docs_atualizados s)
                  ++ lit " documentos.")
               []
           else
             _finalizar_log (lit "erro")
               (lit "Coleta falhou sem exce" ++ [Str.c_ccedil; Str.c_atilde] ++ lit "o")
               []);;
          mret sucesso)
       (fun e =>
          _finalizar_log (lit "erro")
            (lit "Erro durante execu" ++ [Str.c_ccedil; Str.c_atilde] ++ lit "o: "
               ++ exn_str e)
            (exn_str e);;
          mret false))
    (modify_self (with_session_open false);; emit EvSessionClose).
End ScraperBase.

(** ** scrapers/cosit_scraper.py *)

(* for x in l: acc = body(acc, x) *)
Fixpoint for_each {A S : Type} (body : S -> A -> M S) (l : list A) (acc : S) : M S :=
  match l with
  | [] => mret acc
  | x :: l' => acc' ← body acc x; for_each body l' acc'
  end.

Module CositScraper.
Section CositScraper.
Context {platform : Platform}.
Local Open Scope N_scope.

Definition BASE_URL : pystr :=
  lit "https://www.gov.br/receitafederal/pt-br/acesso-a-informacao/legislacao/solucoes-de-consulta".

Definition validar_configuracao : M bool :=
  f ← gets (fun w => fonte (self w));
  if decide (FonteDados.url_base f = []) then mret false
  else if decide (FonteDados.tipo f = lit "web") then mret true
  else mret false.

Definition _extrair_ano_atual : M Z :=
  agora ← clock_now;
  mret (fst (local_year_month agora)).

Definition _obter_lista_anos : M (list Z) :=
  ano_atual ← _extrair_ano_atual;
  mret [ano_atual; (ano_atual - 1)%Z].

Definition _construir_url_ano (ano : Z) : pystr :=
  BASE_URL ++ lit "/" ++ Str.of_Z ano.

Definition _e_solucao_consulta (texto href : pystr) : bool :=
  let texto_lower := str_lower texto in
  let href_lower := str_lower href in
  if Str.contains (lit "solu" ++ [Str.c_ccedil; Str.c_atilde] ++ lit "o de consulta") texto_lower
     || Str.contains (lit "solucao de consulta") texto_lower
  then true
  else if Str.contains (lit "cosit") texto_lower
          && (Str.contains [110; Str.c_ordm] texto_lower
              || Str.contains [110; Str.c_degree] texto_lower
              || Str.contains (lit "no") texto_lower)
  then true
  else if Str.endswith (lit ".pdf") href_lower && Str.contains (lit "consul") href_lower
  then true
  else false.

(** *** The pattern n[°º]?\s*(\d+)(?:/(\d{4}))? under re.IGNORECASE *)

Definition is_digit (c : N) : bool :=
  match unicode_digit c with Some _ => true | None => false end.

(* \d+ at the front of s, greedy: the digits and what follows them *)
Fixpoint span_digits (s : pystr) : pystr * pystr :=
  match s with
  | c :: s' =>
      if is_digit c then (c :: fst (span_digits s'), snd (span_digits s'))
      else ([], s)
  | [] => ([], [])
  end.

(* (?:/(\d{4}))? at the front of s: group 2, when the group matches *)
Definition grupo_ano (s : pystr) : option pystr :=
  match s with
  | barra :: a :: b :: c :: d :: _ =>
      if (barra =? 47) && is_digit a && is_digit b && is_digit c && is_digit d
      then Some [a; b; c; d]
      else None
  | _ => None
  end.

(* (\d+)(?:/(\d{4}))? at the front of s: groups 1 and 2 *)
Definition match_numero (s : pystr) : option (pystr * option pystr) :=
  match span_digits s with
  | ([], _) => None
  | (numero, resto) => Some (numero, grupo_ano resto)
  end.

(* \s*(\d+)(?:/(\d{4}))? at the front of s: the spaces are taken greedily
   and given back one at a time when what follows does not match *)
Fixpoint match_espacos (s : pystr) : option (pystr * option pystr) :=
  match s with
  | c :: s' =>
      if unicode_space c then
        match match_espacos s' with
        | Some r => Some r
        | None => match_numero s
        end
      else match_numero s
  | [] => match_numero []
  end.

(* [°º]?\s*(\d+)(?:/(\d{4}))? at the front of s *)
Definition match_ordinal (s : pystr) : option (pystr * option pystr) :=
  match s with
  | c :: s' =>
      if (c =? Str.c_degree) || (c =? Str.c_ordm) then
        match match_espacos s' with
        | Some r => Some r
        | None => match_espacos s
        end
      else match_espacos s
  | [] => match_espacos []
  end.

(* re.search(pattern, texto, re.IGNORECASE): the leftmost match *)
Fixpoint re_search (texto : pystr) : option (pystr * option pystr) :=
  match texto with
  | c :: s' =>
      if (c =? 110) || (c =? 78) then
        match match_ordinal s' with
        | Some r => Some r
        | None => re_search s'
        end
      else re_search s'
  | [] => None
  end.

(* int(s) for a string of digits *)
Definition int_of_digits (s : pystr) : Z :=
  fold_left (fun acc c => (10 * acc + default 0 (unicode_digit c))%Z) s 0%Z.

Record doc_info := mk_doc_info {
  identificador : pystr;
  titulo : pystr;
  url : pystr;
  numero : pystr;
  ano : Z;
  tipo : pystr
}.

(* The link element itself is not used by the method and is left out.  No
   statement under the try raises, so the except branch is never taken. *)
Definition _extrair_info_documento (href texto : pystr) (ano : Z) : option doc_info :=
  match re_search texto with
  | None => None
  | Some (numero, grupo2) =>
      let ano_doc := match grupo2 with Some a => a | None => Str.of_Z ano end in
      let url_completa :=
        if Str.startswith (lit "http") href then href
        else if Str.startswith (lit "/") href then lit "https://www.gov.br" ++ href
        else BASE_URL ++ lit "/" ++ href in
      let identificador := lit "cosit_" ++ ano_doc ++ lit "_" ++ Str.zfill 4 numero in
      Some (mk_doc_info identificador (firstn 500 texto) url_completa numero
              (match grupo2 with Some a => int_of_digits a | None => ano end)
              (lit "consulta"))
  end.

(* The loop of _parsear_pagina_ano over the links of the page. *)
Fixpoint parsear_links (links : list (pystr * pystr)) (ano : Z) : list doc_info :=
  match links with
  | [] => []
  | (href, texto) :: resto =>
      if _e_solucao_consulta texto href then
        match _extrair_info_documento href texto ano with
        | Some info => info :: parsear_links resto ano
        | None => parsear_links resto ano
        end
      else parsear_links resto ano
  end.

Definition _parsear_pagina_ano (html : pystr) (ano : Z) : list doc_info :=
  parsear_links (soup_links html) ano.

(* None when the request raises or the status is an error *)
Definition _baixar_documento (url : pystr) : M (option pystr) :=
  emit (EvFetch url);;
  responder ← gets http;
  mret (responder url).

(* One turn of the loop over documentos; total_processados goes in and out. *)
Definition processar_documento (total_processados : Z) (info : doc_info) : M Z :=
  try_except
    (conteudo ← _baixar_documento (url info);
     match conteudo with
     | None | Some [] =>
         modify_self (fun s => with_docs_erro (docs_erro s + 1) s);;
         mret total_processados
     | Some conteudo =>
         let metadados : gmap pystr pystr :=
           <[lit "numero_documento" := numero info ++ lit "/" ++ Str.of_Z (ano info)]>
             (<[lit "orgao_emissor" := lit "COSIT - Receita Federal"]> ∅) in
         _salvar_documento (titulo info) conteudo (url info) (identificador info)
           (lit "consulta") (Some metadados);;
         let total_processados := (total_processados + 1)%Z in
         (* Rate limiting *)
         _delay;;
         mret total_processados
     end)
    (fun _ =>
       modify_self (fun s => with_docs_erro (docs_erro s + 1) s);;
       mret total_processados).

(* One turn of the loop over anos. *)
Definition processar_ano (total_processados : Z) (ano : Z) : M Z :=
  html_ano ← _baixar_documento (_construir_url_ano ano);
  match html_ano with
  | None | Some [] => mret total_processados
  | Some html_ano =>
      let documentos := _parsear_pagina_ano html_ano ano in
      for_each processar_documento documentos total_processados
  end.

Definition coletar : M bool :=
  try_except
    (anos ← _obter_lista_anos;
     total_processados ← for_each processar_ano anos 0%Z;
     mret (0 <? total_processados)%Z)
    (fun _ => mret false).

#[global] Instance impl : ScraperImpl :=
  Build_ScraperImpl coletar validar_configuracao.
End CositScraper.
End CositScraper.

(** ** A platform to run the model on

    It agrees with CPython on text within Latin-1 and ASCII digits, with
    html.parser on pages made of plain anchors (an a tag whose only
    attribute is a double-quoted href, with text inside), takes UTC as the
    local time zone, instants counting from 1970-01-01, and has the project
    in /srv/assistente. *)

Module Reference.
Local Open Scope N_scope.

Definition lower_char (c : N) : N :=
  if (65 <=? c) && (c <=? 90) then c + 32
  else if (192 <=? c) && (c <=? 222) && negb (c =? 215) then c + 32
  else c.

Definition digit (c : N) : option Z :=
  if (48 <=? c) && (c <=? 57) then Some (Z.of_N (c - 48)) else None.

Definition space (c : N) : bool :=
  ((9 <=? c) && (c <=? 13)) || ((28 <=? c) && (c <=? 32))
  || (c =? 0x85) || (c =? 0xA0) || (c =? 0x1680)
  || ((0x2000 <=? c) && (c <=? 0x200A))
  || (c =? 0x2028) || (c =? 0x2029) || (c =? 0x202F) || (c =? 0x205F)
  || (c =? 0x3000).

(* The text before the first [stop] and the text after it. *)
Fixpoint split_at (stop : N) (s : pystr) : option (pystr * pystr) :=
  match s with
  | [] => None
  | c :: s' =>
      if c =? stop then Some ([], s')
      else match split_at stop s' with
           | Some (a, b) => Some (c :: a, b)
           | None => None
           end
  end.

Fixpoint lstrip (s : pystr) : pystr :=
  match s with
  | c :: s' => if space c then lstrip s' else s
  | [] => []
  end.

Definition strip (s : pystr) : pystr := rev (lstrip (rev (lstrip s))).

Definition anchor_open : pystr := lit "<a href=" ++ [34].

Definition anchor_at (s : pystr) : list (pystr * pystr) :=
  if Str.startswith anchor_open s then
    match split_at 34 (skipn (length anchor_open) s) with
    | Some (href, 62 :: rest) =>
        match split_at 60 rest with
        | Some (texto, _) => [(href, strip texto)]
        | None => []
        end
    | _ => []
    end
  else [].

Fixpoint links (html : pystr) : list (pystr * pystr) :=
  match html with
  | [] => []
  | _ :: html' => anchor_at html ++ links html'
  end.

(* Civil year and month of an instant, proleptic Gregorian calendar. *)
Definition year_month (micros : Z) : Z * Z :=
  let z := (micros / 86400000000 + 719468)%Z in
  let era := (z / 146097)%Z in
  let doe := (z - era * 146097)%Z in
  let yoe := ((doe - doe / 1460 + doe / 36524 - doe / 146096) / 365)%Z in
  let doy := (doe - (365 * yoe + yoe / 4 - yoe / 100))%Z in
  let mp := ((5 * doy + 2) / 153)%Z in
  let m := (if mp <? 10 then mp + 3 else mp - 9)%Z in
  ((if m <=? 2 then yoe + era * 400 + 1 else yoe + era * 400)%Z, m).

#[global] Instance platform : Platform :=
  {| str_lower := map lower_char;
     unicode_digit := digit;
     unicode_space := space;
     soup_links := links;
     local_year_month := year_month;
     projeto := [lit "srv"; lit "assistente"] |}.
End Reference.

(** * The vocabulary of the properties *)

(* Every row of the documents table sits under its own unique pair. *)
Definition tabela_ok (w : World) : Prop :=
  map_Forall (fun k d => DocumentoFonte.chave d = k) (documentos w).

(* Exactly one of the counters of new, updated and unchanged documents went
   up, and by one. *)
Definition so_um_contador (s s' : Scraper) : Prop :=
  (docs_novos s' = docs_novos s + 1 /\ docs_atualizados s' = docs_atualizados s
     /\ docs_ignorados s' = docs_ignorados s)%Z
  \/ (docs_novos s' = docs_novos s /\ docs_atualizados s' = docs_atualizados s + 1
     /\ docs_ignorados s' = docs_ignorados s)%Z
  \/ (docs_novos s' = docs_novos s /\ docs_atualizados s' = docs_atualizados s
     /\ docs_ignorados s' = docs_ignorados s + 1)%Z.

(* The first n operations on documents and files do not fail. *)
Definition sem_falhas (n : nat) (l : list bool) : Prop :=
  Forall (fun b => b = false) (take n l).

(* The events of the harvest itself: requests, pauses, files and documents. *)
Definition evento_de_coleta (e : event) : bool :=
  match e with
  | EvFetch _ | EvSleep | EvWriteText _ _ | EvDocCreate _ | EvDocSave _ => true
  | EvLogCreate _ | EvLogSave _ | EvFonteSave _ | EvSessionClose => false
  end.

(* From w to w' the run log, the source, the session and the environment of
   the run are untouched, and the trace only grew by events of the harvest. *)
Record preserva_execucao (w w' : World) : Prop := {
  pe_fonte : fonte (self w') = fonte (self w);
  pe_log : log (self w') = log (self w);
  pe_session : session_open (self w') = session_open (self w);
  pe_fontes : fontes w' = fontes w;
  pe_logs : logs w' = logs w;
  pe_log_seq : log_seq w' = log_seq w;
  pe_relogio : relogio w' = relogio w;
  pe_http : http w' = http w;
  pe_run_faults : run_faults w' = run_faults w;
  pe_trace : exists t, trace w' = trace w ++ t /\ forallb evento_de_coleta t = true
}.

Definition preserva {A : Type} (m : M A) : Prop :=
  forall w, preserva_execucao w (snd (m w)).

(* In a list of events, no record is created or saved before the content
   was written to a file; escrito says whether it was written already. *)
Fixpoint conteudo_primeiro (conteudo : pystr) (escrito : bool) (t : list event) : bool :=
  match t with
  | [] => true
  | EvWriteText _ c :: t' =>
      conteudo_primeiro conteudo (escrito || bool_decide (c = conteudo)) t'
  | EvDocCreate _ :: t' | EvDocSave _ :: t' =>
      escrito && conteudo_primeiro conteudo escrito t'
  | _ :: t' => conteudo_primeiro conteudo escrito t'
  end.

(* The requests and the pauses among the events. *)
Definition evento_de_rede (e : event) : bool :=
  match e with
  | EvFetch _ | EvSleep => true
  | _ => false
  end.

Section Vocabulario.
Context {platform : Platform}.
Import CositScraper.
Local Open Scope N_scope.

(* The text has an n or N, then at most one of the signs ° and º, then any
   number of spaces, then a digit: what the pattern of
   _extrair_info_documento looks for. *)
Definition tem_numero (texto : pystr) : Prop :=
  exists antes n ord esp d depois,
    texto = antes ++ n :: ord ++ esp ++ d :: depois
    /\ (n = 110 \/ n = 78)
    /\ (ord = [] \/ ord = [Str.c_degree] \/ ord = [Str.c_ordm])
    /\ Forall (fun c => unicode_space c = true) esp
    /\ is_digit d = true.

Definition e_ordinal (ord : pystr) : Prop :=
  ord = [] \/ ord = [Str.c_degree] \/ ord = [Str.c_ordm].

(* The origin answers the request with a body that is not empty. *)
Definition baixavel (responder : pystr -> option pystr) (u : pystr) : bool :=
  match responder u with
  | Some (_ :: _) => true
  | _ => false
  end.

(* The candidates on the index page of a year. *)
Definition candidatos (responder : pystr -> option pystr) (ano : Z) : list doc_info :=
  match responder (_construir_url_ano ano) with
  | Some (c :: html) => _parsear_pagina_ano (c :: html) ano
  | _ => []
  end.

(* How many candidates of a year the harvest downloads and hands to
   _salvar_documento. *)
Definition processados (responder : pystr -> option pystr) (ano : Z) : Z :=
  Z.of_nat (length (filter (fun info => baixavel responder (url info) = true)
                      (candidatos responder ano))).

(* The candidates that a run started in w downloads and hands to
   _salvar_documento: those of this year and of the year before, the year
   being read after _criar_log has read the clock once. *)
Definition processados_na_execucao (w : World) : Z :=
  (processados (http w) (fst (local_year_month (relogio w (S (leituras w)))))
   + processados (http w) (fst (local_year_month (relogio w (S (leituras w)))) - 1))%Z.

(* The record that _criar_log opens. *)
Definition log_inicial (w : World) : LogColeta.t :=
  LogColeta.mk (log_seq w) (FonteDados.pk (fonte (self w))) (lit "iniciado")
    (relogio w (leituras w)) None None 0 0 0 0 [] [].

(* Status, message and error detail that executar passes to _finalizar_log,
   by what coletar did; s is the scraper when coletar is over. *)
Definition desfecho (r : outcome bool) (s : Scraper) : pystr * pystr * pystr :=
  match r with
  | Ok true =>
      (lit "sucesso",
       lit "Coleta conclu" ++ [237%N] ++ lit "da com sucesso. Total: "
         ++ Str.of_Z (docs_novos s + docs_atualizados s) ++ lit " documentos.",
       [])
  | Ok false =>
      (lit "erro",
       lit "Coleta falhou sem exce" ++ [Str.c_ccedil; Str.c_atilde] ++ lit "o",
       [])
  | Raise e =>
      (lit "erro",
       lit "Erro durante execu" ++ [Str.c_ccedil; Str.c_atilde] ++ lit "o: "
         ++ exn_str e,
       exn_str e)
  end.

(* The record as _finalizar_log saves it, for a run that started in w and
   whose harvest ended in w2 with outcome r. *)
Definition log_final (w : World) (r : outcome bool) (w2 : World) : LogColeta.t :=
  LogColeta.mk (log_seq w) (FonteDados.pk (fonte (self w)))
    (fst (fst (desfecho r (self w2))))
    (relogio w (leituras w))
    (Some (relogio w (leituras w2)))
    (Some (Z.quot (relogio w (leituras w2) - relogio w (leituras w)) 1000000))
    (docs_novos (self w2)) (docs_atualizados (self w2))
    (docs_ignorados (self w2)) (docs_erro (self w2))
    (snd (fst (desfecho r (self w2)))) (snd (desfecho r (self w2))).

(* The source as _finalizar_log saves it. *)
Definition fonte_final (w w2 : World) : FonteDados.t :=
  FonteDados.set_ultima_coleta (Some (relogio w (S (leituras w2)))) (fonte (self w)).
End Vocabulario.

(** ** A small catalogue to run on *)

Module Cenario.
Import Reference.

Definition fonte0 : FonteDados.t :=
  FonteDados.mk 1 (lit "COSIT RFB") [] (lit "web")
    (lit "https://www.gov.br/receitafederal") (lit "diaria") (lit "CositScraper")
    (lit "ativo") true None None.

(* 2024-05-15 00:00:00 UTC, then one second per reading *)
Definition relogio0 (i : nat) : Z := 1715731200000000 + Z.of_nat i * 1000000.

(* A fresh scraper on an empty catalogue, an origin that answers nothing. *)
Definition w0 : World :=
  mkWorld (mkScraper fonte0 None true 0 0 0 0) {[1%Z := fonte0]} ∅ ∅ 1 ∅ []
          relogio0 0 (fun _ => None) [] [].

Definition ident : pystr := lit "cosit_2024_0012".
Definition chave : Z * pystr := (1%Z, ident).

(* The file of the document, as the record names it and as the disk has it. *)
Definition caminho : pystr := lit "data/raw/cosit_rfb/2024/05/cosit_2024_0012.html".
Definition arquivo : pystr := lit "/srv/assistente/" ++ caminho.

Definition url : pystr := lit "https://www.gov.br/sc12".

Abbreviation salvar titulo conteudo :=
  (_salvar_documento titulo conteudo url ident (lit "consulta") None).

Definition d1 : DocumentoFonte.t :=
  DocumentoFonte.mk 1 (lit "SC 12") (lit "consulta") url
    ident (lit "ba7816bf8f01cfea414140de5dae2223b00361a396177a9cb410ff61f20015ad")
    caminho 3 None [] [] (lit "coletado") 1.

(* A catalogue that holds the document with content abc, and its file. *)
Definition w1 : World :=
  with_arquivos {[arquivo := lit "abc"]} (with_documentos {[chave := d1]} w0).

(* The same document when its content has become abd. *)
Definition hash_abd : pystr := hashlib.sha256_hexdigest (lit "abd").
End Cenario.

(** ** A small origin to run on *)

Module Sitio.
Import Reference.

Definition ancora (href texto : pystr) : pystr :=
  lit "<li><a href=" ++ [34%N] ++ href ++ [34%N] ++ lit ">" ++ texto ++ lit "</a></li>".

Definition solucao (numero : pystr) : pystr :=
  lit "Solu" ++ [Str.c_ccedil; Str.c_atilde] ++ lit "o de Consulta Cosit n"
    ++ [Str.c_ordm] ++ lit " " ++ numero.

(* Three links: two with a number, one without. *)
Definition pagina2024 : pystr :=
  lit "<ul>"
    ++ ancora (lit "/sc/11") (solucao (lit "11/2024"))
    ++ ancora (lit "/sc/12") (solucao (lit "12"))
    ++ ancora (lit "/sc/lista") (lit "Solucao de Consulta no 7")
    ++ lit "</ul>".

Definition url2024 : pystr := CositScraper._construir_url_ano 2024.
Definition url2023 : pystr := CositScraper._construir_url_ano 2023.
Definition url11 : pystr := lit "https://www.gov.br/sc/11".
Definition url12 : pystr := lit "https://www.gov.br/sc/12".

(* The index of 2024 and document 12 are served; document 11 and the
   index of 2023 are not. *)
Definition origem (u : pystr) : option pystr :=
  if decide (u = url2024) then Some pagina2024
  else if decide (u = url12) then Some (lit "abc")
  else None.

Definition w : World :=
  mkWorld (mkScraper Cenario.fonte0 None true 0 0 0 0) {[1%Z := Cenario.fonte0]}
          ∅ ∅ 1 ∅ [] Cenario.relogio0 0 origem [] [].

(* The same source without its address, which the validation refuses. *)
Definition fonte_sem_url : FonteDados.t :=
  FonteDados.mk 1 (lit "COSIT RFB") [] (lit "web") [] (lit "diaria")
    (lit "CositScraper") (lit "ativo") true None None.

Definition w_sem_url : World :=
  mkWorld (mkScraper fonte_sem_url None true 0 0 0 0) {[1%Z := fonte_sem_url]}
          ∅ ∅ 1 ∅ [] Cenario.relogio0 0 origem [] [].

Abbreviation cosit := (@CositScraper.impl Reference.platform).
End Sitio.

(** * The callers of the scrapers and more vocabulary

    The tasks of the scheduler ([apps/coleta/tasks.py]) and the management
    command ([apps/coleta/management/commands/executar_scraper.py]), which
    make a scraper for a source and call executar, with the notions that
    the properties of the second part use. *)

From stdpp Require Import sorting.

Definition contados (s : Scraper) : Z :=
  docs_novos s + docs_atualizados s + docs_ignorados s + docs_erro s.

(* From w to w' no document was recorded: the table is the same, and so
   are the counters of new and of updated documents. *)
Definition nada_registrado (w w' : World) : Prop :=
  documentos w' = documentos w
  /\ docs_novos (self w') = docs_novos (self w)
  /\ docs_atualizados (self w') = docs_atualizados (self w).

Section VocabularioMais.
Context {platform : Platform}.
Import CositScraper.

(* The requests and pauses of the harvest of one year: the index page, then
   each candidate of the page, with a pause after those that were
   downloaded. *)
Definition agenda_documento (responder : pystr -> option pystr) (info : doc_info)
    : list event :=
  EvFetch (url info) :: (if baixavel responder (url info) then [EvSleep] else []).

Definition agenda_ano (responder : pystr -> option pystr) (ano : Z) : list event :=
  EvFetch (_construir_url_ano ano)
    :: flat_map (agenda_documento responder) (candidatos responder ano).
End VocabularioMais.

Module Falhas.
(* The database refuses to create the run log. *)
Definition w_sem_registro : World := with_run_faults [true] Sitio.w.

(* The database refuses every save of the run log after its creation. *)
Definition w_sem_finalizar : World := with_run_faults [false; true; true] Sitio.w.

(* The save of the source fails after the run log was saved. *)
Definition w_fonte_falha : World := with_run_faults [false; false; true] Sitio.w.

(* On an empty catalogue, a schedule whose fourth operation on documents
   and files fails, after the lookup, the mkdir and the write of the file
   went well. *)
Definition w_criacao_falha : World :=
  with_doc_faults [false; false; false; true] Cenario.w0.

(* A scraper whose harvest counts two errors and then raises. *)
Definition coletar_que_falha : M bool :=
  modify_self (with_docs_erro 2);; raise OSError.

Definition impl_que_falha : ScraperImpl :=
  Build_ScraperImpl coletar_que_falha (mret true).
End Falhas.

(* A text that is one component of a path: not empty, not a single dot
   and without a slash. *)
Definition componente_simples (s : pystr) : Prop :=
  s <> [] /\ s <> [46%N] /\ ~ In 47%N s.

Definition e_substituto (c : N) : Prop := (0xD800 <= c <= 0xDFFF)%N.
Definition e_hexadecimal (c : N) : Prop := (48 <= c <= 57 \/ 97 <= c <= 102)%N.

Section VocabularioCandidatos.
Context {platform : Platform}.
Import CositScraper.

(* What the two groups of the pattern hold: digits, at least one in the
   first and exactly four in the second. *)
Definition grupos_ok (r : pystr * option pystr) : Prop :=
  fst r <> []
  /\ Forall (fun c => is_digit c = true) (fst r)
  /\ match snd r with
     | Some a => length a = 4%nat /\ Forall (fun c => is_digit c = true) a
     | None => True
     end.
End VocabularioCandidatos.

(** ** ScraperBase.__init__

    A scraper object for a source: no run log yet, a session of its own
    (_configurar_session only sets the headers of the session) and the four
    counters at zero. *)

Definition __init__ (f : FonteDados.t) : M unit :=
  modify (with_self (mkScraper f None true 0 0 0 0)).

(** ** tasks.py

    Instants and durations count microseconds.  The calls of the logger are
    left out.  The clock is taken to read instants that a datetime holds and
    that leave room for the month the scheduler may add. *)

Module tasks.

(* timedelta(hours=n), timedelta(days=n), timedelta(weeks=n) *)
Definition timedelta_hours (n : Z) : Z := n * 3600000000.
Definition timedelta_days (n : Z) : Z := n * 86400000000.
Definition timedelta_weeks (n : Z) : Z := n * 604800000000.

Definition set_proxima_coleta (v : option Z) (f : FonteDados.t) : FonteDados.t :=
  FonteDados.mk (FonteDados.pk f) (FonteDados.nome f) (FonteDados.descricao f)
    (FonteDados.tipo f) (FonteDados.url_base f) (FonteDados.frequencia_coleta f)
    (FonteDados.scraper_class f) (FonteDados.status f) (FonteDados.ativo f)
    (FonteDados.ultima_coleta f) v.

(* FonteDados.objects.get(id=fonte_id) *)
Definition fonte_get (fonte_id : Z) : M FonteDados.t :=
  run_op DatabaseError;;
  tb ← gets fontes;
  match tb !! fonte_id with
  | Some f => mret f
  | None => raise DoesNotExist
  end.

(* FonteDados.objects.get(id=fonte_id, ativo=True) *)
Definition fonte_get_ativa (fonte_id : Z) : M FonteDados.t :=
  run_op DatabaseError;;
  tb ← gets fontes;
  match tb !! fonte_id with
  | Some f => if FonteDados.ativo f then mret f else raise DoesNotExist
  | None => raise DoesNotExist
  end.

(* fonte.save(update_fields=['proxima_coleta']): only that column of the
   row is written; Django raises when there is no row to update *)
Definition fonte_save_proxima_coleta (f : FonteDados.t) : M unit :=
  run_op DatabaseError;;
  tb ← gets fontes;
  match tb !! FonteDados.pk f with
  | Some linha =>
      modify (fun w =>
                with_fontes
                  (<[FonteDados.pk f :=
                       set_proxima_coleta (FonteDados.proxima_coleta f) linha]>
                     (fontes w)) w);;
      emit (EvFonteSave f)
  | None => raise DatabaseError
  end.

(* The dict frequencias of calcular_proxima_coleta. *)
Definition frequencias (rotulo : pystr) : option Z :=
  if decide (rotulo = lit "horaria") then Some (timedelta_hours 1)
  else if decide (rotulo = lit "diaria") then Some (timedelta_days 1)
  else if decide (rotulo = lit "semanal") then Some (timedelta_weeks 1)
  else if decide (rotulo = lit "mensal") then Some (timedelta_days 30)
  else None.

Definition calcular_proxima_coleta (fonte_id : Z) : M unit :=
  try_except
    (fonte ← fonte_get fonte_id;
     let delta :=
       default (timedelta_days 1) (frequencias (FonteDados.frequencia_coleta fonte)) in
     agora ← clock_now;
     let fonte := set_proxima_coleta (Some (agora + delta)%Z) fonte in
     fonte_save_proxima_coleta fonte)
    (fun _ => mret tt).

(* The dict that limpar_logs_antigos returns. *)
Inductive resposta_limpeza :=
| Limpou (logs_deletados dias : Z)       (* {'sucesso': True, ...} *)
| NaoLimpou (erro : pystr).              (* {'sucesso': False, 'erro': ...} *)

(* The instants that a datetime can hold, 0001-01-01 00:00:00 to
   9999-12-31 23:59:59.999999, counted from 1970-01-01 00:00:00. *)
Definition datetime_min : Z := - (719162 * 86400000000).
Definition datetime_max : Z := 2932897 * 86400000000 - 1.

(* timedelta(days=n), which holds at most 999999999 days either way *)
Definition timedelta_de_dias (n : Z) : M Z :=
  if decide (-999999999 <= n <= 999999999)%Z then mret (timedelta_days n)
  else raise OverflowError.

(* t - delta for a datetime t *)
Definition datetime_menos (t delta : Z) : M Z :=
  if decide (datetime_min <= t - delta <= datetime_max)%Z then mret (t - delta)%Z
  else raise OverflowError.

(* dias days before the instant agora can be computed: timedelta holds
   the days and datetime holds the result. *)
Definition limite_valido (agora dias : Z) : Prop :=
  (-999999999 <= dias <= 999999999)%Z
  /\ (datetime_min <= agora - timedelta_days dias <= datetime_max)%Z.

(* LogColeta has no dependent rows, so the count that delete() gives is the
   number of logs. *)
Definition limpar_logs_antigos (dias : Z) : M resposta_limpeza :=
  try_except
    (agora ← clock_now;
     delta ← timedelta_de_dias dias;
     data_limite ← datetime_menos agora delta;
     (* LogColeta.objects.filter(iniciado_em__lt=data_limite).delete() *)
     run_op DatabaseError;;
     tb ← gets logs;
     let antigos :=
       filter (fun kl => (LogColeta.iniciado_em kl.2 < data_limite)%Z) tb in
     modify (fun w =>
               with_logs
                 (filter (fun kl => ~ (LogColeta.iniciado_em kl.2 < data_limite)%Z)
                    (logs w))
                 (log_seq w) w);;
     mret (Limpou (Z.of_nat (size antigos)) dias))
    (fun e => mret (NaoLimpou (exn_str e))).

(** *** executar_todas_fontes_ativas *)

(* a <= b for two strings, code point by code point: the order of
   Meta.ordering = ['nome'] under a binary collation *)
Fixpoint str_leb (a b : pystr) : bool :=
  match a, b with
  | [], _ => true
  | _ :: _, [] => false
  | x :: a', y :: b' => (x <? y)%N || ((x =? y)%N && str_leb a' b')
  end.

Definition nome_le (f g : FonteDados.t) : Prop :=
  str_leb (FonteDados.nome f) (FonteDados.nome g) = true.

#[global] Instance nome_le_dec : RelDecision nome_le :=
  fun f g => decide (str_leb (FonteDados.nome f) (FonteDados.nome g) = true).

Definition por_nome (l : list FonteDados.t) : list FonteDados.t :=
  merge_sort nome_le l.

(* filter(ativo=True, status='ativo')
     .filter(Q(proxima_coleta__isnull=True) | Q(proxima_coleta__lte=agora)) *)
Definition pronta (agora : Z) (f : FonteDados.t) : bool :=
  FonteDados.ativo f
  && bool_decide (FonteDados.status f = lit "ativo")
  && match FonteDados.proxima_coleta f with
     | None => true
     | Some t => (t <=? agora)%Z
     end.

(* One evaluation of the queryset. *)
Definition fontes_prontas (agora : Z) : M (list FonteDados.t) :=
  run_op DatabaseError;;
  tb ← gets fontes;
  mret (List.filter (pronta agora) (por_nome (map snd (map_to_list tb)))).

(* The dict that executar_todas_fontes_ativas returns; the key detalhes is
   missing when no source is ready.  An entry of detalhes holds fonte_id,
   fonte_nome and task_id. *)
Record resumo := mk_resumo {
  total : Z;
  executadas : Z;
  sucesso : Z;
  erro : Z;
  detalhes : option (list (Z * pystr * pystr))
}.

(* One turn of the loop.  apply_async gives the id of the task it queued,
   or nothing when it raises. *)
Definition despachar (apply_async : Z -> option pystr) (r : resumo)
    (fonte : FonteDados.t) : resumo :=
  match apply_async (FonteDados.pk fonte) with
  | Some task_id =>
      mk_resumo (total r) (executadas r + 1) (sucesso r) (erro r)
        ((fun d => d ++ [(FonteDados.pk fonte, FonteDados.nome fonte, task_id)])
           <$> detalhes r)
  | None => mk_resumo (total r) (executadas r) (sucesso r) (erro r + 1) (detalhes r)
  end.

Definition executar_todas_fontes_ativas (apply_async : Z -> option pystr) : M resumo :=
  agora ← clock_now;
  (* fontes.count() *)
  contadas ← fontes_prontas agora;
  let total := Z.of_nat (length contadas) in
  if decide (total = 0%Z) then mret (mk_resumo 0 0 0 0 None)
  else
    (* for fonte in fontes *)
    fontes ← fontes_prontas agora;
    mret (fold_left (despachar apply_async) fontes (mk_resumo total 0 0 0 (Some []))).

(** *** executar_scraper_fonte *)

Section ExecutarScraperFonte.
Context {platform : Platform}.

Definition SCRAPERS_DISPONIVEIS (nome : pystr) : option ScraperImpl :=
  if decide (nome = lit "CositScraper") then Some CositScraper.impl else None.

(* The dict that executar_scraper_fonte returns: the two short ones of a
   failure, with fonte_id when the retries ran out, and the one of a run,
   with mensagem when the run did not succeed. *)
Inductive resposta :=
| Falha (fonte_id : option Z) (erro : pystr)
| Resultado (sucesso : bool) (fonte_id : Z) (fonte_nome : pystr)
    (novos atualizados ignorados erros : Z) (log_id : option Z)
    (mensagem : option pystr).

(* What self.retry(exc=e) raises: the request to run the task again, the
   error of the retries being used up, or another exception. *)
Inductive retry_exn :=
| Retry
| MaxRetriesExceededError
| Outra (e : exn).

(* How a call of the task ends. *)
Inductive desfecho_tarefa :=
| Devolve (r : resposta)
| Levanta (e : retry_exn).

(* The statements under the outer try. *)
Definition executar_scraper_fonte_try (fonte_id : Z) : M resposta :=
  achada ←
    try_except (f ← fonte_get_ativa fonte_id; mret (Some f))
      (fun e => match e with DoesNotExist => mret None | _ => raise e end);
  match achada with
  | None =>
      mret (Falha None (lit "Fonte n" ++ [Str.c_atilde] ++ lit "o encontrada ou inativa"))
  | Some fonte =>
      match SCRAPERS_DISPONIVEIS (FonteDados.scraper_class fonte) with
      | None =>
          mret (Falha None
                  (lit "Scraper " ++ FonteDados.scraper_class fonte
                     ++ lit " n" ++ [Str.c_atilde] ++ lit "o implementado"))
      | Some scraper_class =>
          __init__ fonte;;
          sucesso ← @executar scraper_class;
          s ← gets self;
          mret (Resultado sucesso fonte_id (FonteDados.nome fonte)
                  (docs_novos s) (docs_atualizados s) (docs_ignorados s) (docs_erro s)
                  (LogColeta.pk <$> log s)
                  (if sucesso then None
                   else Some (match log s with
                              | Some l => LogColeta.mensagem l
                              | None => lit "Erro desconhecido"
                              end)))
      end
  end.

Definition executar_scraper_fonte (self_retry : exn -> retry_exn) (fonte_id : Z)
    : World -> desfecho_tarefa * World :=
  fun w =>
    match executar_scraper_fonte_try fonte_id w with
    | (Ok r, w') => (Devolve r, w')
    | (Raise e, w') =>
        match self_retry e with
        | MaxRetriesExceededError =>
            (Devolve (Falha (Some fonte_id)
                        (lit "M" ++ [225%N] ++ lit "ximo de tentativas excedido: "
                           ++ exn_str e)), w')
        | levantada => (Levanta levantada, w')
        end
    end.
End ExecutarScraperFonte.

End tasks.

(* Every row of the sources table sits under its own key. *)
Definition fontes_ok (w : World) : Prop :=
  map_Forall (fun k f => FonteDados.pk f = k) (fontes w).

(** ** Three sources for the scheduler *)

Module Agenda.
Definition fonte_inativa : FonteDados.t :=
  FonteDados.mk 2 (lit "Antiga") [] (lit "web") (lit "https://example.org")
    (lit "mensal") (lit "CositScraper") (lit "inativo") false None None.

(* Due one day after the first reading of the clock. *)
Definition fonte_agendada : FonteDados.t :=
  FonteDados.mk 3 (lit "Boletim") [] (lit "rss") (lit "https://example.org/rss")
    (lit "semanal") (lit "BoletimScraper") (lit "ativo") true None
    (Some 1715817600000000%Z).

Definition w : World :=
  with_fontes (<[3%Z := fonte_agendada]> (<[2%Z := fonte_inativa]> (fontes Sitio.w)))
    Sitio.w.

(* The broker takes the task of source 1 and refuses any other. *)
Definition fila (fonte_id : Z) : option pystr :=
  if decide (fonte_id = 1%Z) then Some (lit "task-1") else None.

Definition retry_sempre (e : exn) : tasks.retry_exn := tasks.Retry.
End Agenda.

(** ** management/commands/executar_scraper.py

    What the command writes to its standard output is left out: the
    methods are modelled by what they do to the database and by what they
    return or raise. *)

Module executar_scraper.

(* How a method of the command ends: it returns, it raises CommandError
   with a message, or another exception leaves it. *)
Inductive saida (A : Type) :=
| Retorna (a : A)
| CommandError (mensagem : pystr)
| Excecao (e : exn).
Arguments Retorna {A} a.
Arguments CommandError {A} mensagem.
Arguments Excecao {A} e.

(* The options that handle reads; a name that was not given is None. *)
Record opcoes := mk_opcoes {
  criar_fonte_exemplo : bool;
  todos : bool;
  fonte_nome : option pystr
}.

Section Command.
Context {platform : Platform}.

Definition _obter_scraper_class (nome_classe : pystr) : pystr + ScraperImpl :=
  if decide (nome_classe = lit "CositScraper") then inr CositScraper.impl
  else inl (lit "Scraper " ++ [34%N] ++ nome_classe ++ [34%N] ++ lit " n"
              ++ [Str.c_atilde] ++ lit "o implementado. Dispon" ++ [237%N]
              ++ lit "veis: CositScraper").

(* FonteDados.objects.get(nome=fonte_nome); nome is unique, so at most one
   row has it *)
Definition fonte_get_nome (fonte_nome : pystr) : M FonteDados.t :=
  run_op DatabaseError;;
  tb ← gets fontes;
  match List.find (fun f => bool_decide (FonteDados.nome f = fonte_nome))
          (map snd (map_to_list tb)) with
  | Some f => mret f
  | None => raise DoesNotExist
  end.

Definition _executar_fonte (fonte_nome : pystr) : World -> saida bool * World :=
  fun w =>
    match fonte_get_nome fonte_nome w with
    | (Raise DoesNotExist, w1) =>
        (CommandError
           (lit "Fonte " ++ [34%N] ++ fonte_nome ++ [34%N] ++ lit " n"
              ++ [Str.c_atilde]
              ++ lit "o encontrada. Use --criar-fonte-exemplo para criar uma fonte de teste."),
         w1)
    | (Raise _, w1) => (Retorna false, w1)
    | (Ok fonte, w1) =>
        if negb (FonteDados.ativo fonte) then
          (CommandError
             (lit "Fonte " ++ [34%N] ++ fonte_nome ++ [34%N] ++ lit " est"
                ++ [225%N] ++ lit " inativa"), w1)
        else
          match _obter_scraper_class (FonteDados.scraper_class fonte) with
          | inl mensagem => (CommandError mensagem, w1)
          | inr scraper_class =>
              match (__init__ fonte;; @executar scraper_class) w1 with
              | (Ok sucesso, w2) => (Retorna sucesso, w2)
              | (Raise _, w2) => (Retorna false, w2)
              end
          end
    end.

(* FonteDados.objects.filter(ativo=True, status='ativo'), one evaluation *)
Definition fontes_ativas : M (list FonteDados.t) :=
  run_op DatabaseError;;
  tb ← gets fontes;
  mret (List.filter
          (fun f => FonteDados.ativo f && bool_decide (FonteDados.status f = lit "ativo"))
          (tasks.por_nome (map snd (map_to_list tb)))).

(* The loop of _executar_todos; CommandError is an Exception and is counted
   as an error like any other. *)
Fixpoint executar_cada (fontes : list FonteDados.t) (sucesso_total erro_total : Z)
    : M (Z * Z) :=
  match fontes with
  | [] => mret (sucesso_total, erro_total)
  | fonte :: resto =>
      fun w =>
        match _executar_fonte (FonteDados.nome fonte) w with
        | (Retorna true, w') => executar_cada resto (sucesso_total + 1) erro_total w'
        | (_, w') => executar_cada resto sucesso_total (erro_total + 1) w'
        end
  end.

(* It returns nothing; what is given here is the pair of totals it prints,
   None when it found no active source. *)
Definition _executar_todos : M (option (Z * Z)) :=
  (* fontes.exists() *)
  existentes ← fontes_ativas;
  match existentes with
  | [] => mret None
  | _ :: _ =>
      (* fontes.count() *)
      fontes_ativas;;
      (* for fonte in fontes *)
      fontes ← fontes_ativas;
      totais ← executar_cada fontes 0 0;
      mret (Some totais)
  end.

(* The source that _criar_fonte_cosit creates, under the key the database
   gives it. *)
Definition fonte_cosit (pk : Z) : FonteDados.t :=
  FonteDados.mk pk
    (lit "COSIT - Solu" ++ [Str.c_ccedil; 245%N] ++ lit "es de Consulta")
    (lit "Solu" ++ [Str.c_ccedil; 245%N] ++ lit "es de Consulta publicadas pela Coordena"
       ++ [Str.c_ccedil; Str.c_atilde] ++ lit "o-Geral de Tributa"
       ++ [Str.c_ccedil; Str.c_atilde] ++ lit "o (COSIT) da Receita Federal")
    (lit "web")
    (lit "https://www.gov.br/receitafederal/pt-br/acesso-a-informacao/legislacao/solucoes-de-consulta")
    (lit "semanal") (lit "CositScraper") (lit "ativo") true None None.

(* FonteDados.objects.get_or_create(nome=..., defaults=...): the source of
   that name when there is one, else a new row under a key not yet in use;
   it gives the source and whether it was created *)
Definition _criar_fonte_cosit : M (FonteDados.t * bool) :=
  run_op DatabaseError;;
  tb ← gets fontes;
  match List.find
          (fun f => bool_decide (FonteDados.nome f = FonteDados.nome (fonte_cosit 0)))
          (map snd (map_to_list tb)) with
  | Some f => mret (f, false)
  | None =>
      run_op DatabaseError;;
      let pk := fresh (dom tb) in
      modify (fun w => with_fontes (<[pk := fonte_cosit pk]> (fontes w)) w);;
      emit (EvFonteSave (fonte_cosit pk));;
      mret (fonte_cosit pk, true)
  end.

Definition handle (options : opcoes) : World -> saida unit * World :=
  fun w =>
    if criar_fonte_exemplo options then
      match _criar_fonte_cosit w with
      | (Ok _, w') => (Retorna tt, w')
      | (Raise e, w') => (Excecao e, w')
      end
    else if todos options then
      match _executar_todos w with
      | (Ok _, w') => (Retorna tt, w')
      | (Raise e, w') => (Excecao e, w')
      end
    else
      match fonte_nome options with
      | None | Some [] =>
          (CommandError
             (lit "Forne" ++ [Str.c_ccedil]
                ++ lit "a o nome da fonte ou use --todos. Use --criar-fonte-exemplo para criar fonte de teste."),
           w)
      | Some nome =>
          match _executar_fonte nome w with
          | (Retorna _, w') => (Retorna tt, w')
          | (CommandError m, w') => (CommandError m, w')
          | (Excecao e, w') => (Excecao e, w')
          end
      end.
End Command.
End executar_scraper.

(* No two rows of the sources table have the same name (unique=True). *)
Definition nome_unico (w : World) : Prop :=
  forall k1 k2 f1 f2,
    fontes w !! k1 = Some f1 -> fontes w !! k2 = Some f2 ->
    FonteDados.nome f1 = FonteDados.nome f2 -> k1 = k2.

(** * Properties *)

(** ** The runtime pieces against known values *)

Example sha256_constantes :
  hd 0%N hashlib.K = 0x428a2f98%N
  /\ last hashlib.K = Some 0xc67178f2%N
  /\ hd 0%N hashlib.H0 = 0x6a09e667%N
  /\ last hashlib.H0 = Some 0x5be0cd19%N.
Proof. vm_compute. repeat split; reflexivity. Qed.

Example sha256_abc :
  hashlib.sha256_hexdigest (lit "abc")
  = lit "ba7816bf8f01cfea414140de5dae2223b00361a396177a9cb410ff61f20015ad".
Proof. vm_compute. reflexivity. Qed.

Example sha256_empty :
  hashlib.sha256_hexdigest []
  = lit "e3b0c44298fc1c149afbf4c8996fb92427ae41e4649b934ca495991b7852b855".
Proof. vm_compute. reflexivity. Qed.

Example sha256_two_blocks :
  hashlib.sha256_hexdigest
    (lit "abcdbcdecdefdefgefghfghighijhijkijkljklmklmnlmnomnopnopq")
  = lit "248d6a61d20638b8e5c026930c3e6039a33ce45964ff2167f6ecedd419db06c1".
Proof. vm_compute. reflexivity. Qed.

(* c with cedilla, the euro sign and an emoji take 2, 3 and 4 bytes; a
   surrogate cannot be encoded. *)
Example encode_utf8_exemplos :
  Str.encode_utf8 [231; 8364; 128512]%N
  = Some [0xC3; 0xA7; 0xE2; 0x82; 0xAC; 0xF0; 0x9F; 0x98; 0x80]%N
  /\ Str.encode_utf8 [97; 0xD800]%N = None.
Proof. vm_compute. split; reflexivity. Qed.

Example str_exemplos :
  Str.of_Z 2024 = lit "2024"
  /\ Str.of_Z_02d 5 = lit "05"
  /\ Str.zfill 4 (lit "12") = lit "0012"
  /\ Str.zfill 4 (lit "12345") = lit "12345"
  /\ Str.contains (lit "consul") (lit "a/consulta.pdf") = true
  /\ Str.endswith (lit ".pdf") (lit "a/consulta.pdf") = true.
Proof. vm_compute. repeat split; reflexivity. Qed.

Example year_month_exemplos :
  Reference.year_month 0 = (1970, 1)%Z
  /\ Reference.year_month 1709251199000000 = (2024, 2)%Z
  /\ Reference.year_month 1715731200000000 = (2024, 5)%Z
  /\ Reference.year_month 1735689600000000 = (2025, 1)%Z.
Proof. vm_compute. repeat split; reflexivity. Qed.

(** ** Running the model by hand *)

Ltac proj :=
  cbn [self fontes documentos logs log_seq arquivos trace relogio leituras http
       doc_faults run_faults with_self with_fontes with_documentos with_logs
       with_arquivos with_trace with_leituras with_doc_faults with_run_faults
       fonte log session_open docs_novos docs_atualizados docs_ignorados docs_erro
       with_fonte with_log with_session_open with_docs_novos with_docs_atualizados
       with_docs_ignorados with_docs_erro fst snd].

Ltac proj_all :=
  cbn [self fontes documentos logs log_seq arquivos trace relogio leituras http
       doc_faults run_faults with_self with_fontes with_documentos with_logs
       with_arquivos with_trace with_leituras with_doc_faults with_run_faults
       fonte log session_open docs_novos docs_atualizados docs_ignorados docs_erro
       with_fonte with_log with_session_open with_docs_novos with_docs_atualizados
       with_docs_ignorados with_docs_erro fst snd] in *.

Ltac proj_doc :=
  unfold DocumentoFonte.chave;
  cbn [DocumentoFonte.fonte DocumentoFonte.titulo
       DocumentoFonte.tipo_documento DocumentoFonte.url_origem
       DocumentoFonte.identificador_externo DocumentoFonte.hash_conteudo
       DocumentoFonte.caminho_arquivo DocumentoFonte.tamanho_bytes
       DocumentoFonte.data_publicacao DocumentoFonte.orgao_emissor
       DocumentoFonte.numero_documento DocumentoFonte.status DocumentoFonte.versao
       DocumentoFonte.set_titulo DocumentoFonte.set_url_origem
       DocumentoFonte.set_hash_conteudo DocumentoFonte.set_caminho_arquivo
       DocumentoFonte.set_tamanho_bytes DocumentoFonte.set_data_publicacao
       DocumentoFonte.set_orgao_emissor DocumentoFonte.set_numero_documento
       DocumentoFonte.set_status DocumentoFonte.set_versao].

Ltac unfold_salvar :=
  cbv [_salvar_documento _salvar_documento_body try_except documento_get
       documento_save documento_create processar_arquivo_upload arquivo_upload
       log_documento_salvo write_text relative_to _obter_caminho_arquivo utf8_len
       doc_op clock_now modify_self modify emit gets raise mbind mret M_bind M_ret];
  proj.

Ltac step_salvar :=
  match goal with
  | |- context [match DocumentoFonte.calcular_hash ?c with _ => _ end] =>
      destruct (DocumentoFonte.calcular_hash c) eqn:?
  | |- context [if hd false ?l then _ else _] =>
      destruct (hd false l) eqn:?
  | |- context [match @lookup _ _ (gmap (Z * pystr) DocumentoFonte.t) _ ?k ?m with _ => _ end] =>
      destruct (@lookup _ _ (gmap (Z * pystr) DocumentoFonte.t) _ k m) eqn:?
  | |- context [match Path.relative_to ?a ?b with _ => _ end] =>
      destruct (Path.relative_to a b) eqn:?
  | |- context [match Str.encode_utf8 ?c with _ => _ end] =>
      destruct (Str.encode_utf8 c) eqn:?
  | |- context [if decide (?a = ?b) then _ else _] =>
      destruct (decide (a = b))
  end; proj.

(** ** Paths against known values of pathlib *)

Example path_exemplos :
  Path.str (Path.truediv (Path.of_str (lit "/srv/assistente")) (lit "data"))
  = lit "/srv/assistente/data"
  /\ Path.truediv (Path.of_str (lit "/srv/assistente")) (lit "/tmp/vx")
     = Path.of_str (lit "/tmp/vx")
  /\ Path.of_str (lit "a//b/./c/") = Path.mk Path.Relativo [lit "a"; lit "b"; lit "c"]
  /\ Path.of_str (lit "a/../b") = Path.mk Path.Relativo [lit "a"; lit ".."; lit "b"]
  /\ Path.of_str (lit "//x") = Path.mk Path.DuasBarras [lit "x"]
  /\ Path.of_str (lit "///x") = Path.mk Path.Barra [lit "x"]
  /\ Path.str (Path.of_str []) = lit "."
  /\ Path.relative_to (Path.of_str (lit "/srv/assistente/data/raw"))
       (Path.of_str (lit "/srv/assistente"))
     = Some (Path.of_str (lit "data/raw"))
  /\ Path.relative_to (Path.of_str (lit "/tmp/vx")) (Path.of_str (lit "/srv/assistente"))
     = None.
Proof. vm_compute. repeat split; reflexivity. Qed.

(* The file of a document of the source COSIT RFB harvested in May 2024,
   on the disk and relative to the project. *)
Example obter_caminho_arquivo_exemplo :
  fst (_obter_caminho_arquivo Cenario.ident (lit "html") Cenario.w0)
  = Ok (Path.of_str Cenario.arquivo)
  /\ Path.str (Path.of_str Cenario.arquivo) = Cenario.arquivo
  /\ (Path.str <$> Path.relative_to (Path.of_str Cenario.arquivo) projeto_dir)
     = Some Cenario.caminho.
Proof. vm_compute. repeat split; reflexivity. Qed.

(* A source whose name begins with a slash takes the file out of the
   project, and the path relative to the project cannot be given. *)
Example obter_caminho_arquivo_fora :
  let f := FonteDados.mk 1 (lit "/tmp/vx Escape") [] (lit "web") (lit "https://example.org")
             (lit "diaria") (lit "CositScraper") (lit "ativo") true None None in
  let w := with_self (with_fonte f (self Cenario.w0)) Cenario.w0 in
  fst (_obter_caminho_arquivo Cenario.ident (lit "html") w)
  = Ok (Path.of_str (lit "/tmp/vx_escape/2024/05/cosit_2024_0012.html"))
  /\ fst (_salvar_documento_body (lit "SC 12") (lit "abc") Cenario.url Cenario.ident
            (lit "consulta") None w)
     = Raise ValueError.
Proof. vm_compute. repeat split; reflexivity. Qed.

(** ** _salvar_documento *)

(* A new document on an empty catalogue, database and disk in order: the
   file is written, objects.create raises in the receiver of pre_save, and
   the call gives None with one error counted and no record. *)
Example salvar_documento_novo :
  fst (_salvar_documento_body (lit "SC 12") (lit "abc") Cenario.url Cenario.ident
         (lit "consulta") None Cenario.w0)
  = Raise AttributeError
  /\ fst (Cenario.salvar (lit "SC 12") (lit "abc") Cenario.w0) = Ok None
  /\ docs_erro (self (snd (Cenario.salvar (lit "SC 12") (lit "abc") Cenario.w0))) = 1%Z
  /\ docs_novos (self (snd (Cenario.salvar (lit "SC 12") (lit "abc") Cenario.w0))) = 0%Z
  /\ documentos (snd (Cenario.salvar (lit "SC 12") (lit "abc") Cenario.w0))
       !! Cenario.chave = None
  /\ arquivos (snd (Cenario.salvar (lit "SC 12") (lit "abc") Cenario.w0))
       !! Cenario.arquivo = Some (lit "abc")
  /\ trace (snd (Cenario.salvar (lit "SC 12") (lit "abc") Cenario.w0))
     = [EvWriteText Cenario.arquivo (lit "abc")].
Proof. vm_compute. repeat split; reflexivity. Qed.

Lemma pair_eta {A B : Type} (p : A * B) (a : A) : fst p = a -> p = (a, snd p).
Proof. destruct p; simpl; congruence. Qed.

Section Salvar.
Context {platform : Platform}.
#[local] Opaque lit.
Implicit Types (titulo conteudo url identificador tipo_documento : pystr).
Implicit Types (metadados : option (gmap pystr pystr)).

(* The outer try of _salvar_documento around its body. *)
Lemma salvar_documento_unfold titulo conteudo url identificador tipo_documento
    metadados w :
  _salvar_documento titulo conteudo url identificador tipo_documento metadados w =
  match _salvar_documento_body titulo conteudo url identificador tipo_documento
          metadados w with
  | (Ok r, w1) => (Ok r, w1)
  | (Raise _, w1) =>
      (Ok None, with_self (with_docs_erro (docs_erro (self w1) + 1) (self w1)) w1)
  end.
Proof. reflexivity. Qed.

(* Every save of a document stops in the receiver of pre_save, and so does
   every objects.create: nothing is written and nothing is consumed. *)
Lemma documento_save_raises d w : documento_save d w = (Raise AttributeError, w).
Proof. reflexivity. Qed.

Lemma documento_create_raises d w : documento_create d w = (Raise AttributeError, w).
Proof. reflexivity. Qed.

(* What the body does, case by case.  It returns only on the path of an
   unchanged document; on the two other paths the save or the create
   raises, after the file of a new document was written. *)
Lemma body_casos titulo conteudo url identificador tipo_documento metadados w :
  exists w1,
    snd (_salvar_documento_body titulo conteudo url identificador tipo_documento
           metadados w) = w1
    /\ self w1 = match fst (_salvar_documento_body titulo conteudo url identificador
                              tipo_documento metadados w) with
                 | Ok _ => with_docs_ignorados (docs_ignorados (self w) + 1) (self w)
                 | Raise _ => self w
                 end
    /\ documentos w1 = documentos w
    /\ match fst (_salvar_documento_body titulo conteudo url identificador
                    tipo_documento metadados w) with
       | Ok r =>
           exists d, r = Some d
             /\ documentos w !! (FonteDados.pk (fonte (self w)), identificador) = Some d
             /\ DocumentoFonte.calcular_hash conteudo
                = Some (DocumentoFonte.hash_conteudo d)
             /\ arquivos w1 = arquivos w /\ trace w1 = trace w
       | Raise e =>
           (arquivos w1 = arquivos w /\ trace w1 = trace w)
           \/ exists caminho,
                documentos w !! (FonteDados.pk (fonte (self w)), identificador) = None
                /\ sem_falhas 3 (doc_faults w)
                /\ (e = AttributeError \/ e = ValueError)
                /\ arquivos w1 = <[caminho := conteudo]> (arquivos w)
                /\ trace w1 = trace w ++ [EvWriteText caminho conteudo]
       end.
Proof.
  eexists. split; [reflexivity|].
  cbv [_salvar_documento_body try_except documento_get
       documento_save documento_create processar_arquivo_upload arquivo_upload
       log_documento_salvo write_text relative_to _obter_caminho_arquivo utf8_len
       doc_op clock_now modify_self modify emit gets raise mbind mret M_bind M_ret];
  proj.
  repeat step_salvar.
  all: split; [reflexivity|]; split; [reflexivity|].
  all: try (left; split; reflexivity).
  all: try (eexists; split; [reflexivity|]; split; [reflexivity|];
            split; [congruence|]; split; reflexivity).
  all: try (exfalso; unfold DocumentoFonte.calcular_hash in *;
            match goal with
            | H : Str.encode_utf8 _ = None |- _ => rewrite H in *; discriminate
            end).
  all: right; eexists; split; [reflexivity|]; split;
    [|split; [auto|split; reflexivity]].
  all: unfold sem_falhas;
    repeat match goal with
           | H : hd false ?l = false |- _ => revert H
           end;
    destruct (doc_faults w) as [|b0 [|b1 [|b2 resto]]]; cbn;
    intros; subst; repeat constructor.
Qed.

Lemma body_spec titulo conteudo url identificador tipo_documento metadados w :
  match _salvar_documento_body titulo conteudo url identificador tipo_documento
          metadados w with
  | (Raise _, w1) => docs_erro (self w1) = docs_erro (self w)
  | (Ok r, w1) =>
      docs_erro (self w1) = docs_erro (self w)
      /\ so_um_contador (self w) (self w1)
      /\ exists d, r = Some d
         /\ (tabela_ok w ->
             documentos w1 !! (FonteDados.pk (fonte (self w)), identificador) = Some d)
  end.
Proof.
  destruct (body_casos titulo conteudo url identificador tipo_documento metadados w)
    as (w1 & Hw1 & Hs & Hd & Hc).
  destruct (_salvar_documento_body _ _ _ _ _ _ w) as [[r|e] w2];
    cbn [fst snd] in *; subst w2; rewrite Hs; proj; [|reflexivity].
  split; [reflexivity|]. split.
  - unfold so_um_contador. proj. right. right. repeat split; reflexivity.
  - destruct Hc as (d & -> & Hl & _). exists d. split; [reflexivity|].
    intros _. rewrite Hd. exact Hl.
Qed.

(** C10. _salvar_documento never lets an exception out.  When a statement
    of its body raises, it gives None and the error counter goes up by
    exactly one; otherwise it gives the record it found, changed or
    created, the one the table holds for the unique pair, exactly one of
    the counters of new, updated and unchanged documents goes up by one,
    and the error counter stays. *)
Theorem salvar_documento_never_raises titulo conteudo url identificador
    tipo_documento metadados w :
  tabela_ok w ->
  exists r w',
    _salvar_documento titulo conteudo url identificador tipo_documento metadados w
      = (Ok r, w')
    /\ match _salvar_documento_body titulo conteudo url identificador
               tipo_documento metadados w with
       | (Raise _, _) =>
           r = None /\ docs_erro (self w') = (docs_erro (self w) + 1)%Z
       | (Ok _, _) =>
           docs_erro (self w') = docs_erro (self w)
           /\ so_um_contador (self w) (self w')
           /\ exists d, r = Some d
              /\ documentos w' !! (FonteDados.pk (fonte (self w)), identificador)
                 = Some d
       end.
Proof.
  intros Hok.
  rewrite salvar_documento_unfold.
  pose proof (body_spec titulo conteudo url identificador tipo_documento metadados w)
    as Hb.
  destruct (_salvar_documento_body _ _ _ _ _ _ w) as [[r|e] w1].
  - exists r, w1. split; [reflexivity|].
    destruct Hb as (He & Hc & d & Hr & Hd). eauto 10.
  - eexists _, _. split; [reflexivity|]. proj. split; [reflexivity|]. lia.
Qed.

Lemma sem_falhas_S n l :
  sem_falhas (S n) l -> hd false l = false /\ sem_falhas n (tl l).
Proof.
  unfold sem_falhas. destruct l as [|b l]; cbn.
  - intros _. split; [reflexivity|]. destruct n; constructor.
  - intros H. inversion H; subst. split; [reflexivity|assumption].
Qed.

Ltac sem_falhas_all H :=
  repeat (apply sem_falhas_S in H;
          let H1 := fresh "Hf" in destruct H as [H1 H]; try rewrite H1).

Lemma sem_falhas_app n m l :
  sem_falhas (n + m) l -> sem_falhas n l /\ sem_falhas m (drop n l).
Proof.
  unfold sem_falhas. rewrite <- take_take_drop, Forall_app. tauto.
Qed.

(** C1. For a record that the table holds and a content that does not hash
    to its fingerprint: whenever a statement of the body raises, be it the
    hashing, the lookup or the save of the record, _salvar_documento gives
    None and counts one error, and the table, with the record in it, the
    files and the trace are exactly as before the call.  No failure comes
    after a write: the save of the changed record is the first thing the
    update path does to the outside, and it raises in the receiver of
    pre_save before the row is written. *)
Theorem salvar_documento_failure titulo conteudo url identificador tipo_documento
    metadados w d e w1 :
  documentos w !! (FonteDados.pk (fonte (self w)), identificador) = Some d ->
  DocumentoFonte.calcular_hash conteudo <> Some (DocumentoFonte.hash_conteudo d) ->
  _salvar_documento_body titulo conteudo url identificador tipo_documento metadados w
    = (Raise e, w1) ->
  exists w',
    _salvar_documento titulo conteudo url identificador tipo_documento metadados w
      = (Ok None, w')
    /\ docs_erro (self w') = (docs_erro (self w) + 1)%Z
    /\ documentos w' = documentos w
    /\ documentos w' !! (FonteDados.pk (fonte (self w)), identificador) = Some d
    /\ arquivos w' = arquivos w
    /\ trace w' = trace w
    /\ docs_novos (self w') = docs_novos (self w)
    /\ docs_atualizados (self w') = docs_atualizados (self w)
    /\ docs_ignorados (self w') = docs_ignorados (self w).
Proof.
  intros Hd Hne Hb.
  rewrite salvar_documento_unfold.
  destruct (body_casos titulo conteudo url identificador tipo_documento metadados w)
    as (w2 & Hw2 & Hs & Hdoc & Hc).
  rewrite Hb in *. cbn [fst snd] in *. subst w2.
  eexists. split; [reflexivity|]. proj. rewrite Hs, Hdoc.
  destruct Hc as [[Ha Ht]|(c & Hnone & _)]; [|congruence].
  repeat split; assumption || reflexivity.
Qed.

(** C3 does not hold: no update goes through.  When the table holds a
    record for the unique pair and the content hashes to something else
    than the stored fingerprint, the call gives None and counts one error
    and no updated document; the table still holds the record with its old
    version and fingerprint, and no file is written.  With the lookup going
    well, what raises is doc_existente.save(): the receiver of pre_save in
    signals.py reads instance.arquivo_upload, which DocumentoFonte does not
    have. *)
Theorem salvar_documento_update_fails titulo conteudo url identificador tipo_documento
    metadados w d h :
  documentos w !! (FonteDados.pk (fonte (self w)), identificador) = Some d ->
  DocumentoFonte.calcular_hash conteudo = Some h ->
  DocumentoFonte.hash_conteudo d <> h ->
  exists w',
    _salvar_documento titulo conteudo url identificador tipo_documento metadados w
      = (Ok None, w')
    /\ documentos w' = documentos w
    /\ documentos w' !! (FonteDados.pk (fonte (self w)), identificador) = Some d
    /\ arquivos w' = arquivos w
    /\ trace w' = trace w
    /\ docs_atualizados (self w') = docs_atualizados (self w)
    /\ docs_erro (self w') = (docs_erro (self w) + 1)%Z
    /\ (hd false (doc_faults w) = false ->
        fst (_salvar_documento_body titulo conteudo url identificador tipo_documento
               metadados w) = Raise AttributeError).
Proof.
  intros Hd Hh Hne.
  unfold_salvar. rewrite Hh.
  destruct (hd false (doc_faults w)); proj.
  { eexists. split; [reflexivity|]. proj. repeat split; try assumption; try reflexivity.
    intros; discriminate. }
  rewrite Hd. destruct (decide _) as [|_]; [contradiction|]. proj.
  eexists. split; [reflexivity|]. proj. repeat split; try assumption; reflexivity.
Qed.

(* A new document with the database and the disk in order: the file is
   written and the call gives None, since objects.create raises in the
   receiver of pre_save, or the path is outside the project. *)
Lemma salvar_documento_cria_nada titulo conteudo url identificador tipo_documento
    metadados w :
  documentos w !! (FonteDados.pk (fonte (self w)), identificador) = None ->
  Str.encode_utf8 conteudo <> None ->
  sem_falhas 3 (doc_faults w) ->
  exists caminho w',
    _salvar_documento titulo conteudo url identificador tipo_documento metadados w
      = (Ok None, w')
    /\ self w' = with_docs_erro (docs_erro (self w) + 1) (self w)
    /\ documentos w' = documentos w
    /\ arquivos w' = <[caminho := conteudo]> (arquivos w)
    /\ trace w' = trace w ++ [EvWriteText caminho conteudo]
    /\ doc_faults w' = drop 3 (doc_faults w).
Proof.
  intros Hd Henc Hf.
  assert (Hdrop : tl (tl (tl (doc_faults w))) = drop 3 (doc_faults w)).
  { destruct (doc_faults w) as [|b0 [|b1 [|b2 resto]]]; reflexivity. }
  unfold DocumentoFonte.calcular_hash.
  destruct (Str.encode_utf8 conteudo) as [bs|] eqn:Hbs; [clear Henc|contradiction].
  unfold_salvar. unfold DocumentoFonte.calcular_hash. rewrite Hbs.
  sem_falhas_all Hf.
  repeat (progress (proj; rewrite ?Hd, ?Hf1, ?Hf2, ?Hbs)).
  destruct (Path.relative_to _ _); proj; rewrite ?Hbs; proj;
    eexists _, _; (split; [reflexivity|]); proj; rewrite Hdrop;
    repeat split; reflexivity.
Qed.

(** C2 does not hold: nothing is created.  On a table without a record for
    the unique pair, with content that can be encoded and no failure of the
    database or of the disk, two calls with the same content both give
    None: each writes the file and then fails to create the record, which
    objects.create hands to the receiver of pre_save.  After the two calls
    the table is as it was, without a record for the pair, the file was
    written twice, two errors are counted and no new or unchanged
    document. *)
Theorem salvar_documento_twice titulo conteudo url identificador tipo_documento
    metadados w :
  documentos w !! (FonteDados.pk (fonte (self w)), identificador) = None ->
  Str.encode_utf8 conteudo <> None ->
  sem_falhas 6 (doc_faults w) ->
  exists w1 w2 caminho1 caminho2,
    _salvar_documento titulo conteudo url identificador tipo_documento metadados w
      = (Ok None, w1)
    /\ _salvar_documento titulo conteudo url identificador tipo_documento metadados w1
       = (Ok None, w2)
    /\ documentos w2 = documentos w
    /\ documentos w2 !! (FonteDados.pk (fonte (self w)), identificador) = None
    /\ trace w2
       = trace w ++ [EvWriteText caminho1 conteudo; EvWriteText caminho2 conteudo]
    /\ arquivos w2 = <[caminho2 := conteudo]> (<[caminho1 := conteudo]> (arquivos w))
    /\ docs_erro (self w2) = (docs_erro (self w) + 2)%Z
    /\ docs_novos (self w2) = docs_novos (self w)
    /\ docs_atualizados (self w2) = docs_atualizados (self w)
    /\ docs_ignorados (self w2) = docs_ignorados (self w).
Proof.
  intros Hd Henc Hf.
  apply (sem_falhas_app 3 3) in Hf as [Hf1 Hf2].
  destruct (salvar_documento_cria_nada titulo conteudo url identificador
              tipo_documento metadados w Hd Henc Hf1)
    as (c1 & w1 & E1 & Hs1 & Hd1 & Ha1 & Ht1 & Hfa1).
  assert (Hk : FonteDados.pk (fonte (self w1)) = FonteDados.pk (fonte (self w))).
  { rewrite Hs1. reflexivity. }
  assert (Hd' : documentos w1 !! (FonteDados.pk (fonte (self w1)), identificador) = None).
  { rewrite Hk, Hd1. exact Hd. }
  rewrite <- Hfa1 in Hf2.
  destruct (salvar_documento_cria_nada titulo conteudo url identificador
              tipo_documento metadados w1 Hd' Henc Hf2)
    as (c2 & w2 & E2 & Hs2 & Hd2 & Ha2 & Ht2 & _).
  exists w1, w2, c1, c2.
  split; [exact E1|]. split; [exact E2|].
  rewrite Hd2, Hd1, Ht2, Ht1, Ha2, Ha1, Hs2, Hs1, <- app_assoc. proj.
  repeat split; try assumption; try reflexivity. lia.
Qed.

(* No call writes to the table of documents. *)
Lemma salvar_documento_tabela titulo conteudo url identificador tipo_documento
    metadados w :
  documentos (snd (_salvar_documento titulo conteudo url identificador tipo_documento
                     metadados w)) = documentos w.
Proof.
  rewrite salvar_documento_unfold.
  destruct (body_casos titulo conteudo url identificador tipo_documento metadados w)
    as (w1 & Hw1 & _ & Hdoc & _).
  destruct (_salvar_documento_body _ _ _ _ _ _ w) as [[r|e] w2];
    cbn [fst snd] in *; subst w2; proj; exact Hdoc.
Qed.


(* The table keeps its rows under their unique pairs. *)
Lemma salvar_documento_tabela_ok titulo conteudo url identificador tipo_documento
    metadados w :
  tabela_ok w ->
  tabela_ok
    (snd (_salvar_documento titulo conteudo url identificador tipo_documento
            metadados w)).
Proof.
  unfold tabela_ok. intros Hok.
  rewrite salvar_documento_tabela. exact Hok.
Qed.
End Salvar.

Lemma tabela_ok_w0 : tabela_ok Cenario.w0.
Proof. apply map_Forall_empty. Qed.

Lemma tabela_ok_w1 : tabela_ok Cenario.w1.
Proof. apply map_Forall_singleton. reflexivity. Qed.

Lemma salvar_documento_never_raises_witness :
  tabela_ok Cenario.w1
  /\ exists r w',
      _salvar_documento (lit "SC 12") (lit "abd") Cenario.url
        Cenario.ident (lit "consulta") None Cenario.w1 = (Ok r, w')
      /\ match _salvar_documento_body (lit "SC 12") (lit "abd")
                 Cenario.url Cenario.ident (lit "consulta") None
                 Cenario.w1 with
         | (Raise _, _) =>
             r = None /\ docs_erro (self w') = (docs_erro (self Cenario.w1) + 1)%Z
         | (Ok _, _) =>
             docs_erro (self w') = docs_erro (self Cenario.w1)
             /\ so_um_contador (self Cenario.w1) (self w')
             /\ exists d, r = Some d
                /\ documentos w' !! (FonteDados.pk (fonte (self Cenario.w1)), Cenario.ident)
                   = Some d
         end.
Proof.
  split; [exact tabela_ok_w1|].
  exact (salvar_documento_never_raises (lit "SC 12") (lit "abd")
           Cenario.url Cenario.ident (lit "consulta") None
           Cenario.w1 tabela_ok_w1).
Defined.

Example hash_abd_differs :
  DocumentoFonte.calcular_hash (lit "abd") = Some Cenario.hash_abd
  /\ DocumentoFonte.hash_conteudo Cenario.d1 <> Cenario.hash_abd.
Proof. split; [vm_compute; reflexivity|]. vm_compute. discriminate. Qed.

(* The document has changed to abd and everything around is in order: the
   save of the changed record raises. *)
Lemma salvar_documento_failure_witness :
  documentos Cenario.w1 !! (FonteDados.pk (fonte (self Cenario.w1)), Cenario.ident)
  = Some Cenario.d1
  /\ DocumentoFonte.calcular_hash (lit "abd")
     <> Some (DocumentoFonte.hash_conteudo Cenario.d1)
  /\ fst (_salvar_documento_body (lit "SC 12 (retificada)") (lit "abd") Cenario.url
            Cenario.ident (lit "consulta") None Cenario.w1)
     = Raise AttributeError
  /\ exists w',
      Cenario.salvar (lit "SC 12 (retificada)") (lit "abd") Cenario.w1 = (Ok None, w')
      /\ docs_erro (self w') = (docs_erro (self Cenario.w1) + 1)%Z
      /\ documentos w' = documentos Cenario.w1
      /\ documentos w' !! (FonteDados.pk (fonte (self Cenario.w1)), Cenario.ident)
         = Some Cenario.d1
      /\ arquivos w' = arquivos Cenario.w1
      /\ trace w' = trace Cenario.w1
      /\ docs_novos (self w') = docs_novos (self Cenario.w1)
      /\ docs_atualizados (self w') = docs_atualizados (self Cenario.w1)
      /\ docs_ignorados (self w') = docs_ignorados (self Cenario.w1).
Proof.
  assert (H1 : documentos Cenario.w1
                 !! (FonteDados.pk (fonte (self Cenario.w1)), Cenario.ident)
               = Some Cenario.d1) by (vm_compute; reflexivity).
  assert (H2 : DocumentoFonte.calcular_hash (lit "abd")
     <> Some (DocumentoFonte.hash_conteudo Cenario.d1)) by (vm_compute; discriminate).
  assert (H3 : fst (_salvar_documento_body (lit "SC 12 (retificada)") (lit "abd")
            Cenario.url Cenario.ident (lit "consulta") None Cenario.w1)
     = Raise AttributeError) by (vm_compute; reflexivity).
  split; [exact H1|]. split; [exact H2|]. split; [exact H3|].
  exact (salvar_documento_failure (lit "SC 12 (retificada)") (lit "abd") Cenario.url
           Cenario.ident (lit "consulta") None Cenario.w1 Cenario.d1 AttributeError
           (snd (_salvar_documento_body (lit "SC 12 (retificada)") (lit "abd")
                   Cenario.url Cenario.ident (lit "consulta") None Cenario.w1))
           H1 H2
           (pair_eta (_salvar_documento_body (lit "SC 12 (retificada)") (lit "abd")
                        Cenario.url Cenario.ident (lit "consulta") None Cenario.w1)
              (Raise AttributeError) H3)).
Defined.

Lemma salvar_documento_update_fails_witness :
  documentos Cenario.w1 !! (FonteDados.pk (fonte (self Cenario.w1)), Cenario.ident)
  = Some Cenario.d1
  /\ DocumentoFonte.calcular_hash (lit "abd") = Some Cenario.hash_abd
  /\ DocumentoFonte.hash_conteudo Cenario.d1 <> Cenario.hash_abd
  /\ exists w',
      Cenario.salvar (lit "SC 12 (retificada)") (lit "abd") Cenario.w1 = (Ok None, w')
      /\ documentos w' = documentos Cenario.w1
      /\ documentos w' !! (FonteDados.pk (fonte (self Cenario.w1)), Cenario.ident)
         = Some Cenario.d1
      /\ arquivos w' = arquivos Cenario.w1
      /\ trace w' = trace Cenario.w1
      /\ docs_atualizados (self w') = docs_atualizados (self Cenario.w1)
      /\ docs_erro (self w') = (docs_erro (self Cenario.w1) + 1)%Z
      /\ (hd false (doc_faults Cenario.w1) = false ->
          fst (_salvar_documento_body (lit "SC 12 (retificada)") (lit "abd") Cenario.url
                 Cenario.ident (lit "consulta") None Cenario.w1)
          = Raise AttributeError).
Proof.
  assert (H1 : documentos Cenario.w1
                 !! (FonteDados.pk (fonte (self Cenario.w1)), Cenario.ident)
               = Some Cenario.d1) by (vm_compute; reflexivity).
  assert (H2 : DocumentoFonte.calcular_hash (lit "abd") = Some Cenario.hash_abd)
    by (vm_compute; reflexivity).
  assert (H3 : DocumentoFonte.hash_conteudo Cenario.d1 <> Cenario.hash_abd)
    by (vm_compute; discriminate).
  split; [exact H1|]. split; [exact H2|]. split; [exact H3|].
  exact (salvar_documento_update_fails (lit "SC 12 (retificada)") (lit "abd")
           Cenario.url Cenario.ident (lit "consulta") None Cenario.w1 Cenario.d1
           Cenario.hash_abd H1 H2 H3).
Defined.

Lemma salvar_documento_twice_witness :
  documentos Cenario.w0 !! (FonteDados.pk (fonte (self Cenario.w0)), Cenario.ident) = None
  /\ Str.encode_utf8 (lit "abc") <> None
  /\ sem_falhas 6 (doc_faults Cenario.w0)
  /\ exists w1 w2 caminho1 caminho2,
      Cenario.salvar (lit "SC 12") (lit "abc") Cenario.w0 = (Ok None, w1)
      /\ Cenario.salvar (lit "SC 12") (lit "abc") w1 = (Ok None, w2)
      /\ documentos w2 = documentos Cenario.w0
      /\ documentos w2 !! (FonteDados.pk (fonte (self Cenario.w0)), Cenario.ident) = None
      /\ trace w2
         = trace Cenario.w0
             ++ [EvWriteText caminho1 (lit "abc"); EvWriteText caminho2 (lit "abc")]
      /\ arquivos w2
         = <[caminho2 := lit "abc"]> (<[caminho1 := lit "abc"]> (arquivos Cenario.w0))
      /\ docs_erro (self w2) = (docs_erro (self Cenario.w0) + 2)%Z
      /\ docs_novos (self w2) = docs_novos (self Cenario.w0)
      /\ docs_atualizados (self w2) = docs_atualizados (self Cenario.w0)
      /\ docs_ignorados (self w2) = docs_ignorados (self Cenario.w0).
Proof.
  assert (H1 : documentos Cenario.w0
                 !! (FonteDados.pk (fonte (self Cenario.w0)), Cenario.ident) = None)
    by (vm_compute; reflexivity).
  assert (H2 : Str.encode_utf8 (lit "abc") <> None) by (vm_compute; discriminate).
  assert (H3 : sem_falhas 6 (doc_faults Cenario.w0)) by (vm_compute; constructor).
  split; [exact H1|]. split; [exact H2|]. split; [exact H3|].
  exact (salvar_documento_twice (lit "SC 12") (lit "abc") Cenario.url Cenario.ident
           (lit "consulta") None Cenario.w0 H1 H2 H3).
Defined.

(* The two calls of C2 on the empty catalogue, run: both give None, no
   record is there afterwards, two errors are counted, and the file was
   written twice. *)
Example salvar_documento_duas_vezes :
  fst (Cenario.salvar (lit "SC 12") (lit "abc") Cenario.w0) = Ok None
  /\ fst (Cenario.salvar (lit "SC 12") (lit "abc")
            (snd (Cenario.salvar (lit "SC 12") (lit "abc") Cenario.w0))) = Ok None
  /\ documentos
       (snd (Cenario.salvar (lit "SC 12") (lit "abc")
               (snd (Cenario.salvar (lit "SC 12") (lit "abc") Cenario.w0))))
     !! Cenario.chave = None
  /\ docs_erro
       (self (snd (Cenario.salvar (lit "SC 12") (lit "abc")
                     (snd (Cenario.salvar (lit "SC 12") (lit "abc") Cenario.w0)))))
     = 2%Z
  /\ trace
       (snd (Cenario.salvar (lit "SC 12") (lit "abc")
               (snd (Cenario.salvar (lit "SC 12") (lit "abc") Cenario.w0))))
     = [EvWriteText Cenario.arquivo (lit "abc"); EvWriteText Cenario.arquivo (lit "abc")].
Proof. vm_compute. repeat split; reflexivity. Qed.

(* The update of C3 on the catalogue that holds the document, run: None,
   one error, the record still at version 1 with the fingerprint of abc, the
   file still holding abc, and no event. *)
Example salvar_documento_atualizacao :
  fst (Cenario.salvar (lit "SC 12 (retificada)") (lit "abd") Cenario.w1) = Ok None
  /\ docs_erro (self (snd (Cenario.salvar (lit "SC 12 (retificada)") (lit "abd")
                             Cenario.w1))) = 1%Z
  /\ docs_atualizados (self (snd (Cenario.salvar (lit "SC 12 (retificada)") (lit "abd")
                                    Cenario.w1))) = 0%Z
  /\ documentos (snd (Cenario.salvar (lit "SC 12 (retificada)") (lit "abd") Cenario.w1))
     !! Cenario.chave = Some Cenario.d1
  /\ DocumentoFonte.versao Cenario.d1 = 1%Z
  /\ arquivos (snd (Cenario.salvar (lit "SC 12 (retificada)") (lit "abd") Cenario.w1))
     !! Cenario.arquivo = Some (lit "abc")
  /\ trace (snd (Cenario.salvar (lit "SC 12 (retificada)") (lit "abd") Cenario.w1)) = [].
Proof. vm_compute. repeat split; reflexivity. Qed.

(* The one path that returns a record: the content is the one on record. *)
Example salvar_documento_sem_mudanca :
  fst (Cenario.salvar (lit "SC 12") (lit "abc") Cenario.w1) = Ok (Some Cenario.d1)
  /\ docs_ignorados (self (snd (Cenario.salvar (lit "SC 12") (lit "abc") Cenario.w1)))
     = 1%Z
  /\ trace (snd (Cenario.salvar (lit "SC 12") (lit "abc") Cenario.w1)) = [].
Proof. vm_compute. repeat split; reflexivity. Qed.

(* What conteudo_primeiro tells apart: a file written and then its record
   created passes; a record saved, then the file written, then the record
   saved again does not. *)
Example conteudo_primeiro_exemplos :
  conteudo_primeiro (lit "abc") false
    [EvWriteText Cenario.arquivo (lit "abc"); EvDocCreate Cenario.d1] = true
  /\ conteudo_primeiro (lit "abc") false
       [EvDocSave Cenario.d1; EvWriteText Cenario.arquivo (lit "abc");
        EvDocSave Cenario.d1] = false
  /\ conteudo_primeiro (lit "abc") false
       [EvWriteText Cenario.arquivo (lit "abd"); EvDocCreate Cenario.d1] = false.
Proof. vm_compute. repeat split; reflexivity. Qed.

(** ** The links of an index page *)

Section Numero.
Context {platform : Platform}.
Import CositScraper.
Local Open Scope N_scope.

Lemma match_numero_digit d s : is_digit d = true -> match_numero (d :: s) <> None.
Proof.
  intros Hd. unfold match_numero. cbn [span_digits]. rewrite Hd. discriminate.
Qed.

Lemma match_numero_Some s r :
  match_numero s = Some r -> exists d s', s = d :: s' /\ is_digit d = true.
Proof.
  unfold match_numero. destruct s as [|c s]; cbn [span_digits]; [discriminate|].
  destruct (is_digit c) eqn:Hc; [eauto|discriminate].
Qed.

Lemma match_espacos_complete esp d s :
  Forall (fun c => unicode_space c = true) esp ->
  is_digit d = true ->
  match_espacos (esp ++ d :: s) <> None.
Proof.
  intros Hesp Hd. induction Hesp as [|c esp Hc _ IH]; cbn [app match_espacos].
  - pose proof (match_numero_digit d s Hd).
    destruct (unicode_space d); [destruct (match_espacos s)|]; congruence.
  - rewrite Hc. destruct (match_espacos (esp ++ d :: s)); congruence.
Qed.

Lemma match_espacos_Some s r :
  match_espacos s = Some r ->
  exists esp d s',
    s = esp ++ d :: s' /\ Forall (fun c => unicode_space c = true) esp
    /\ is_digit d = true.
Proof.
  revert r. induction s as [|c s IH]; intros r; cbn [match_espacos].
  - intros H. apply match_numero_Some in H as (d & s' & Hs & _). discriminate.
  - destruct (unicode_space c) eqn:Hc.
    + destruct (match_espacos s) as [r'|] eqn:Hs.
      * intros _. destruct (IH r' eq_refl) as (esp & d & s' & -> & Hesp & Hd).
        exists (c :: esp), d, s'. repeat split; [constructor|]; assumption.
      * intros H. apply match_numero_Some in H as (d & s' & Hs' & Hd).
        exists [], d, s'. repeat split; [assumption|constructor|assumption].
    + intros H. apply match_numero_Some in H as (d & s' & Hs' & Hd).
      exists [], d, s'. repeat split; [assumption|constructor|assumption].
Qed.

Lemma match_ordinal_complete ord esp d s :
  e_ordinal ord ->
  Forall (fun c => unicode_space c = true) esp ->
  is_digit d = true ->
  match_ordinal (ord ++ esp ++ d :: s) <> None.
Proof.
  intros Hord Hesp Hd.
  pose proof (match_espacos_complete esp d s Hesp Hd) as He.
  destruct Hord as [->|[->| ->]]; cbn [app match_ordinal].
  - destruct (esp ++ d :: s) as [|c s0] eqn:Hs; cbn [match_ordinal]; [exact He|].
    destruct ((c =? Str.c_degree) || (c =? Str.c_ordm)); [|exact He].
    destruct (match_espacos s0); [discriminate|exact He].
  - cbn. destruct (match_espacos (esp ++ d :: s)); congruence.
  - cbn. destruct (match_espacos (esp ++ d :: s)); congruence.
Qed.

Lemma match_ordinal_Some s r :
  match_ordinal s = Some r ->
  exists ord esp d s',
    s = ord ++ esp ++ d :: s' /\ e_ordinal ord
    /\ Forall (fun c => unicode_space c = true) esp /\ is_digit d = true.
Proof.
  assert (Hsem : forall s0 r0, match_espacos s0 = Some r0 ->
            exists ord esp d s',
              s0 = ord ++ esp ++ d :: s' /\ e_ordinal ord
              /\ Forall (fun c => unicode_space c = true) esp /\ is_digit d = true).
  { intros s0 r0 H. apply match_espacos_Some in H as (esp & d & s' & -> & He & Hd).
    exists [], esp, d, s'. repeat split; [left; reflexivity|assumption|assumption]. }
  destruct s as [|c s]; cbn [match_ordinal]; [apply Hsem|].
  destruct ((c =? Str.c_degree) || (c =? Str.c_ordm)) eqn:Hc; [|apply Hsem].
  destruct (match_espacos s) as [r'|] eqn:Hs; [|apply Hsem].
  intros _. apply match_espacos_Some in Hs as (esp & d & s' & -> & He & Hd).
  exists [c], esp, d, s'. repeat split; try assumption.
  apply orb_true_iff in Hc as [Hc|Hc]; apply N.eqb_eq in Hc; subst;
    [right; left|right; right]; reflexivity.
Qed.

Lemma re_search_complete texto : tem_numero texto -> re_search texto <> None.
Proof.
  intros (antes & n & ord & esp & d & depois & -> & Hn & Hord & Hesp & Hd).
  pose proof (match_ordinal_complete ord esp d depois Hord Hesp Hd) as Hm.
  induction antes as [|c antes IH]; cbn [app re_search].
  - destruct Hn as [-> | ->]; cbn;
      destruct (match_ordinal (ord ++ esp ++ d :: depois)); congruence.
  - destruct ((c =? 110) || (c =? 78)); [|exact IH].
    destruct (match_ordinal (antes ++ _)); [discriminate|exact IH].
Qed.

Lemma re_search_Some texto r : re_search texto = Some r -> tem_numero texto.
Proof.
  induction texto as [|c s IH]; cbn [re_search]; [discriminate|].
  assert (Hrest : re_search s = Some r -> tem_numero (c :: s)).
  { intros H. destruct (IH H) as (antes & n & ord & esp & d & depois & -> & Hrest).
    exists (c :: antes), n, ord, esp, d, depois. split; [reflexivity|exact Hrest]. }
  destruct ((c =? 110) || (c =? 78)) eqn:Hc; [|exact Hrest].
  destruct (match_ordinal s) as [r'|] eqn:Hs; [|exact Hrest].
  intros _. apply match_ordinal_Some in Hs as (ord & esp & d & s' & -> & Ho & He & Hd).
  exists [], c, ord, esp, d, s'. repeat split; try assumption.
  apply orb_true_iff in Hc as [Hc|Hc]; apply N.eqb_eq in Hc; subst; [left|right];
    reflexivity.
Qed.

(* The search finds nothing exactly on the texts without a number. *)
Lemma re_search_None texto : re_search texto = None <-> ~ tem_numero texto.
Proof.
  split.
  - intros H Ht. exact (re_search_complete texto Ht H).
  - intros H. destruct (re_search texto) as [r|] eqn:Hr; [|reflexivity].
    exfalso. exact (H (re_search_Some texto r Hr)).
Qed.

(** C9. A link whose text has no number gives no candidate: the candidates
    of the page are those of its other links, and the loop over them runs
    as if the link were not on the page, so no counter moves on its
    account. *)
Theorem link_sem_numero_ignorado href texto ano antes depois :
  ~ tem_numero texto ->
  _extrair_info_documento href texto ano = None
  /\ (forall html,
        soup_links html = antes ++ (href, texto) :: depois ->
        _parsear_pagina_ano html ano = parsear_links (antes ++ depois) ano)
  /\ (forall html total w,
        soup_links html = antes ++ (href, texto) :: depois ->
        for_each processar_documento (_parsear_pagina_ano html ano) total w
        = for_each processar_documento (parsear_links (antes ++ depois) ano) total w).
Proof.
  intros Hsem. apply re_search_None in Hsem.
  assert (He : _extrair_info_documento href texto ano = None).
  { unfold _extrair_info_documento. rewrite Hsem. reflexivity. }
  assert (Hp : forall html,
             soup_links html = antes ++ (href, texto) :: depois ->
             _parsear_pagina_ano html ano = parsear_links (antes ++ depois) ano).
  { intros html Hl. unfold _parsear_pagina_ano. rewrite Hl. clear Hl.
    induction antes as [|[h t] antes IH]; cbn [app parsear_links].
    - rewrite He. destruct (_e_solucao_consulta texto href); reflexivity.
    - rewrite IH. reflexivity. }
  split; [exact He|]. split; [exact Hp|].
  intros html total w Hl. rewrite (Hp html Hl). reflexivity.
Qed.
End Numero.

(** ** What a harvest leaves alone *)

Lemma pe_refl w : preserva_execucao w w.
Proof.
  constructor; try reflexivity. exists []. split; [symmetry; apply app_nil_r|reflexivity].
Qed.

Lemma pe_trans w1 w2 w3 :
  preserva_execucao w1 w2 -> preserva_execucao w2 w3 -> preserva_execucao w1 w3.
Proof.
  intros H12 H23.
  destruct (pe_trace _ _ H12) as (t1 & Ht1 & Hf1), (pe_trace _ _ H23) as (t2 & Ht2 & Hf2).
  destruct H12, H23. constructor; try congruence.
  exists (t1 ++ t2). split.
  - rewrite Ht2, Ht1, app_assoc. reflexivity.
  - rewrite forallb_app, Hf1, Hf2. reflexivity.
Qed.

Ltac pe_solve :=
  constructor; proj; try reflexivity;
  exists []; split; [symmetry; apply app_nil_r|reflexivity].

Section Preserva.
Context {A B : Type}.

Lemma preserva_ret (a : A) : preserva (mret a).
Proof. intros w. apply pe_refl. Qed.

Lemma preserva_raise (e : exn) : preserva (@raise A e).
Proof. intros w. apply pe_refl. Qed.

Lemma preserva_gets (f : World -> A) : preserva (gets f).
Proof. intros w. apply pe_refl. Qed.

Lemma preserva_bind (m : M A) (f : A -> M B) :
  preserva m -> (forall a, preserva (f a)) -> preserva (m ≫= f).
Proof.
  intros Hm Hf w. specialize (Hm w).
  cbv [mbind M_bind]. destruct (m w) as [[a|e] w1]; cbn [snd] in *.
  - eapply pe_trans; [exact Hm|apply Hf].
  - exact Hm.
Qed.

Lemma preserva_try_except (m : M A) (h : exn -> M A) :
  preserva m -> (forall e, preserva (h e)) -> preserva (try_except m h).
Proof.
  intros Hm Hh w. specialize (Hm w).
  unfold try_except. destruct (m w) as [[a|e] w1]; cbn [snd] in *.
  - exact Hm.
  - eapply pe_trans; [exact Hm|apply Hh].
Qed.
End Preserva.

Lemma preserva_doc_op e : preserva (doc_op e).
Proof.
  intros w. unfold doc_op. destruct (hd false (doc_faults w)); pe_solve.
Qed.

Lemma preserva_clock_now : preserva clock_now.
Proof. intros w. unfold clock_now. pe_solve. Qed.

Lemma preserva_emit e : evento_de_coleta e = true -> preserva (emit e).
Proof.
  intros He w. constructor; try reflexivity.
  exists [e]. split; [reflexivity|]. cbn. rewrite He. reflexivity.
Qed.

Lemma preserva_modify (f : World -> World) :
  (forall w, preserva_execucao w (f w)) -> preserva (modify f).
Proof. intros H w. apply H. Qed.

Lemma preserva_for_each {A S : Type} (body : S -> A -> M S) (l : list A) :
  (forall s x, preserva (body s x)) -> forall s, preserva (for_each body l s).
Proof.
  intros Hb. induction l as [|x l IH]; intros s; cbn [for_each].
  - apply preserva_ret.
  - apply preserva_bind; [apply Hb|intros; apply IH].
Qed.

Ltac preserva_step :=
  first
    [ apply preserva_bind; [|intros ?]
    | apply preserva_try_except; [|intros ?]
    | apply preserva_ret
    | apply preserva_raise
    | apply preserva_gets
    | apply preserva_doc_op
    | apply preserva_clock_now
    | apply preserva_emit; reflexivity
    | apply preserva_modify; intros ?; pe_solve
    | match goal with
      | |- preserva (match ?x with _ => _ end) => destruct x
      end ].

Section PreservaScraper.
Context {platform : Platform}.

Lemma preserva_salvar_documento titulo conteudo url identificador tipo_documento
    metadados :
  preserva (_salvar_documento titulo conteudo url identificador tipo_documento
              metadados).
Proof.
  unfold _salvar_documento, _salvar_documento_body, documento_get, documento_save,
    documento_create, processar_arquivo_upload, arquivo_upload, log_documento_salvo,
    write_text, relative_to, _obter_caminho_arquivo, utf8_len, modify_self.
  repeat preserva_step.
Qed.

Lemma preserva_processar_documento total info :
  preserva (CositScraper.processar_documento total info).
Proof.
  unfold CositScraper.processar_documento, CositScraper._baixar_documento, _delay,
    modify_self.
  repeat first [apply preserva_salvar_documento | preserva_step].
Qed.

Lemma preserva_processar_ano total ano : preserva (CositScraper.processar_ano total ano).
Proof.
  unfold CositScraper.processar_ano, CositScraper._baixar_documento.
  repeat first
    [ apply preserva_for_each; intros; apply preserva_processar_documento
    | preserva_step ].
Qed.

Lemma preserva_coletar : preserva CositScraper.coletar.
Proof.
  unfold CositScraper.coletar, CositScraper._obter_lista_anos,
    CositScraper._extrair_ano_atual.
  repeat first
    [ apply preserva_for_each; intros; apply preserva_processar_ano
    | preserva_step ].
Qed.
End PreservaScraper.

(** ** What coletar returns *)

Section Coletar.
Context {platform : Platform}.
Import CositScraper.

Lemma salvar_documento_ok titulo conteudo url identificador tipo_documento metadados w :
  exists r w',
    _salvar_documento titulo conteudo url identificador tipo_documento metadados w
    = (Ok r, w').
Proof.
  rewrite salvar_documento_unfold.
  destruct (_salvar_documento_body _ _ _ _ _ _ w) as [[r|e] w1]; eauto.
Qed.

Lemma processar_documento_result total info w :
  fst (processar_documento total info w)
  = Ok (total + (if baixavel (http w) (url info) then 1 else 0))%Z.
Proof.
  cbv [processar_documento try_except _baixar_documento _delay emit gets modify
       modify_self mbind mret M_bind M_ret baixavel]; proj.
  destruct (http w (url info)) as [[|c cs]|]; proj;
    try (f_equal; lia).
  match goal with
  | |- context [_salvar_documento ?a ?b ?c ?d ?e ?f ?w0] =>
      destruct (salvar_documento_ok a b c d e f w0) as (r & w' & ->)
  end.
  reflexivity.
Qed.

Lemma for_each_processar_documento docs total w :
  fst (for_each processar_documento docs total w)
  = Ok (total + Z.of_nat (length (filter (fun info => baixavel (http w) (url info) = true)
                                    docs)))%Z.
Proof.
  revert total w. induction docs as [|info docs IH]; intros total w; cbn [for_each].
  - cbn. f_equal. lia.
  - cbv [mbind M_bind].
    pose proof (processar_documento_result total info w) as Hr.
    pose proof (preserva_processar_documento total info w) as Hp.
    destruct (processar_documento total info w) as [[a|e] w1]; cbn [fst snd] in *;
      [|discriminate].
    injection Hr as ->. rewrite IH, (pe_http _ _ Hp).
    rewrite filter_cons. destruct (baixavel (http w) (url info)) eqn:Hb.
    + rewrite decide_True by reflexivity. cbn [length]. f_equal. lia.
    + rewrite decide_False by discriminate. f_equal. lia.
Qed.

Lemma processar_ano_result total ano w :
  fst (processar_ano total ano w) = Ok (total + processados (http w) ano)%Z.
Proof.
  unfold processados, candidatos.
  cbv [processar_ano _baixar_documento emit gets modify mbind mret M_bind M_ret]; proj.
  destruct (http w (_construir_url_ano ano)) as [[|c cs]|]; proj;
    try (cbn; f_equal; lia).
  rewrite for_each_processar_documento. reflexivity.
Qed.

Lemma coletar_result w :
  let ano := fst (local_year_month (relogio w (leituras w))) in
  fst (coletar w)
  = Ok (0 <? processados (http w) ano + processados (http w) (ano - 1))%Z.
Proof.
  intros ano.
  cbv [coletar try_except _obter_lista_anos _extrair_ano_atual clock_now mbind mret
       M_bind M_ret]; proj. fold ano.
  cbn [for_each]. cbv [mbind mret M_bind M_ret].
  pose proof (processar_ano_result 0 ano (with_leituras (S (leituras w)) w)) as H1.
  pose proof (preserva_processar_ano 0 ano (with_leituras (S (leituras w)) w)) as Hp.
  destruct (processar_ano 0 ano _) as [[n1|e] w1]; cbn [fst snd] in *; [|discriminate].
  injection H1 as ->.
  pose proof (processar_ano_result (0 + processados (http w) ano) (ano - 1) w1) as H2.
  destruct (processar_ano _ (ano - 1) w1) as [[n2|e] w2]; cbn [fst snd] in *;
    [|discriminate].
  injection H2 as ->. rewrite (pe_http _ _ Hp). proj.
  reflexivity.
Qed.
End Coletar.

(** ** executar *)

Section Executar.
Context {impl : ScraperImpl}.

Lemma executar_run w r w2 :
  validar_configuracao w = (Ok true, w) ->
  sem_falhas 3 (run_faults w) ->
  coletar (snd (_criar_log w)) = (r, w2) ->
  preserva_execucao (snd (_criar_log w)) w2 ->
  exists w' t,
    executar w = (Ok (match r with Ok b => b | Raise _ => false end), w')
    /\ trace w'
       = trace w ++ EvLogCreate (log_inicial w) :: t
           ++ [EvLogSave (log_final w r w2); EvFonteSave (fonte_final w w2);
               EvSessionClose]
    /\ forallb evento_de_coleta t = true
    /\ logs w' = <[log_seq w := log_final w r w2]> (logs w)
    /\ fontes w' = <[FonteDados.pk (fonte (self w)) := fonte_final w w2]> (fontes w)
    /\ log (self w') = Some (log_final w r w2)
    /\ fonte (self w') = fonte_final w w2
    /\ docs_novos (self w') = docs_novos (self w2)
    /\ docs_atualizados (self w') = docs_atualizados (self w2)
    /\ docs_ignorados (self w') = docs_ignorados (self w2)
    /\ docs_erro (self w') = docs_erro (self w2)
    /\ session_open (self w') = false.
Proof.
  intros Hv Hf Hc Hp.
  apply sem_falhas_S in Hf as [Hf0 Hf]. apply sem_falhas_S in Hf as [Hf1 Hf].
  apply sem_falhas_S in Hf as [Hf2 _].
  revert Hc Hp.
  cbv [executar try_finally try_except _criar_log run_op clock_now
       modify_self modify emit gets raise mbind mret M_bind M_ret].
  rewrite Hv. proj. cbn [negb]. rewrite Hf0. proj.
  intros Hc Hp. rewrite Hc.
  destruct Hp as [Hfo Hlo Hse Hfs Hls Hsq Hre Hht Hrf (t & Ht & Hev)]. proj_all.
  assert (Hfin : forall st msg err,
    exists w3,
      _finalizar_log st msg err w2 = (Ok tt, w3)
      /\ trace w3 = trace w2
           ++ [EvLogSave
                 (LogColeta.mk (log_seq w) (FonteDados.pk (fonte (self w))) st
                    (relogio w (leituras w)) (Some (relogio w (leituras w2)))
                    (Some (Z.quot (relogio w (leituras w2) - relogio w (leituras w))
                             1000000))
                    (docs_novos (self w2)) (docs_atualizados (self w2))
                    (docs_ignorados (self w2)) (docs_erro (self w2)) msg err);
               EvFonteSave (fonte_final w w2)]
      /\ logs w3
         = <[log_seq w :=
               LogColeta.mk (log_seq w) (FonteDados.pk (fonte (self w))) st
                 (relogio w (leituras w)) (Some (relogio w (leituras w2)))
                 (Some (Z.quot (relogio w (leituras w2) - relogio w (leituras w))
                          1000000))
                 (docs_novos (self w2)) (docs_atualizados (self w2))
                 (docs_ignorados (self w2)) (docs_erro (self w2)) msg err]>
             (logs w)
      /\ fontes w3
         = <[FonteDados.pk (fonte (self w)) := fonte_final w w2]> (fontes w)
      /\ log (self w3)
         = Some (LogColeta.mk (log_seq w) (FonteDados.pk (fonte (self w))) st
                   (relogio w (leituras w)) (Some (relogio w (leituras w2)))
                   (Some (Z.quot (relogio w (leituras w2) - relogio w (leituras w))
                            1000000))
                   (docs_novos (self w2)) (docs_atualizados (self w2))
                   (docs_ignorados (self w2)) (docs_erro (self w2)) msg err)
      /\ fonte (self w3) = fonte_final w w2
      /\ docs_novos (self w3) = docs_novos (self w2)
      /\ docs_atualizados (self w3) = docs_atualizados (self w2)
      /\ docs_ignorados (self w3) = docs_ignorados (self w2)
      /\ docs_erro (self w3) = docs_erro (self w2)).
  { intros st msg err.
    cbv [_finalizar_log run_op clock_now modify_self modify emit gets raise mbind
         mret M_bind M_ret]. proj.
    rewrite Hlo. repeat (progress (proj; rewrite ?Hrf, ?Hf1, ?Hf2)).
    eexists. split; [reflexivity|]. proj.
    unfold fonte_final. rewrite Hre, Hfo, Hls, Hfs. cbn [LogColeta.calcular_duracao
      LogColeta.finalizado_em LogColeta.pk LogColeta.fonte LogColeta.status
      LogColeta.iniciado_em LogColeta.duracao_segundos LogColeta.documentos_novos
      LogColeta.documentos_atualizados LogColeta.documentos_ignorados
      LogColeta.documentos_erro LogColeta.mensagem LogColeta.erro_detalhe
      FonteDados.pk FonteDados.set_ultima_coleta].
    rewrite insert_insert_eq, <- app_assoc.
    repeat split; reflexivity. }
  unfold log_final, desfecho.
  destruct r as [[|]|e];
    match goal with
    | |- context [_finalizar_log ?st ?msg ?err _] =>
        destruct (Hfin st msg err)
          as (w3 & -> & Ht3 & Hl3 & Hf3 & Hlg3 & Hfo3 & Hn3 & Ha3 & Hi3 & He3)
    end;
    (eexists _, t; split; [reflexivity|]; proj;
     rewrite Ht3, Ht, Hl3, Hf3, Hlg3, Hfo3, Hn3, Ha3, Hi3, He3; cbn [fst snd];
     rewrite <- !app_assoc; repeat split; try reflexivity; assumption).
Qed.
End Executar.

Section ExecutarClaims.
Context {impl : ScraperImpl}.

(** C4. When the validation of the configuration answers false, executar
    answers false and does nothing but close the session: no run log is
    created, no request is made, and the source, the tables, the files and
    the counters are as they were. *)
Theorem executar_config_invalida w :
  validar_configuracao w = (Ok false, w) ->
  exists w',
    executar w = (Ok false, w')
    /\ logs w' = logs w
    /\ log_seq w' = log_seq w
    /\ log (self w') = log (self w)
    /\ fontes w' = fontes w
    /\ fonte (self w') = fonte (self w)
    /\ documentos w' = documentos w
    /\ arquivos w' = arquivos w
    /\ docs_novos (self w') = docs_novos (self w)
    /\ docs_atualizados (self w') = docs_atualizados (self w)
    /\ docs_ignorados (self w') = docs_ignorados (self w)
    /\ docs_erro (self w') = docs_erro (self w)
    /\ leituras w' = leituras w
    /\ trace w' = trace w ++ [EvSessionClose].
Proof.
  intros Hv.
  cbv [executar try_finally try_except modify_self modify emit mbind mret M_bind M_ret].
  rewrite Hv. cbn [negb]. eexists. split; [reflexivity|]. proj.
  repeat split; reflexivity.
Qed.

(** C7, as the code has it.  In a run whose configuration is valid, whose
    saves of the run log and of the source do not fail, and whose harvest
    leaves the run log alone, the record that _criar_log opened is saved
    by _finalizar_log exactly once.  That save sets the end time to the
    reading of the clock taken then and the duration to the whole seconds
    between start and end; the record in the table is that one.  The last
    harvest of the source is the next reading of the clock, taken after
    the record was saved. *)
Theorem executar_finaliza_uma_vez w r w2 :
  validar_configuracao w = (Ok true, w) ->
  sem_falhas 3 (run_faults w) ->
  coletar (snd (_criar_log w)) = (r, w2) ->
  preserva_execucao (snd (_criar_log w)) w2 ->
  exists w' l t,
    snd (executar w) = w'
    /\ trace w'
       = trace w ++ EvLogCreate (log_inicial w) :: t
           ++ [EvLogSave l; EvFonteSave (fonte (self w')); EvSessionClose]
    /\ forallb evento_de_coleta t = true
    /\ logs w' !! log_seq w = Some l
    /\ log (self w') = Some l
    /\ LogColeta.iniciado_em l = relogio w (leituras w)
    /\ LogColeta.finalizado_em l = Some (relogio w (leituras w2))
    /\ LogColeta.duracao_segundos l
       = Some (Z.quot (relogio w (leituras w2) - relogio w (leituras w)) 1000000)
    /\ FonteDados.ultima_coleta (fonte (self w')) = Some (relogio w (S (leituras w2)))
    /\ fontes w' !! FonteDados.pk (fonte (self w)) = Some (fonte (self w')).
Proof.
  intros Hv Hf Hc Hp.
  destruct (executar_run w r w2 Hv Hf Hc Hp)
    as (w' & t & He & Ht & Hev & Hl & Hfs & Hlg & Hfo & _).
  exists w', (log_final w r w2), t.
  rewrite He, Hfo, Hl, Hfs, !lookup_insert_eq. cbn [snd].
  repeat split; try reflexivity; assumption.
Qed.
End ExecutarClaims.

Section CositClaims.
Context {platform : Platform}.

(* The validation of CositScraper only reads the source. *)
Lemma cosit_validar_configuracao w :
  CositScraper.validar_configuracao w
  = (Ok (if decide (FonteDados.url_base (fonte (self w)) = []) then false
         else if decide (FonteDados.tipo (fonte (self w)) = lit "web") then true
         else false), w).
Proof.
  cbv [CositScraper.validar_configuracao gets mbind mret M_bind M_ret].
  repeat (destruct (decide _)); reflexivity.
Qed.

Lemma cosit_validar_true w :
  FonteDados.url_base (fonte (self w)) <> [] ->
  FonteDados.tipo (fonte (self w)) = lit "web" ->
  @validar_configuracao CositScraper.impl w = (Ok true, w).
Proof.
  intros Hu Ht. change (CositScraper.validar_configuracao w = (Ok true, w)).
  rewrite cosit_validar_configuracao.
  rewrite decide_False by assumption. rewrite decide_True by assumption.
  reflexivity.
Qed.

Lemma cosit_validar_false w :
  FonteDados.url_base (fonte (self w)) = []
  \/ FonteDados.tipo (fonte (self w)) <> lit "web" ->
  @validar_configuracao CositScraper.impl w = (Ok false, w).
Proof.
  intros H. change (CositScraper.validar_configuracao w = (Ok false, w)).
  rewrite cosit_validar_configuracao.
  destruct (decide (FonteDados.url_base (fonte (self w)) = [])); [reflexivity|].
  destruct (decide (FonteDados.tipo (fonte (self w)) = lit "web")); [|reflexivity].
  destruct H; contradiction.
Qed.

(* The harvest of CositScraper, as executar calls it. *)
Lemma preserva_coletar_impl w :
  preserva_execucao w (snd (@coletar CositScraper.impl w)).
Proof. exact (preserva_coletar w). Qed.

(** C8, as the code has it.  A run of the COSIT scraper with a valid
    configuration and no failing save of the run log or of the source ends
    with the record finalized once, carrying the four counters of the
    scraper.  Its status is sucesso when at least one candidate was
    downloaded and handed to _salvar_documento, and executar answers true;
    when there was none, coletar answers false, the status is erro with the
    message of a harvest that failed without exception, and executar
    answers false. *)
Theorem executar_cosit_status w :
  FonteDados.url_base (fonte (self w)) <> [] ->
  FonteDados.tipo (fonte (self w)) = lit "web" ->
  sem_falhas 3 (run_faults w) ->
  exists w' l,
    executar w = (Ok (0 <? processados_na_execucao w)%Z, w')
    /\ logs w' !! log_seq w = Some l
    /\ LogColeta.status l
       = (if (0 <? processados_na_execucao w)%Z then lit "sucesso" else lit "erro")
    /\ ((processados_na_execucao w <= 0)%Z ->
        LogColeta.mensagem l
        = lit "Coleta falhou sem exce" ++ [Str.c_ccedil; Str.c_atilde] ++ lit "o")
    /\ LogColeta.erro_detalhe l = []
    /\ LogColeta.documentos_novos l = docs_novos (self w')
    /\ LogColeta.documentos_atualizados l = docs_atualizados (self w')
    /\ LogColeta.documentos_ignorados l = docs_ignorados (self w')
    /\ LogColeta.documentos_erro l = docs_erro (self w').
Proof.
  intros Hu Ht Hf.
  pose proof (cosit_validar_true w Hu Ht) as Hv.
  pose proof (coletar_result (snd (_criar_log w))) as Hr.
  pose proof (preserva_coletar (snd (_criar_log w))) as Hp.
  change (@coletar CositScraper.impl) with CositScraper.coletar in *.
  destruct (CositScraper.coletar (snd (_criar_log w))) as [r w2] eqn:Hc.
  cbn [fst snd] in Hr, Hp.
  assert (Hn : r = Ok (0 <? processados_na_execucao w)%Z).
  { rewrite Hr. unfold processados_na_execucao.
    pose proof Hf as Hf'. apply sem_falhas_S in Hf' as [Hf0 _].
    cbv [_criar_log run_op clock_now modify_self modify emit gets raise mbind mret
         M_bind M_ret]. proj. rewrite Hf0. proj. reflexivity. }
  clear Hr. subst r.
  destruct (executar_run w _ w2 Hv Hf Hc Hp)
    as (w' & t & He & _ & _ & Hl & _ & _ & _ & Hno & Ha & Hi & Her & _).
  exists w', (log_final w (Ok (0 <? processados_na_execucao w)%Z) w2).
  rewrite He, Hl, lookup_insert_eq, Hno, Ha, Hi, Her.
  unfold log_final, desfecho.
  destruct (0 <? processados_na_execucao w)%Z eqn:Hpos;
    cbn [fst snd LogColeta.status LogColeta.mensagem LogColeta.erro_detalhe
         LogColeta.documentos_novos LogColeta.documentos_atualizados
         LogColeta.documentos_ignorados LogColeta.documentos_erro];
    (split; [reflexivity|]); (split; [reflexivity|]); (split; [reflexivity|]);
    (split; [|repeat split; reflexivity]).
  - intros Hle. apply Z.ltb_lt in Hpos. lia.
  - intros _. reflexivity.
Qed.
End CositClaims.

Example sitio_links :
  soup_links Sitio.pagina2024
  = [(lit "/sc/11", Sitio.solucao (lit "11/2024"));
     (lit "/sc/12", Sitio.solucao (lit "12"));
     (lit "/sc/lista", lit "Solucao de Consulta no 7")].
Proof. vm_compute. reflexivity. Qed.

Example sitio_candidatos :
  CositScraper._parsear_pagina_ano Sitio.pagina2024 2024
  = [CositScraper.mk_doc_info (lit "cosit_2024_0011") (Sitio.solucao (lit "11/2024"))
       Sitio.url11 (lit "11") 2024 (lit "consulta");
     CositScraper.mk_doc_info (lit "cosit_2024_0012") (Sitio.solucao (lit "12"))
       Sitio.url12 (lit "12") 2024 (lit "consulta")].
Proof. vm_compute. reflexivity. Qed.

Example re_search_exemplos :
  CositScraper.re_search (Sitio.solucao (lit "123/2024")) = Some (lit "123", Some (lit "2024"))
  /\ CositScraper.re_search (lit "SC COSIT N" ++ [Str.c_degree] ++ lit "45") = Some (lit "45", None)
  /\ CositScraper.re_search (lit "plano 7/20") = None
  /\ CositScraper.re_search (lit "in2024/1") = Some (lit "2024", None)
  /\ CositScraper.re_search (lit "Solucao de Consulta no 7") = None.
Proof. vm_compute. repeat split; reflexivity. Qed.

Lemma link_sem_numero_ignorado_witness :
  ~ tem_numero (lit "Solucao de Consulta no 7")
  /\ CositScraper._extrair_info_documento (lit "/sc/lista")
       (lit "Solucao de Consulta no 7") 2024 = None
  /\ (forall html,
        soup_links html
        = [(lit "/sc/11", Sitio.solucao (lit "11/2024"));
           (lit "/sc/12", Sitio.solucao (lit "12"))]
          ++ (lit "/sc/lista", lit "Solucao de Consulta no 7") :: [] ->
        CositScraper._parsear_pagina_ano html 2024
        = CositScraper.parsear_links
            ([(lit "/sc/11", Sitio.solucao (lit "11/2024"));
              (lit "/sc/12", Sitio.solucao (lit "12"))] ++ []) 2024)
  /\ (forall html total w,
        soup_links html
        = [(lit "/sc/11", Sitio.solucao (lit "11/2024"));
           (lit "/sc/12", Sitio.solucao (lit "12"))]
          ++ (lit "/sc/lista", lit "Solucao de Consulta no 7") :: [] ->
        for_each CositScraper.processar_documento
          (CositScraper._parsear_pagina_ano html 2024) total w
        = for_each CositScraper.processar_documento
            (CositScraper.parsear_links
               ([(lit "/sc/11", Sitio.solucao (lit "11/2024"));
                 (lit "/sc/12", Sitio.solucao (lit "12"))] ++ []) 2024) total w).
Proof.
  assert (H : ~ tem_numero (lit "Solucao de Consulta no 7")).
  { apply (proj1 (re_search_None (lit "Solucao de Consulta no 7"))).
    vm_compute. reflexivity. }
  split; [exact H|].
  exact (link_sem_numero_ignorado (lit "/sc/lista") (lit "Solucao de Consulta no 7") 2024
           [(lit "/sc/11", Sitio.solucao (lit "11/2024"));
            (lit "/sc/12", Sitio.solucao (lit "12"))] [] H).
Defined.

Lemma executar_config_invalida_witness :
  @validar_configuracao Sitio.cosit Sitio.w_sem_url = (Ok false, Sitio.w_sem_url)
  /\ exists w',
      @executar Sitio.cosit Sitio.w_sem_url = (Ok false, w')
      /\ logs w' = logs Sitio.w_sem_url
      /\ log_seq w' = log_seq Sitio.w_sem_url
      /\ log (self w') = log (self Sitio.w_sem_url)
      /\ fontes w' = fontes Sitio.w_sem_url
      /\ fonte (self w') = fonte (self Sitio.w_sem_url)
      /\ documentos w' = documentos Sitio.w_sem_url
      /\ arquivos w' = arquivos Sitio.w_sem_url
      /\ docs_novos (self w') = docs_novos (self Sitio.w_sem_url)
      /\ docs_atualizados (self w') = docs_atualizados (self Sitio.w_sem_url)
      /\ docs_ignorados (self w') = docs_ignorados (self Sitio.w_sem_url)
      /\ docs_erro (self w') = docs_erro (self Sitio.w_sem_url)
      /\ leituras w' = leituras Sitio.w_sem_url
      /\ trace w' = trace Sitio.w_sem_url ++ [EvSessionClose].
Proof.
  assert (H0 : FonteDados.url_base (fonte (self Sitio.w_sem_url)) = [])
    by (vm_compute; reflexivity).
  assert (H : @validar_configuracao Sitio.cosit Sitio.w_sem_url
              = (Ok false, Sitio.w_sem_url))
    by exact (cosit_validar_false Sitio.w_sem_url (or_introl H0)).
  split; [exact H|].
  exact (@executar_config_invalida Sitio.cosit Sitio.w_sem_url H).
Defined.

Lemma executar_finaliza_uma_vez_witness :
  @validar_configuracao Sitio.cosit Sitio.w = (Ok true, Sitio.w)
  /\ sem_falhas 3 (run_faults Sitio.w)
  /\ @coletar Sitio.cosit (snd (_criar_log Sitio.w))
     = (Ok true, snd (@coletar Sitio.cosit (snd (_criar_log Sitio.w))))
  /\ preserva_execucao (snd (_criar_log Sitio.w))
       (snd (@coletar Sitio.cosit (snd (_criar_log Sitio.w))))
  /\ exists w' l t,
      snd (@executar Sitio.cosit Sitio.w) = w'
      /\ trace w'
         = trace Sitio.w ++ EvLogCreate (log_inicial Sitio.w) :: t
             ++ [EvLogSave l; EvFonteSave (fonte (self w')); EvSessionClose]
      /\ forallb evento_de_coleta t = true
      /\ logs w' !! log_seq Sitio.w = Some l
      /\ log (self w') = Some l
      /\ LogColeta.iniciado_em l = relogio Sitio.w (leituras Sitio.w)
      /\ LogColeta.finalizado_em l
         = Some (relogio Sitio.w
                   (leituras (snd (@coletar Sitio.cosit (snd (_criar_log Sitio.w))))))
      /\ LogColeta.duracao_segundos l
         = Some (Z.quot
                   (relogio Sitio.w
                      (leituras (snd (@coletar Sitio.cosit (snd (_criar_log Sitio.w)))))
                    - relogio Sitio.w (leituras Sitio.w)) 1000000)
      /\ FonteDados.ultima_coleta (fonte (self w'))
         = Some (relogio Sitio.w
                   (S (leituras (snd (@coletar Sitio.cosit (snd (_criar_log Sitio.w)))))))
      /\ fontes w' !! FonteDados.pk (fonte (self Sitio.w)) = Some (fonte (self w')).
Proof.
  assert (Hu : FonteDados.url_base (fonte (self Sitio.w)) <> [])
    by (vm_compute; discriminate).
  assert (Ht : FonteDados.tipo (fonte (self Sitio.w)) = lit "web")
    by (vm_compute; reflexivity).
  assert (H1 : @validar_configuracao Sitio.cosit Sitio.w = (Ok true, Sitio.w))
    by exact (cosit_validar_true Sitio.w Hu Ht).
  assert (H2 : sem_falhas 3 (run_faults Sitio.w)) by (vm_compute; constructor).
  assert (H3 : fst (@coletar Sitio.cosit (snd (_criar_log Sitio.w))) = Ok true)
    by (vm_compute; reflexivity).
  assert (H4 : preserva_execucao (snd (_criar_log Sitio.w))
                 (snd (@coletar Sitio.cosit (snd (_criar_log Sitio.w)))))
    by exact (preserva_coletar_impl (snd (_criar_log Sitio.w))).
  split; [exact H1|]. split; [exact H2|].
  split; [exact (pair_eta (@coletar Sitio.cosit (snd (_criar_log Sitio.w))) (Ok true) H3)|].
  split; [exact H4|].
  exact (@executar_finaliza_uma_vez Sitio.cosit Sitio.w (Ok true)
           (snd (@coletar Sitio.cosit (snd (_criar_log Sitio.w)))) H1 H2
           (pair_eta (@coletar Sitio.cosit (snd (_criar_log Sitio.w))) (Ok true) H3) H4).
Defined.

(* C7 as the specification states it fails on the last harvest of the
   source: it is read from the clock one reading after the end time. *)
Lemma executar_ultima_coleta_counterexample :
  fst (@executar Sitio.cosit Sitio.w) = Ok true
  /\ LogColeta.finalizado_em
       <$> log (self (snd (@executar Sitio.cosit Sitio.w)))
     = Some (Some 1715731203000000%Z)
  /\ FonteDados.ultima_coleta
       (fonte (self (snd (@executar Sitio.cosit Sitio.w))))
     = Some 1715731204000000%Z
  /\ FonteDados.ultima_coleta
       <$> fontes (snd (@executar Sitio.cosit Sitio.w)) !! 1%Z
     = Some (Some 1715731204000000%Z)
  /\ 1715731203000000%Z <> 1715731204000000%Z.
Proof.
  split; [vm_compute; reflexivity|].
  split; [vm_compute; reflexivity|].
  split; [vm_compute; reflexivity|].
  split; [vm_compute; reflexivity|].
  discriminate.
Qed.

(* When the save of the source fails after the record was saved, executar
   finalizes the record a second time, with another end time and another
   status. *)
Example executar_finaliza_de_novo :
  map LogColeta.status
    (omap (fun e => match e with EvLogSave l => Some l | _ => None end)
       (trace (snd (@executar Sitio.cosit
                      (with_run_faults [false; false; true] Sitio.w)))))
  = [lit "sucesso"; lit "erro"]
  /\ map LogColeta.finalizado_em
       (omap (fun e => match e with EvLogSave l => Some l | _ => None end)
          (trace (snd (@executar Sitio.cosit
                         (with_run_faults [false; false; true] Sitio.w)))))
     = [Some 1715731203000000%Z; Some 1715731205000000%Z].
Proof. vm_compute. split; reflexivity. Qed.

Lemma executar_cosit_status_witness :
  FonteDados.url_base (fonte (self Sitio.w)) <> []
  /\ FonteDados.tipo (fonte (self Sitio.w)) = lit "web"
  /\ sem_falhas 3 (run_faults Sitio.w)
  /\ processados_na_execucao Sitio.w = 1%Z
  /\ exists w' l,
      @executar Sitio.cosit Sitio.w
      = (Ok (0 <? processados_na_execucao Sitio.w)%Z, w')
      /\ logs w' !! log_seq Sitio.w = Some l
      /\ LogColeta.status l
         = (if (0 <? processados_na_execucao Sitio.w)%Z then lit "sucesso" else lit "erro")
      /\ ((processados_na_execucao Sitio.w <= 0)%Z ->
          LogColeta.mensagem l
          = lit "Coleta falhou sem exce" ++ [Str.c_ccedil; Str.c_atilde] ++ lit "o")
      /\ LogColeta.erro_detalhe l = []
      /\ LogColeta.documentos_novos l = docs_novos (self w')
      /\ LogColeta.documentos_atualizados l = docs_atualizados (self w')
      /\ LogColeta.documentos_ignorados l = docs_ignorados (self w')
      /\ LogColeta.documentos_erro l = docs_erro (self w').
Proof.
  assert (H1 : FonteDados.url_base (fonte (self Sitio.w)) <> [])
    by (vm_compute; discriminate).
  assert (H2 : FonteDados.tipo (fonte (self Sitio.w)) = lit "web")
    by (vm_compute; reflexivity).
  assert (H3 : sem_falhas 3 (run_faults Sitio.w)) by (vm_compute; constructor).
  split; [exact H1|]. split; [exact H2|]. split; [exact H3|].
  split; [vm_compute; reflexivity|].
  exact (@executar_cosit_status Reference.platform Sitio.w H1 H2 H3).
Defined.

(* C8 as the specification states it fails on a run that finds no
   candidate: the origin answers nothing, no statement raises, and the
   record is finalized with status erro. *)
Lemma executar_sem_candidatos_counterexample :
  fst (CositScraper.coletar (snd (_criar_log Cenario.w0))) = Ok false
  /\ fst (@executar Sitio.cosit Cenario.w0) = Ok false
  /\ LogColeta.status
       <$> logs (snd (@executar Sitio.cosit Cenario.w0)) !! 1%Z
     = Some (lit "erro")
  /\ LogColeta.mensagem
       <$> logs (snd (@executar Sitio.cosit Cenario.w0)) !! 1%Z
     = Some (lit "Coleta falhou sem exce" ++ [Str.c_ccedil; Str.c_atilde] ++ lit "o")
  /\ LogColeta.erro_detalhe
       <$> logs (snd (@executar Sitio.cosit Cenario.w0)) !! 1%Z
     = Some []
  /\ docs_erro (self (snd (@executar Sitio.cosit Cenario.w0))) = 0%Z.
Proof. vm_compute. repeat split; reflexivity. Qed.

(** C6 does not hold.  On an origin that serves the index of the year with
    two candidates, refuses the first and serves the second, the harvest
    makes three requests in a row without a pause: the index and the first
    document, and then the second document right after the failed download.
    The only pause comes after the document that was saved, and the index of
    the year before is requested after it. *)
Theorem coletar_fetches_without_pause :
  List.filter evento_de_rede (trace (snd (CositScraper.coletar Sitio.w)))
  = [EvFetch Sitio.url2024; EvFetch Sitio.url11; EvFetch Sitio.url12; EvSleep;
     EvFetch Sitio.url2023].
Proof. vm_compute. reflexivity. Qed.

(* A whole run on the small origin: one download fails and the document
   that was downloaded cannot be recorded, so the log counts no new document
   and two errors; the status is sucesso all the same, the file of the
   second document is on the disk and the table is empty. *)
Example executar_sitio :
  fst (@executar Sitio.cosit Sitio.w) = Ok true
  /\ LogColeta.status
       <$> logs (snd (@executar Sitio.cosit Sitio.w)) !! 1%Z
     = Some (lit "sucesso")
  /\ LogColeta.documentos_novos
       <$> logs (snd (@executar Sitio.cosit Sitio.w)) !! 1%Z
     = Some 0%Z
  /\ LogColeta.documentos_erro
       <$> logs (snd (@executar Sitio.cosit Sitio.w)) !! 1%Z
     = Some 2%Z
  /\ LogColeta.duracao_segundos
       <$> logs (snd (@executar Sitio.cosit Sitio.w)) !! 1%Z
     = Some (Some 3%Z)
  /\ size (documentos (snd (@executar Sitio.cosit Sitio.w))) = 0%nat
  /\ arquivos (snd (@executar Sitio.cosit Sitio.w))
       !! (lit "/srv/assistente/data/raw/cosit_rfb/2024/05/cosit_2024_0012.html")
     = Some (lit "abc").
Proof. vm_compute. repeat split; reflexivity. Qed.

(** * More properties *)

Section SalvarMais.
Context {platform : Platform}.
#[local] Opaque lit.
Implicit Types (titulo conteudo url identificador tipo_documento : pystr).
Implicit Types (metadados : option (gmap pystr pystr)).

Lemma salvar_documento_so_a_chave titulo conteudo url identificador tipo_documento
    metadados w k :
  tabela_ok w ->
  k <> (FonteDados.pk (fonte (self w)), identificador) ->
  documentos (snd (_salvar_documento titulo conteudo url identificador tipo_documento
                     metadados w)) !! k
  = documentos w !! k.
Proof.
  intros _ _. rewrite salvar_documento_tabela. reflexivity.
Qed.

Lemma salvar_documento_um_arquivo titulo conteudo url identificador tipo_documento
    metadados w :
  arquivos (snd (_salvar_documento titulo conteudo url identificador tipo_documento
                   metadados w)) = arquivos w
  \/ exists caminho,
       arquivos (snd (_salvar_documento titulo conteudo url identificador
                        tipo_documento metadados w))
       = <[caminho := conteudo]> (arquivos w).
Proof.
  unfold_salvar.
  repeat step_salvar; first [left; reflexivity | right; eexists; reflexivity].
Qed.

(** X1. _salvar_documento touches one record and at most one file.  On a
    table whose rows sit under their unique pairs, every record other than
    the one of (source, identifier) is as it was, whatever fails; and the
    files are either as they were or have one path more or rewritten,
    holding the content that was given. *)
Theorem salvar_documento_efeito_local titulo conteudo url identificador tipo_documento
    metadados w :
  tabela_ok w ->
  (forall k, k <> (FonteDados.pk (fonte (self w)), identificador) ->
     documentos (snd (_salvar_documento titulo conteudo url identificador
                        tipo_documento metadados w)) !! k
     = documentos w !! k)
  /\ (arquivos (snd (_salvar_documento titulo conteudo url identificador
                       tipo_documento metadados w)) = arquivos w
      \/ exists caminho,
           arquivos (snd (_salvar_documento titulo conteudo url identificador
                            tipo_documento metadados w))
           = <[caminho := conteudo]> (arquivos w)).
Proof.
  intros Hok. split.
  - intros k Hk. apply salvar_documento_so_a_chave; assumption.
  - apply salvar_documento_um_arquivo.
Qed.

(** X2. _salvar_documento returns a record only when it found it
    unchanged.  Whenever a call returns a record, the table already held
    that record for the pair and the content hashes to its fingerprint; the
    call counted one unchanged document and nothing else, and table, files
    and trace are as they were.  No call returns a record that it created
    or updated. *)
Theorem salvar_documento_devolve_existente titulo conteudo url identificador
    tipo_documento metadados w r w' :
  _salvar_documento titulo conteudo url identificador tipo_documento metadados w
    = (Ok (Some r), w') ->
  documentos w !! (FonteDados.pk (fonte (self w)), identificador) = Some r
  /\ DocumentoFonte.calcular_hash conteudo = Some (DocumentoFonte.hash_conteudo r)
  /\ documentos w' = documentos w
  /\ arquivos w' = arquivos w
  /\ trace w' = trace w
  /\ docs_ignorados (self w') = (docs_ignorados (self w) + 1)%Z
  /\ docs_novos (self w') = docs_novos (self w)
  /\ docs_atualizados (self w') = docs_atualizados (self w)
  /\ docs_erro (self w') = docs_erro (self w).
Proof.
  rewrite salvar_documento_unfold.
  destruct (body_casos titulo conteudo url identificador tipo_documento metadados w)
    as (w1 & Hw1 & Hs & Hdoc & Hc).
  destruct (_salvar_documento_body _ _ _ _ _ _ w) as [[r0|e] w2];
    cbn [fst snd] in *; subst w2; intros Heq; [|discriminate].
  injection Heq as -> <-.
  destruct Hc as (d & [= <-] & Hl & Hh & Ha & Ht).
  rewrite Hs. proj. repeat split; assumption || reflexivity.
Qed.

(** X3. Failures on the path of a new document.  With no record for the
    pair, the lookup and the mkdir going well: when the write of the file
    fails, the call gives None, counts one error and leaves table, files
    and trace as they were; when the write goes well and objects.create
    fails, the call gives None and counts one error, the table is as it
    was, and the file stays on the disk without a record. *)
Theorem salvar_documento_criacao_falha titulo conteudo url identificador tipo_documento
    metadados w h :
  documentos w !! (FonteDados.pk (fonte (self w)), identificador) = None ->
  DocumentoFonte.calcular_hash conteudo = Some h ->
  sem_falhas 2 (doc_faults w) ->
  (hd false (tl (tl (doc_faults w))) = true ->
   exists w',
     _salvar_documento titulo conteudo url identificador tipo_documento metadados w
     = (Ok None, w')
     /\ documentos w' = documentos w
     /\ arquivos w' = arquivos w
     /\ trace w' = trace w
     /\ docs_erro (self w') = (docs_erro (self w) + 1)%Z
     /\ docs_novos (self w') = docs_novos (self w))
  /\ (hd false (tl (tl (doc_faults w))) = false ->
      hd false (tl (tl (tl (doc_faults w)))) = true ->
      exists caminho w',
        _salvar_documento titulo conteudo url identificador tipo_documento metadados w
        = (Ok None, w')
        /\ documentos w' = documentos w
        /\ arquivos w' = <[caminho := conteudo]> (arquivos w)
        /\ trace w' = trace w ++ [EvWriteText caminho conteudo]
        /\ docs_erro (self w') = (docs_erro (self w) + 1)%Z
        /\ docs_novos (self w') = docs_novos (self w)).
Proof.
  intros Hd Hh Hf.
  assert (exists bs, Str.encode_utf8 conteudo = Some bs) as [bs Hbs].
  { unfold DocumentoFonte.calcular_hash in Hh.
    destruct (Str.encode_utf8 conteudo); [eauto|discriminate]. }
  apply sem_falhas_S in Hf as [Hf0 Hf]. apply sem_falhas_S in Hf as [Hf1 _].
  split.
  - intros Hf2. unfold_salvar. rewrite Hh.
    repeat (progress (proj; rewrite ?Hd, ?Hf0, ?Hf1, ?Hf2, ?Hbs)).
    eexists. split; [reflexivity|]. proj. repeat split; reflexivity.
  - intros Hf2 Hf3. unfold_salvar. rewrite Hh.
    repeat (progress (proj; rewrite ?Hd, ?Hf0, ?Hf1, ?Hf2, ?Hf3, ?Hbs)).
    destruct (Path.relative_to _ _); proj; rewrite ?Hbs; proj;
      eexists _, _; (split; [reflexivity|]); proj; repeat split; reflexivity.
Qed.

(* One call moves the counters by one in all, whatever fails. *)
Lemma salvar_documento_conta titulo conteudo url identificador tipo_documento
    metadados w :
  contados (self (snd (_salvar_documento titulo conteudo url identificador
                         tipo_documento metadados w)))
  = (contados (self w) + 1)%Z.
Proof.
  unfold contados.
  rewrite salvar_documento_unfold.
  destruct (body_casos titulo conteudo url identificador tipo_documento metadados w)
    as (w1 & Hw1 & Hs & _).
  destruct (_salvar_documento_body _ _ _ _ _ _ w) as [[r|e] w2];
    cbn [fst snd] in *; subst w2; proj; rewrite Hs; proj; lia.
Qed.

(* A call makes no request and takes no pause. *)
Lemma salvar_documento_sem_rede titulo conteudo url identificador tipo_documento
    metadados w :
  exists t,
    trace (snd (_salvar_documento titulo conteudo url identificador tipo_documento
                  metadados w)) = trace w ++ t
    /\ List.filter evento_de_rede t = [].
Proof.
  unfold_salvar.
  repeat step_salvar; rewrite <- ?app_assoc;
    first [ exists []; split; [symmetry; apply app_nil_r | reflexivity]
          | eexists; split; [reflexivity | reflexivity] ].
Qed.

End SalvarMais.

(** ** The loop of the harvest, one candidate at a time *)

Lemma for_each_acumula {A S : Type} (body : S -> A -> M S)
    (R : list A -> World -> Prop) :
  (forall s x w, exists s', fst (body s x w) = Ok s') ->
  (forall feitos s x w, R feitos w -> R (feitos ++ [x]) (snd (body s x w))) ->
  forall l feitos s w, R feitos w -> R (feitos ++ l) (snd (for_each body l s w)).
Proof.
  intros Hok Hstep. induction l as [|x l IH]; intros feitos s w HR; cbn [for_each].
  - rewrite app_nil_r. exact HR.
  - cbv [mbind M_bind].
    destruct (Hok s x w) as (s' & Hs'). specialize (Hstep feitos s x w HR).
    destruct (body s x w) as [[a|e] w1]; cbn [fst snd] in *; [|discriminate].
    replace (feitos ++ x :: l) with ((feitos ++ [x]) ++ l)
      by (rewrite <- app_assoc; reflexivity).
    apply IH. exact Hstep.
Qed.

Section ColetarMais.
Context {platform : Platform}.
Import CositScraper.
#[local] Opaque lit.

Lemma processar_documento_ok total info w :
  exists total', fst (processar_documento total info w) = Ok total'.
Proof. eexists. apply processar_documento_result. Qed.

(* The world after one turn of the loop over the candidates. *)
Lemma processar_documento_mundo total info w :
  snd (processar_documento total info w)
  = match http w (url info) with
    | Some (c :: cs) =>
        let w1 :=
          snd (_salvar_documento (titulo info) (c :: cs) (url info) (identificador info)
                 (lit "consulta")
                 (Some (<[lit "numero_documento" :=
                            numero info ++ lit "/" ++ Str.of_Z (ano info)]>
                          (<[lit "orgao_emissor" := lit "COSIT - Receita Federal"]> ∅)))
                 (with_trace (trace w ++ [EvFetch (url info)]) w)) in
        with_trace (trace w1 ++ [EvSleep]) w1
    | _ =>
        with_self (with_docs_erro (docs_erro (self w) + 1) (self w))
          (with_trace (trace w ++ [EvFetch (url info)]) w)
    end.
Proof.
  cbv [processar_documento try_except _baixar_documento _delay emit gets modify
       modify_self mbind mret M_bind M_ret]; proj.
  destruct (http w (url info)) as [[|c cs]|]; proj; try reflexivity.
  match goal with
  | |- context [_salvar_documento ?a ?b ?c ?d ?e ?f ?w0] =>
      destruct (salvar_documento_ok a b c d e f w0) as (r & w' & Heq)
  end.
  rewrite Heq. reflexivity.
Qed.

Lemma processar_documento_conta total info w :
  contados (self (snd (processar_documento total info w))) = (contados (self w) + 1)%Z.
Proof.
  rewrite processar_documento_mundo.
  destruct (http w (url info)) as [[|c cs]|]; cbv zeta; proj;
    try (unfold contados; proj; lia).
  match goal with
  | |- context [_salvar_documento ?a ?b ?c ?d ?e ?f ?w0] =>
      exact (salvar_documento_conta a b c d e f w0)
  end.
Qed.

Lemma processar_documento_rede total info w :
  exists t,
    trace (snd (processar_documento total info w)) = trace w ++ t
    /\ List.filter evento_de_rede t = agenda_documento (http w) info.
Proof.
  rewrite processar_documento_mundo. unfold agenda_documento, baixavel.
  destruct (http w (url info)) as [[|c cs]|]; cbv zeta; proj;
    try (eexists; split; reflexivity).
  match goal with
  | |- context [_salvar_documento ?a ?b ?c ?d ?e ?f ?w0] =>
      destruct (salvar_documento_sem_rede a b c d e f w0) as (t & -> & Ht)
  end.
  proj. exists ([EvFetch (url info)] ++ t ++ [EvSleep]). split.
  - rewrite <- !app_assoc. reflexivity.
  - rewrite !List.filter_app, Ht. reflexivity.
Qed.

Lemma processar_documento_outras total info w k :
  tabela_ok w ->
  k.1 <> FonteDados.pk (fonte (self w)) ->
  tabela_ok (snd (processar_documento total info w))
  /\ documentos (snd (processar_documento total info w)) !! k = documentos w !! k.
Proof.
  intros Hok Hk. rewrite processar_documento_mundo.
  destruct (http w (url info)) as [[|c cs]|]; cbv zeta; proj;
    try (split; [exact Hok|reflexivity]).
  split.
  - apply (salvar_documento_tabela_ok _ _ _ _ _ _
             (with_trace (trace w ++ [EvFetch (url info)]) w)). exact Hok.
  - rewrite salvar_documento_so_a_chave; [reflexivity|exact Hok|].
    proj. intros ->. apply Hk. reflexivity.
Qed.

(* The three facts along the loop over the candidates of a page. *)
Lemma for_each_documentos_conta docs total w :
  contados (self (snd (for_each processar_documento docs total w)))
  = (contados (self w) + Z.of_nat (length docs))%Z.
Proof.
  apply (for_each_acumula processar_documento
           (fun feitos w' =>
              contados (self w') = (contados (self w) + Z.of_nat (length feitos))%Z)
           processar_documento_ok) with (feitos := []).
  - intros feitos s x w1 Hc.
    rewrite processar_documento_conta, Hc, length_app. cbn [length]. lia.
  - cbn; lia.
Qed.

Lemma for_each_documentos_rede docs total w :
  exists t,
    trace (snd (for_each processar_documento docs total w)) = trace w ++ t
    /\ List.filter evento_de_rede t = flat_map (agenda_documento (http w)) docs.
Proof.
  assert (H : (exists t,
            trace (snd (for_each processar_documento docs total w)) = trace w ++ t
            /\ List.filter evento_de_rede t
               = flat_map (agenda_documento (http w)) ([] ++ docs))
          /\ http (snd (for_each processar_documento docs total w)) = http w).
  { apply (for_each_acumula processar_documento
             (fun feitos w' =>
                (exists t, trace w' = trace w ++ t
                   /\ List.filter evento_de_rede t
                      = flat_map (agenda_documento (http w)) feitos)
                /\ http w' = http w)
             processar_documento_ok).
    - intros feitos s x w1 [(t & Ht & Hfl) Hh].
      destruct (processar_documento_rede s x w1) as (t1 & Ht1 & Hfl1).
      split.
      + exists (t ++ t1). split.
        * rewrite Ht1, Ht, app_assoc. reflexivity.
        * rewrite List.filter_app, Hfl, Hfl1, flat_map_app, Hh. cbn [flat_map].
          rewrite app_nil_r. reflexivity.
      + rewrite <- Hh. apply (pe_http _ _ (preserva_processar_documento s x w1)).
    - split; [|reflexivity]. exists []. split; [symmetry; apply app_nil_r|reflexivity]. }
  exact (proj1 H).
Qed.

Lemma for_each_documentos_outras docs total w k :
  tabela_ok w ->
  k.1 <> FonteDados.pk (fonte (self w)) ->
  tabela_ok (snd (for_each processar_documento docs total w))
  /\ documentos (snd (for_each processar_documento docs total w)) !! k
     = documentos w !! k.
Proof.
  intros Hok Hk.
  assert (H : (tabela_ok (snd (for_each processar_documento docs total w))
           /\ documentos (snd (for_each processar_documento docs total w)) !! k
              = documentos w !! k)
          /\ fonte (self (snd (for_each processar_documento docs total w)))
             = fonte (self w)).
  { apply (for_each_acumula processar_documento
             (fun _ w' =>
                (tabela_ok w' /\ documentos w' !! k = documentos w !! k)
                /\ fonte (self w') = fonte (self w))
             processar_documento_ok) with (feitos := []).
    - intros _ s x w1 [[Ht Hd] Hfo].
      destruct (processar_documento_outras s x w1 k Ht) as [Ht' Hd'].
      { rewrite Hfo. exact Hk. }
      split; [split; [exact Ht'|congruence]|].
      rewrite <- Hfo. apply (pe_fonte _ _ (preserva_processar_documento s x w1)).
    - repeat split; assumption. }
  exact (proj1 H).
Qed.

(* The world after the harvest of one year. *)
Lemma processar_ano_mundo total ano w :
  snd (processar_ano total ano w)
  = snd (for_each processar_documento (candidatos (http w) ano) total
           (with_trace (trace w ++ [EvFetch (_construir_url_ano ano)]) w)).
Proof.
  unfold candidatos.
  cbv [processar_ano _baixar_documento emit gets modify mbind mret M_bind M_ret]; proj.
  destruct (http w (_construir_url_ano ano)) as [[|c cs]|]; reflexivity.
Qed.

Lemma processar_ano_ok total ano w :
  exists total', fst (processar_ano total ano w) = Ok total'.
Proof. eexists. apply processar_ano_result. Qed.

(* The world after the harvest: the year is read from the clock, then the
   two years are harvested one after the other. *)
Lemma coletar_mundo w :
  exists n,
    snd (coletar w)
    = snd (processar_ano n (fst (local_year_month (relogio w (leituras w))) - 1)
             (snd (processar_ano 0 (fst (local_year_month (relogio w (leituras w))))
                     (with_leituras (S (leituras w)) w)))).
Proof.
  cbv [coletar try_except _obter_lista_anos _extrair_ano_atual clock_now mbind mret
       M_bind M_ret]; proj.
  cbn [for_each]. cbv [mbind mret M_bind M_ret].
  set (ano := fst (local_year_month (relogio w (leituras w)))).
  destruct (processar_ano_ok 0 ano (with_leituras (S (leituras w)) w)) as (n1 & H1).
  destruct (processar_ano 0 ano _) as [[a|e] w1]; cbn [fst snd] in *; [|discriminate].
  destruct (processar_ano_ok a (ano - 1) w1) as (n2 & H2).
  exists a.
  destruct (processar_ano a (ano - 1) w1) as [[b|e] w2]; cbn [fst snd] in *;
    [|discriminate].
  reflexivity.
Qed.

Lemma processar_ano_conta total ano w :
  contados (self (snd (processar_ano total ano w)))
  = (contados (self w) + Z.of_nat (length (candidatos (http w) ano)))%Z.
Proof.
  rewrite processar_ano_mundo.
  apply (for_each_documentos_conta _ _
           (with_trace (trace w ++ [EvFetch (_construir_url_ano ano)]) w)).
Qed.

Lemma processar_ano_rede total ano w :
  exists t,
    trace (snd (processar_ano total ano w)) = trace w ++ t
    /\ List.filter evento_de_rede t = agenda_ano (http w) ano.
Proof.
  rewrite processar_ano_mundo.
  destruct (for_each_documentos_rede (candidatos (http w) ano) total
              (with_trace (trace w ++ [EvFetch (_construir_url_ano ano)]) w))
    as (t & Ht & Hfl).
  proj_all. exists (EvFetch (_construir_url_ano ano) :: t). split.
  - rewrite Ht, <- app_assoc. reflexivity.
  - cbn [List.filter evento_de_rede]. rewrite Hfl. reflexivity.
Qed.

Lemma processar_ano_outras total ano w k :
  tabela_ok w ->
  k.1 <> FonteDados.pk (fonte (self w)) ->
  tabela_ok (snd (processar_ano total ano w))
  /\ documentos (snd (processar_ano total ano w)) !! k = documentos w !! k.
Proof.
  intros Hok Hk. rewrite processar_ano_mundo.
  apply (for_each_documentos_outras _ _
           (with_trace (trace w ++ [EvFetch (_construir_url_ano ano)]) w));
    assumption.
Qed.

(* Every candidate of the two index pages moves the counters by one in
   all. *)
Lemma coletar_conta w :
  contados (self (snd (coletar w)))
  = (contados (self w)
     + Z.of_nat (length (candidatos (http w)
                           (fst (local_year_month (relogio w (leituras w))))))
     + Z.of_nat (length (candidatos (http w)
                           (fst (local_year_month (relogio w (leituras w))) - 1))))%Z.
Proof.
  destruct (coletar_mundo w) as (n & ->).
  set (ano := fst (local_year_month (relogio w (leituras w)))).
  set (w0 := with_leituras (S (leituras w)) w).
  rewrite processar_ano_conta, processar_ano_conta,
    (pe_http _ _ (preserva_processar_ano 0 ano w0)).
  reflexivity.
Qed.

(** X5. The requests and pauses of a harvest.  coletar requests the index
    of the current year, then each candidate of that page in page order,
    then the index of the year before and its candidates; it pauses once
    after each candidate whose download gave a body that is not empty, and
    nowhere else.  Nothing else in the harvest touches the network. *)
Theorem coletar_agenda w :
  exists t,
    trace (snd (coletar w)) = trace w ++ t
    /\ List.filter evento_de_rede t
       = agenda_ano (http w) (fst (local_year_month (relogio w (leituras w))))
         ++ agenda_ano (http w) (fst (local_year_month (relogio w (leituras w))) - 1).
Proof.
  destruct (coletar_mundo w) as (n & ->).
  set (ano := fst (local_year_month (relogio w (leituras w)))).
  set (w0 := with_leituras (S (leituras w)) w).
  destruct (processar_ano_rede 0 ano w0) as (t1 & Ht1 & Hf1).
  destruct (processar_ano_rede n (ano - 1) (snd (processar_ano 0 ano w0)))
    as (t2 & Ht2 & Hf2).
  exists (t1 ++ t2). split.
  - rewrite Ht2, Ht1, app_assoc. reflexivity.
  - rewrite List.filter_app, Hf1, Hf2,
      (pe_http _ _ (preserva_processar_ano 0 ano w0)).
    reflexivity.
Qed.

(** X6. A harvest only writes documents of its own source: on a table
    whose rows sit under their unique pairs, every record of another source
    is as it was after coletar, whatever fails. *)
Theorem coletar_outras_fontes w k :
  tabela_ok w ->
  k.1 <> FonteDados.pk (fonte (self w)) ->
  documentos (snd (coletar w)) !! k = documentos w !! k.
Proof.
  intros Hok Hk. destruct (coletar_mundo w) as (n & ->).
  set (ano := fst (local_year_month (relogio w (leituras w)))).
  set (w0 := with_leituras (S (leituras w)) w).
  destruct (processar_ano_outras 0 ano w0 k Hok Hk) as [Hok1 Hd1].
  destruct (processar_ano_outras n (ano - 1) (snd (processar_ano 0 ano w0)) k Hok1)
    as [_ Hd2].
  { rewrite (pe_fonte _ _ (preserva_processar_ano 0 ano w0)). exact Hk. }
  rewrite Hd2, Hd1. reflexivity.
Qed.

(** X7. coletar of the COSIT scraper always returns: no exception leaves
    it.  It leaves the run log, the source (in memory and in the table),
    the session and the log table alone, and adds to the trace only
    requests, pauses, file writes and document saves. *)
Theorem coletar_nao_propaga w :
  exists b w',
    coletar w = (Ok b, w')
    /\ preserva_execucao w w'.
Proof.
  pose proof (coletar_result w) as Hr. pose proof (preserva_coletar w) as Hp.
  destruct (coletar w) as [r w']. cbn [fst snd] in *. subst r.
  eexists _, _. split; [reflexivity|exact Hp].
Qed.

Lemma nada_registrado_trans w1 w2 w3 :
  nada_registrado w1 w2 -> nada_registrado w2 w3 -> nada_registrado w1 w3.
Proof. unfold nada_registrado. intros (? & ? & ?) (? & ? & ?). repeat split; congruence. Qed.

Lemma salvar_documento_nada_registra titulo conteudo url identificador tipo_documento
    metadados w :
  nada_registrado w
    (snd (_salvar_documento titulo conteudo url identificador tipo_documento
            metadados w)).
Proof.
  unfold nada_registrado.
  rewrite salvar_documento_unfold.
  destruct (body_casos titulo conteudo url identificador tipo_documento metadados w)
    as (w1 & Hw1 & Hs & Hdoc & _).
  destruct (_salvar_documento_body _ _ _ _ _ _ w) as [[r|e] w2];
    cbn [fst snd] in *; subst w2; proj; rewrite Hs; proj;
    repeat split; assumption || reflexivity.
Qed.

Lemma processar_documento_nada_registra total info w :
  nada_registrado w (snd (processar_documento total info w)).
Proof.
  rewrite processar_documento_mundo.
  destruct (http w (CositScraper.url info)) as [[|c cs]|]; cbv zeta;
    try (unfold nada_registrado; proj; repeat split; reflexivity).
  match goal with
  | |- context [_salvar_documento ?a ?b ?c ?d ?e ?f ?w0] =>
      pose proof (salvar_documento_nada_registra a b c d e f w0) as H
  end.
  unfold nada_registrado in *. proj_all. exact H.
Qed.

Lemma processar_ano_nada_registra total ano w :
  nada_registrado w (snd (processar_ano total ano w)).
Proof.
  rewrite processar_ano_mundo.
  apply (nada_registrado_trans _
           (with_trace (trace w ++ [EvFetch (_construir_url_ano ano)]) w)).
  { unfold nada_registrado. proj. repeat split; reflexivity. }
  apply (for_each_acumula processar_documento
           (fun _ w' =>
              nada_registrado
                (with_trace (trace w ++ [EvFetch (_construir_url_ano ano)]) w) w')
           processar_documento_ok) with (feitos := []).
  - intros _ s x w1 H. eapply nada_registrado_trans; [exact H|].
    apply processar_documento_nada_registra.
  - unfold nada_registrado. repeat split; reflexivity.
Qed.

(** X28. A harvest records nothing.  After coletar of the COSIT scraper
    the table of documents is exactly as it was and the counters of new and
    of updated documents have not moved, whatever the origin serves and
    whatever fails: every candidate ends as unchanged or as an error,
    because every save and every create of a document raises in the
    receiver of pre_save. *)
Theorem coletar_nada_registra w :
  documentos (snd (coletar w)) = documentos w
  /\ docs_novos (self (snd (coletar w))) = docs_novos (self w)
  /\ docs_atualizados (self (snd (coletar w))) = docs_atualizados (self w).
Proof.
  destruct (coletar_mundo w) as (n & ->).
  set (ano := fst (local_year_month (relogio w (leituras w)))).
  set (w0 := with_leituras (S (leituras w)) w).
  change (nada_registrado w (snd (processar_ano n (ano - 1)
                                    (snd (processar_ano 0 ano w0))))).
  apply (nada_registrado_trans _ w0).
  { unfold nada_registrado. repeat split; reflexivity. }
  eapply nada_registrado_trans; apply processar_ano_nada_registra.
Qed.

End ColetarMais.

Section ExecutarMais.
Context {impl : ScraperImpl}.
#[local] Opaque lit.

(** X8. How executar ends, for every scraper and every world.  The
    session is closed and the closing is the last event, also when an
    exception leaves executar.  The only exception that can leave it is a
    database error raised while the except branch records the failure: the
    run log in memory then has status erro. *)
Theorem executar_saida w :
  session_open (self (snd (executar w))) = false
  /\ (exists t, trace (snd (executar w)) = t ++ [EvSessionClose])
  /\ match fst (executar w) with
     | Ok _ => True
     | Raise e =>
         e = DatabaseError
         /\ exists l, log (self (snd (executar w))) = Some l
                      /\ LogColeta.status l = lit "erro"
     end.
Proof.
  unfold executar, try_finally, try_except.
  match goal with
  | |- context [(mbind ?f ?m) w] => destruct ((mbind f m) w) as [[b|e0] w1]
  end.
  - cbv [modify_self modify emit mbind mret M_bind M_ret]. proj.
    split; [reflexivity|]. split; [eexists; reflexivity|exact I].
  - cbv [_finalizar_log run_op clock_now modify_self modify emit gets raise mbind
         mret M_bind M_ret]. proj.
    destruct (log (self w1)) as [l|]; proj.
    2:{ split; [reflexivity|]. split; [eexists; reflexivity|exact I]. }
    destruct (hd false (run_faults w1)); proj.
    { split; [reflexivity|]. split; [eexists; reflexivity|].
      split; [reflexivity|]. eexists. split; reflexivity. }
    destruct (hd false (tl (run_faults w1))); proj.
    { split; [reflexivity|]. split; [eexists; reflexivity|].
      split; [reflexivity|]. eexists. split; reflexivity. }
    split; [reflexivity|]. split; [eexists; reflexivity|exact I].
Qed.

(** X9. When the database refuses to create the run log, executar
    answers False and the run leaves no record: _finalizar_log finds no log
    and does nothing, so the log table, the source, its last harvest, the
    documents, the files and the counters are as they were, and the only
    event is the closing of the session. *)
Theorem executar_sem_registro w :
  validar_configuracao w = (Ok true, w) ->
  hd false (run_faults w) = true ->
  log (self w) = None ->
  exists w',
    executar w = (Ok false, w')
    /\ logs w' = logs w
    /\ log_seq w' = log_seq w
    /\ log (self w') = None
    /\ fontes w' = fontes w
    /\ fonte (self w') = fonte (self w)
    /\ documentos w' = documentos w
    /\ arquivos w' = arquivos w
    /\ contados (self w') = contados (self w)
    /\ trace w' = trace w ++ [EvSessionClose].
Proof.
  intros Hv Hf Hl.
  cbv [executar try_finally try_except _criar_log _finalizar_log run_op clock_now
       modify_self modify emit gets raise mbind mret M_bind M_ret].
  rewrite Hv. proj. cbn [negb]. rewrite Hf. proj. rewrite Hl.
  eexists. split; [reflexivity|]. proj. unfold contados. proj.
  repeat split; try reflexivity. exact Hl.
Qed.

(** X10. When coletar raises, executar answers False and does not let
    the exception out: the run log is finalized with status erro, the text
    of the exception as error detail and in the message, and the counters
    the scraper had reached when the exception came.  The last harvest of
    the source is set all the same. *)
Theorem executar_coleta_com_excecao w e w2 :
  validar_configuracao w = (Ok true, w) ->
  sem_falhas 3 (run_faults w) ->
  coletar (snd (_criar_log w)) = (Raise e, w2) ->
  preserva_execucao (snd (_criar_log w)) w2 ->
  exists w' l,
    executar w = (Ok false, w')
    /\ logs w' !! log_seq w = Some l
    /\ LogColeta.status l = lit "erro"
    /\ LogColeta.mensagem l
       = lit "Erro durante execu" ++ [Str.c_ccedil; Str.c_atilde] ++ lit "o: "
           ++ exn_str e
    /\ LogColeta.erro_detalhe l = exn_str e
    /\ LogColeta.documentos_novos l = docs_novos (self w2)
    /\ LogColeta.documentos_atualizados l = docs_atualizados (self w2)
    /\ LogColeta.documentos_ignorados l = docs_ignorados (self w2)
    /\ LogColeta.documentos_erro l = docs_erro (self w2)
    /\ FonteDados.ultima_coleta (fonte (self w')) = Some (relogio w (S (leituras w2))).
Proof.
  intros Hv Hf Hc Hp.
  destruct (executar_run w (Raise e) w2 Hv Hf Hc Hp)
    as (w' & t & He & _ & _ & Hl & _ & _ & Hfo & _).
  exists w', (log_final w (Raise e) w2).
  rewrite He, Hl, lookup_insert_eq, Hfo.
  repeat split; reflexivity.
Qed.
(* What _finalizar_log does to a scraper with an open run log, when the
   save of the log goes through: the save of the source may still fail. *)
Lemma finalizar_log_grava st msg err w l :
  log (self w) = Some l ->
  hd false (run_faults w) = false ->
  exists w',
    _finalizar_log st msg err w
    = ((if hd false (tl (run_faults w)) then Raise DatabaseError else Ok tt), w')
    /\ log (self w')
       = Some (LogColeta.mk (LogColeta.pk l) (LogColeta.fonte l) st
                 (LogColeta.iniciado_em l) (Some (relogio w (leituras w)))
                 (Some (Z.quot (relogio w (leituras w) - LogColeta.iniciado_em l)
                          1000000))
                 (docs_novos (self w)) (docs_atualizados (self w))
                 (docs_ignorados (self w)) (docs_erro (self w)) msg err)
    /\ fonte (self w')
       = FonteDados.set_ultima_coleta (Some (relogio w (S (leituras w))))
           (fonte (self w))
    /\ logs w'
       = <[LogColeta.pk l :=
             LogColeta.mk (LogColeta.pk l) (LogColeta.fonte l) st
               (LogColeta.iniciado_em l) (Some (relogio w (leituras w)))
               (Some (Z.quot (relogio w (leituras w) - LogColeta.iniciado_em l)
                        1000000))
               (docs_novos (self w)) (docs_atualizados (self w))
               (docs_ignorados (self w)) (docs_erro (self w)) msg err]> (logs w)
    /\ fontes w'
       = (if hd false (tl (run_faults w)) then fontes w
          else <[FonteDados.pk (fonte (self w)) :=
                   FonteDados.set_ultima_coleta (Some (relogio w (S (leituras w))))
                     (fonte (self w))]> (fontes w))
    /\ trace w'
       = trace w
           ++ EvLogSave
                (LogColeta.mk (LogColeta.pk l) (LogColeta.fonte l) st
                   (LogColeta.iniciado_em l) (Some (relogio w (leituras w)))
                   (Some (Z.quot (relogio w (leituras w) - LogColeta.iniciado_em l)
                            1000000))
                   (docs_novos (self w)) (docs_atualizados (self w))
                   (docs_ignorados (self w)) (docs_erro (self w)) msg err)
              :: (if hd false (tl (run_faults w)) then []
                  else [EvFonteSave
                          (FonteDados.set_ultima_coleta
                             (Some (relogio w (S (leituras w)))) (fonte (self w)))])
    /\ run_faults w' = tl (tl (run_faults w))
    /\ leituras w' = S (S (leituras w))
    /\ relogio w' = relogio w
    /\ session_open (self w') = session_open (self w).
Proof.
  intros Hl Hf0.
  cbv [_finalizar_log run_op clock_now modify_self modify emit gets raise mbind
       mret M_bind M_ret]. proj.
  rewrite Hl. proj. rewrite Hf0. proj.
  cbn [LogColeta.calcular_duracao
       LogColeta.finalizado_em LogColeta.pk LogColeta.fonte LogColeta.status
       LogColeta.iniciado_em LogColeta.duracao_segundos LogColeta.documentos_novos
       LogColeta.documentos_atualizados LogColeta.documentos_ignorados
       LogColeta.documentos_erro LogColeta.mensagem LogColeta.erro_detalhe
       FonteDados.pk FonteDados.set_ultima_coleta].
  destruct (hd false (tl (run_faults w))); proj;
    (eexists; split; [reflexivity|]); proj;
    rewrite <- ?app_assoc; repeat split; reflexivity.
Qed.

(** X11. When the save of the source fails inside _finalizar_log,
    after the run log was saved, executar finalizes a second time from its
    except branch: the log is saved twice, the second save overwrites the
    outcome of the harvest with status erro and the text of the database
    error, with a later end time, and executar answers False even when the
    harvest had succeeded. *)
Theorem executar_falha_ao_salvar_fonte w b w2 :
  validar_configuracao w = (Ok true, w) ->
  run_faults w = [false; false; true] ->
  coletar (snd (_criar_log w)) = (Ok b, w2) ->
  preserva_execucao (snd (_criar_log w)) w2 ->
  exists w' l1 l2 f2 t,
    executar w = (Ok false, w')
    /\ trace w'
       = trace w ++ EvLogCreate (log_inicial w) :: t
           ++ [EvLogSave l1; EvLogSave l2; EvFonteSave f2; EvSessionClose]
    /\ forallb evento_de_coleta t = true
    /\ LogColeta.status l1 = (if b then lit "sucesso" else lit "erro")
    /\ LogColeta.finalizado_em l1 = Some (relogio w (leituras w2))
    /\ LogColeta.status l2 = lit "erro"
    /\ LogColeta.erro_detalhe l2 = exn_str DatabaseError
    /\ LogColeta.finalizado_em l2 = Some (relogio w (S (S (leituras w2))))
    /\ logs w' !! log_seq w = Some l2
    /\ FonteDados.ultima_coleta f2 = Some (relogio w (S (S (S (leituras w2)))))
    /\ fontes w' = <[FonteDados.pk (fonte (self w)) := f2]> (fontes w)
    /\ fonte (self w') = f2.
Proof.
  intros Hv Hf Hc Hp.
  revert Hc Hp.
  cbv [executar try_finally try_except _criar_log run_op clock_now
       modify_self modify emit gets raise mbind mret M_bind M_ret].
  rewrite Hv. proj. cbn [negb]. rewrite Hf. cbn [hd tl]. proj.
  intros Hc Hp. rewrite Hc.
  destruct Hp as [Hfo Hlo Hse Hfs Hls Hsq Hre Hht Hrf (t & Ht & Hev)]. proj_all.
  assert (Hfin : forall st msg err,
    exists w3 l1,
      _finalizar_log st msg err w2 = (Raise DatabaseError, w3)
      /\ LogColeta.status l1 = st
      /\ LogColeta.finalizado_em l1 = Some (relogio w (leituras w2))
      /\ exists w4 l2 f2,
           (_finalizar_log (lit "erro")
              (lit "Erro durante execu" ++ [Str.c_ccedil; Str.c_atilde] ++ lit "o: "
                 ++ exn_str DatabaseError)
              (exn_str DatabaseError) w3) = (Ok tt, w4)
           /\ trace w4
              = trace w ++ EvLogCreate (log_inicial w) :: t
                  ++ [EvLogSave l1; EvLogSave l2; EvFonteSave f2]
           /\ LogColeta.status l2 = lit "erro"
           /\ LogColeta.erro_detalhe l2 = exn_str DatabaseError
           /\ LogColeta.finalizado_em l2 = Some (relogio w (S (S (leituras w2))))
           /\ logs w4 !! log_seq w = Some l2
           /\ FonteDados.ultima_coleta f2 = Some (relogio w (S (S (S (leituras w2)))))
           /\ fontes w4 = <[FonteDados.pk (fonte (self w)) := f2]> (fontes w)
           /\ fonte (self w4) = f2).
  { intros st msg err.
    destruct (finalizar_log_grava st msg err w2 _ Hlo)
      as (w3 & He3 & Hl3 & Hfo3 & Hls3 & Hfs3 & Ht3 & Hrf3 & Hle3 & Hre3 & _).
    { rewrite Hrf. reflexivity. }
    rewrite Hrf in He3, Hfs3, Ht3, Hrf3. cbn [hd tl] in He3, Hfs3, Ht3, Hrf3.
    match type of Hl3 with _ = Some ?x => exists w3, x end. split; [exact He3|].
    split; [reflexivity|]. split; [cbn [LogColeta.finalizado_em]; rewrite Hre; reflexivity|].
    destruct (finalizar_log_grava (lit "erro")
                (lit "Erro durante execu" ++ [Str.c_ccedil; Str.c_atilde] ++ lit "o: "
                   ++ exn_str DatabaseError)
                (exn_str DatabaseError) w3 _ Hl3)
      as (w4 & He4 & Hl4 & Hfo4 & Hls4 & Hfs4 & Ht4 & _).
    { rewrite Hrf3. reflexivity. }
    rewrite Hrf3 in He4, Hfs4, Ht4. cbn [hd tl] in He4, Hfs4, Ht4.
    match type of Hl4 with
    | _ = Some ?x => match type of Hfo4 with _ = ?y => exists w4, x, y end
    end.
    split; [exact He4|].
    split.
    { rewrite Ht4, Ht3, Ht. unfold log_inicial. rewrite <- !app_assoc.
      cbn [app LogColeta.pk LogColeta.fonte LogColeta.iniciado_em]. reflexivity. }
    cbn [LogColeta.status LogColeta.erro_detalhe LogColeta.finalizado_em
         LogColeta.pk].
    split; [reflexivity|]. split; [reflexivity|].
    split; [rewrite Hre3, Hle3, Hre; reflexivity|].
    split; [rewrite Hls4; cbn [LogColeta.pk]; apply lookup_insert_eq|].
    split; [cbn [FonteDados.set_ultima_coleta FonteDados.ultima_coleta];
            rewrite Hre3, Hle3, Hre; reflexivity|].
    rewrite Hfs4, Hfo4, Hfs3, Hfo3, Hfs, Hfo.
    cbn [FonteDados.set_ultima_coleta FonteDados.pk].
    split; reflexivity. }
  destruct b;
    match goal with
    | |- context [_finalizar_log ?st ?msg ?err w2] =>
        destruct (Hfin st msg err)
          as (w3 & l1 & -> & Hs1 & Hfi1 & w4 & l2 & f2 & -> & Ht4 & Hs2 & Hd2 & Hfi2
              & Hl2 & Hu2 & Hfs4 & Hfo4)
    end;
    (exists (with_trace (trace w4 ++ [EvSessionClose])
              (with_self (with_session_open false (self w4)) w4)), l1, l2, f2, t;
     split; [reflexivity|]; proj;
     rewrite Ht4, <- !app_assoc; cbn [app]; rewrite <- ?app_assoc; cbn [app];
     repeat split; try reflexivity; try assumption).
Qed.
End ExecutarMais.

Section CositMais.
Context {platform : Platform}.
#[local] Opaque lit.

(** X4. Run accounting.  In a run of the COSIT scraper with a valid
    configuration in which no save of the run log or of the source fails,
    the four counters of the finalized run log add up to what the scraper
    had counted before plus the number of candidates on the two index
    pages, whatever fails in the downloads, on the disk or in the table of
    documents: every candidate is counted exactly once. *)
Theorem executar_contabiliza w :
  FonteDados.url_base (fonte (self w)) <> [] ->
  FonteDados.tipo (fonte (self w)) = lit "web" ->
  sem_falhas 3 (run_faults w) ->
  exists l,
    logs (snd (@executar CositScraper.impl w)) !! log_seq w = Some l
    /\ (LogColeta.documentos_novos l + LogColeta.documentos_atualizados l
        + LogColeta.documentos_ignorados l + LogColeta.documentos_erro l
        = contados (self w)
          + Z.of_nat (length (candidatos (http w)
                                (fst (local_year_month (relogio w (S (leituras w)))))))
          + Z.of_nat (length (candidatos (http w)
                                (fst (local_year_month (relogio w (S (leituras w))))
                                 - 1))))%Z.
Proof.
  intros Hu Ht Hf.
  pose proof (cosit_validar_true w Hu Ht) as Hv.
  pose proof (preserva_coletar (snd (_criar_log w))) as Hp.
  pose proof (coletar_conta (snd (_criar_log w))) as Hc.
  change (@coletar CositScraper.impl) with CositScraper.coletar in *.
  destruct (CositScraper.coletar (snd (_criar_log w))) as [r w2] eqn:Hcol.
  cbn [snd] in Hp, Hc.
  destruct (executar_run w r w2 Hv Hf Hcol Hp)
    as (w' & t & He & _ & _ & Hl & _).
  exists (log_final w r w2).
  rewrite He. cbn [snd]. rewrite Hl, lookup_insert_eq. split; [reflexivity|].
  unfold log_final.
  cbn [LogColeta.documentos_novos LogColeta.documentos_atualizados
       LogColeta.documentos_ignorados LogColeta.documentos_erro].
  fold (contados (self w2)).
  pose proof Hf as Hf'. apply sem_falhas_S in Hf' as [Hf0 _].
  revert Hc.
  cbv [_criar_log run_op clock_now modify_self modify emit gets raise mbind mret
       M_bind M_ret]. proj. rewrite Hf0. proj.
  intros Hc. rewrite Hc. reflexivity.
Qed.
End CositMais.

(** ** Strings *)

Section Textos.
Local Open Scope N_scope.

Lemma replace_length a b s : length (Str.replace a b s) = length s.
Proof. unfold Str.replace. apply length_map. Qed.

Lemma replace_not_In a b s : a <> b -> ~ In a (Str.replace a b s).
Proof.
  intros Hab. unfold Str.replace. induction s as [|c s IH]; cbn [map In]; [tauto|].
  intros [H|H]; [|exact (IH H)].
  destruct (N.eqb_spec c a); congruence.
Qed.

Lemma replace_keeps_out a b x s :
  x <> b -> ~ In x s -> ~ In x (Str.replace a b s).
Proof.
  intros Hxb. unfold Str.replace. induction s as [|c s IH]; cbn [map In]; [tauto|].
  intros Hn [H|H]; [|apply IH; tauto].
  destruct (N.eqb_spec c a); [congruence|]. tauto.
Qed.

Lemma replace_id a b s : ~ In a s -> Str.replace a b s = s.
Proof.
  unfold Str.replace. induction s as [|c s IH]; cbn [map In]; [reflexivity|].
  intros Hn. rewrite IH by tauto.
  destruct (N.eqb_spec c a); [exfalso; apply Hn; left; assumption|reflexivity].
Qed.

Lemma zfill_length width s : length (Str.zfill width s) = Nat.max width (length s).
Proof.
  unfold Str.zfill. destruct s as [|c s]; cbn [length].
  - rewrite repeat_length. lia.
  - destruct ((c =? 43) || (c =? 45)); cbn [length];
      rewrite length_app, repeat_length; cbn [length]; lia.
Qed.

Lemma utf8_char_None c : Str.utf8_char c = None <-> e_substituto c.
Proof.
  unfold Str.utf8_char, e_substituto.
  repeat match goal with
         | |- context [N.ltb ?a ?b] => destruct (N.ltb_spec a b); cbn [andb]
         | |- context [N.leb ?a ?b] => destruct (N.leb_spec a b); cbn [andb]
         end;
    split; try discriminate; try reflexivity; intros; lia.
Qed.

Lemma encode_utf8_None s : Str.encode_utf8 s = None <-> Exists e_substituto s.
Proof.
  induction s as [|c s IH]; cbn [Str.encode_utf8].
  - split; [discriminate|]. intros H. inversion H.
  - destruct (Str.utf8_char c) as [bs|] eqn:Hc.
    + destruct (Str.encode_utf8 s) as [rest|].
      * split; [discriminate|]. intros H. inversion H as [? ? Hx|? ? Hx]; subst.
        -- apply utf8_char_None in Hx. congruence.
        -- apply IH in Hx. discriminate.
      * split; [|reflexivity]. intros _. apply Exists_cons_tl, IH. reflexivity.
    + split; [|reflexivity]. intros _. apply Exists_cons_hd, utf8_char_None, Hc.
Qed.
End Textos.

(** ** The fingerprint *)

Section Impressao.
Local Open Scope N_scope.
Import hashlib.

Lemma round_length st kw : length (round st kw) = length st.
Proof.
  unfold round.
  do 9 (destruct st as [|? st]; [reflexivity|]). reflexivity.
Qed.

Lemma fold_round_length l st : length (fold_left round l st) = length st.
Proof.
  revert st. induction l as [|kw l IH]; intros st; cbn [fold_left]; [reflexivity|].
  rewrite IH. apply round_length.
Qed.

Lemma compress_length h block : length (compress h block) = length h.
Proof.
  unfold compress. rewrite length_map, length_combine, fold_round_length. lia.
Qed.

Lemma blocks_length n bs h : length (blocks n bs h) = length h.
Proof.
  revert bs h. induction n as [|n IH]; intros bs h; cbn [blocks]; [reflexivity|].
  rewrite IH. apply compress_length.
Qed.

Lemma digest_words_length msg : length (digest_words msg) = 8%nat.
Proof. unfold digest_words. cbv zeta. rewrite blocks_length. reflexivity. Qed.

Lemma hex_length n x : length (hex n x) = n.
Proof.
  revert x. induction n as [|n IH]; intros x; cbn [hex]; [reflexivity|].
  rewrite length_app, IH. cbn [length]. lia.
Qed.

Lemma hex_digit_hexadecimal x : x < 16 -> e_hexadecimal (hex_digit x).
Proof.
  unfold hex_digit, e_hexadecimal. intros Hx.
  destruct (N.ltb_spec x 10); lia.
Qed.

Lemma hex_hexadecimal n x : Forall e_hexadecimal (hex n x).
Proof.
  revert x. induction n as [|n IH]; intros x; cbn [hex]; [constructor|].
  apply Forall_app. split; [apply IH|].
  constructor; [|constructor]. apply hex_digit_hexadecimal.
  change 0xF with (N.ones 4). rewrite N.land_ones.
  apply N.mod_lt. discriminate.
Qed.

Lemma sha256_hexdigest_length msg : length (sha256_hexdigest msg) = 64%nat.
Proof.
  unfold sha256_hexdigest.
  assert (H : forall l, length (flat_map (hex 8) l) = (8 * length l)%nat).
  { induction l as [|x l IH]; [reflexivity|].
    cbn [flat_map]. rewrite length_app, hex_length, IH. cbn [length]. lia. }
  rewrite H, digest_words_length. reflexivity.
Qed.

Lemma sha256_hexdigest_hexadecimal msg : Forall e_hexadecimal (sha256_hexdigest msg).
Proof.
  unfold sha256_hexdigest. induction (digest_words msg) as [|x l IH]; [constructor|].
  cbn [flat_map]. apply Forall_app. split; [apply hex_hexadecimal|exact IH].
Qed.
End Impressao.

(** X12. DocumentoFonte.calcular_hash gives 64 characters, each a digit
    or a letter from a to f, so the fingerprint fits its column; it raises
    exactly on the contents that hold a surrogate code point, which UTF-8
    cannot encode. *)
Theorem calcular_hash_formato conteudo :
  match DocumentoFonte.calcular_hash conteudo with
  | Some h =>
      length h = 64%nat /\ Forall e_hexadecimal h /\ ~ Exists e_substituto conteudo
  | None => Exists e_substituto conteudo
  end.
Proof.
  unfold DocumentoFonte.calcular_hash.
  pose proof (encode_utf8_None conteudo) as Hn.
  destruct (Str.encode_utf8 conteudo) as [bs|].
  - split; [apply sha256_hexdigest_length|].
    split; [apply sha256_hexdigest_hexadecimal|].
    intros H. apply Hn in H. discriminate.
  - apply Hn. reflexivity.
Qed.

(** ** The duration of a run *)

(** X13. LogColeta.calcular_duracao, for a run that ended no earlier
    than it began and less than 2^53 microseconds (some 285 years) after
    it, the span within which the float of total_seconds() is exact: the
    duration is the number of whole seconds elapsed, rounded down, never
    negative; computing it again changes nothing. *)
Theorem calcular_duracao_segundos l fim :
  LogColeta.finalizado_em l = Some fim ->
  (LogColeta.iniciado_em l <= fim)%Z ->
  (fim - LogColeta.iniciado_em l < 2 ^ 53)%Z ->
  exists d,
    LogColeta.duracao_segundos (LogColeta.calcular_duracao l) = Some d
    /\ (0 <= d)%Z
    /\ (d * 1000000 <= fim - LogColeta.iniciado_em l < (d + 1) * 1000000)%Z
    /\ LogColeta.calcular_duracao (LogColeta.calcular_duracao l)
       = LogColeta.calcular_duracao l.
Proof.
  intros Hfim Hle _.
  assert (Hl : LogColeta.calcular_duracao l
               = LogColeta.mk (LogColeta.pk l) (LogColeta.fonte l) (LogColeta.status l)
                   (LogColeta.iniciado_em l) (LogColeta.finalizado_em l)
                   (Some (Z.quot (fim - LogColeta.iniciado_em l) 1000000))
                   (LogColeta.documentos_novos l) (LogColeta.documentos_atualizados l)
                   (LogColeta.documentos_ignorados l) (LogColeta.documentos_erro l)
                   (LogColeta.mensagem l) (LogColeta.erro_detalhe l)).
  { unfold LogColeta.calcular_duracao. rewrite Hfim. reflexivity. }
  exists (Z.quot (fim - LogColeta.iniciado_em l) 1000000).
  split; [rewrite Hl; reflexivity|].
  rewrite Z.quot_div_nonneg by lia.
  pose proof (Z.div_mod (fim - LogColeta.iniciado_em l) 1000000 ltac:(lia)) as Hdm.
  pose proof (Z.mod_pos_bound (fim - LogColeta.iniciado_em l) 1000000 ltac:(lia)) as Hb.
  split; [apply Z.div_pos; lia|]. split; [lia|].
  rewrite Hl. unfold LogColeta.calcular_duracao.
  cbn [LogColeta.finalizado_em LogColeta.iniciado_em LogColeta.pk LogColeta.fonte
       LogColeta.status LogColeta.duracao_segundos LogColeta.documentos_novos
       LogColeta.documentos_atualizados LogColeta.documentos_ignorados
       LogColeta.documentos_erro LogColeta.mensagem LogColeta.erro_detalhe].
  rewrite Hfim. reflexivity.
Qed.

(** ** The path of a raw file *)

Lemma split_sem_barra s : ~ In 47%N s -> Path.split s = [s].
Proof.
  induction s as [|c s IH]; cbn [Path.split In]; [reflexivity|].
  intros Hn. destruct (N.eqb_spec c 47); [exfalso; apply Hn; left; congruence|].
  rewrite IH by tauto. reflexivity.
Qed.

Lemma raiz_de_relativo c s : c <> 47%N -> Path.raiz_de (c :: s) = Path.Relativo.
Proof.
  intros Hc. unfold Path.raiz_de. cbn [Str.startswith].
  destruct (N.eqb_spec 47 c); [congruence|]. reflexivity.
Qed.

(* A plain component read as a path is that one component. *)
Lemma of_str_simples s :
  componente_simples s -> Path.of_str s = Path.mk Path.Relativo [s].
Proof.
  intros (Hne & Hdot & H47). unfold Path.of_str.
  rewrite split_sem_barra by exact H47.
  destruct s as [|c s]; [contradiction|].
  rewrite raiz_de_relativo by (intros ->; apply H47; left; reflexivity).
  cbn [List.filter Path.componente].
  destruct s as [|c' s]; [|reflexivity].
  destruct (N.eqb_spec c 46); [congruence|reflexivity].
Qed.

Lemma truediv_simples p s :
  componente_simples s ->
  Path.truediv p s = Path.mk (Path.root p) (Path.parts p ++ [s]).
Proof. intros Hs. unfold Path.truediv. rewrite of_str_simples by exact Hs. reflexivity. Qed.

Lemma sem_prefixo_app pre l : Path.sem_prefixo pre (pre ++ l) = Some l.
Proof.
  induction pre as [|a pre IH]; cbn [Path.sem_prefixo app]; [destruct l; reflexivity|].
  destruct (decide (a = a)); [exact IH|contradiction].
Qed.

Lemma lit_String a s : lit (String a s) = N_of_ascii a :: lit s.
Proof. reflexivity. Qed.

Lemma string_of_uint_digitos d :
  Forall (fun c => (48 <= c <= 57)%N) (lit (NilEmpty.string_of_uint d)).
Proof.
  induction d; cbn [NilEmpty.string_of_uint]; [constructor|..];
    rewrite lit_String; (constructor; [cbn; lia|exact IHd]).
Qed.

(* What str() gives for an int: digits after at most one minus sign, and
   at least one character. *)
Lemma of_Z_forma z :
  Str.of_Z z <> []
  /\ Forall (fun c => (48 <= c <= 57)%N \/ c = 45%N) (Str.of_Z z).
Proof.
  assert (Hu : forall d,
             lit (NilZero.string_of_uint d) <> []
             /\ Forall (fun c => (48 <= c <= 57)%N \/ c = 45%N)
                  (lit (NilZero.string_of_uint d))).
  { intros d. split.
    - destruct d; discriminate.
    - assert (H : Forall (fun c => (48 <= c <= 57)%N) (lit (NilZero.string_of_uint d))).
      { destruct d; try apply string_of_uint_digitos.
        repeat constructor; cbn; lia. }
      eapply Forall_impl; [exact H|]. intros c Hc. left. exact Hc. }
  unfold Str.of_Z. destruct (Z.to_int z) as [d|d]; cbn [NilZero.string_of_int].
  - apply Hu.
  - rewrite lit_String. split; [discriminate|].
    constructor; [right; reflexivity|apply Hu].
Qed.

Lemma digitos_simples s :
  s <> [] -> Forall (fun c => (48 <= c <= 57)%N \/ c = 45%N) s -> componente_simples s.
Proof.
  intros Hne Hd. split; [exact Hne|]. split.
  - intros ->. inversion Hd as [|? ? Hc _]. lia.
  - intros Hin. rewrite List.Forall_forall in Hd. specialize (Hd _ Hin). lia.
Qed.

Lemma of_Z_simples z : componente_simples (Str.of_Z z).
Proof. destruct (of_Z_forma z). apply digitos_simples; assumption. Qed.

Lemma of_Z_02d_simples z : componente_simples (Str.of_Z_02d z).
Proof.
  destruct (of_Z_forma z) as [Hne Hd]. apply digitos_simples.
  - intros H. apply (f_equal (@length N)) in H. unfold Str.of_Z_02d in H.
    rewrite zfill_length in H. cbn [length] in H. lia.
  - unfold Str.of_Z_02d, Str.zfill.
    assert (Hz : forall n, Forall (fun c => (48 <= c <= 57)%N \/ c = 45%N)
                             (repeat 48%N n)).
    { intros n. apply List.Forall_forall. intros c Hc. apply repeat_spec in Hc. lia. }
    destruct (Str.of_Z z) as [|c s]; [apply Hz|].
    inversion Hd; subst.
    destruct ((c =? 43)%N || (c =? 45)%N).
    + constructor; [assumption|]. apply Forall_app. split; [apply Hz|assumption].
    + apply Forall_app. split; [apply Hz|exact Hd].
Qed.

Section Caminho.
Context {platform : Platform}.
#[local] Opaque lit.

(** X14. _obter_caminho_arquivo, when the directory can be made and the
    extension is not empty and has no slash.  The identifier gives one file
    name, which has the length of the identifier and holds neither a slash
    nor a backslash (an identifier without them is kept as it is), and the
    file is that name with the extension as one more component under the
    directory of the month, so the identifier cannot name another directory.
    When moreover the name of the source, in lower case with its spaces as
    underscores, is one plain component, the file is
    <project>/data/raw/<source>/<year>/<month>/<name>.<extension> and its
    path relative to the project is data/raw/<source>/<year>/<month>/
    followed by the file name; a source name of another form (one that
    begins with a slash, say) is not covered. *)
Theorem obter_caminho_arquivo_seguro identificador extensao w :
  hd false (doc_faults w) = false ->
  extensao <> [] ->
  ~ In 47%N extensao ->
  exists diretorio nome_seguro caminho,
    fst (_obter_caminho_arquivo identificador extensao w) = Ok caminho
    /\ caminho
       = Path.mk (Path.root diretorio)
           (Path.parts diretorio ++ [nome_seguro ++ lit "." ++ extensao])
    /\ length nome_seguro = length identificador
    /\ ~ In 47%N nome_seguro
    /\ ~ In 92%N nome_seguro
    /\ (~ In 47%N identificador -> ~ In 92%N identificador ->
        nome_seguro = identificador)
    /\ (componente_simples
          (Str.replace 32 95 (str_lower (FonteDados.nome (fonte (self w))))) ->
        diretorio
        = Path.mk Path.Barra
            (projeto
               ++ [lit "data"; lit "raw";
                   Str.replace 32 95 (str_lower (FonteDados.nome (fonte (self w))));
                   Str.of_Z (fst (local_year_month (relogio w (leituras w))));
                   Str.of_Z_02d (snd (local_year_month (relogio w (leituras w))))])
        /\ (Path.str <$> Path.relative_to caminho projeto_dir)
           = Some (lit "data/raw/"
                     ++ Str.replace 32 95 (str_lower (FonteDados.nome (fonte (self w))))
                     ++ lit "/"
                     ++ Str.of_Z (fst (local_year_month (relogio w (leituras w))))
                     ++ lit "/"
                     ++ Str.of_Z_02d (snd (local_year_month (relogio w (leituras w))))
                     ++ lit "/" ++ nome_seguro ++ lit "." ++ extensao)).
Proof.
  intros Hf Hext H47e.
  cbv [_obter_caminho_arquivo doc_op clock_now gets mbind mret M_bind M_ret]. proj.
  rewrite Hf. proj.
  set (nome := Str.replace 92 95 (Str.replace 47 95 identificador)).
  assert (Hn47 : ~ In 47%N nome).
  { apply replace_keeps_out; [discriminate|apply replace_not_In; discriminate]. }
  assert (Hs : componente_simples (nome ++ lit "." ++ extensao)).
  { split; [destruct nome; discriminate|]. split.
    - intros H. apply (f_equal (@length N)) in H.
      rewrite !length_app in H. destruct extensao; [contradiction|].
      cbn [length] in H. change (length (lit ".")) with 1%nat in H. lia.
    - rewrite !in_app_iff. intros [H|[H|H]]; [tauto| |tauto].
      change (lit ".") with [46%N] in H. destruct H as [H|[]]. discriminate. }
  eexists _, nome, _. split; [reflexivity|].
  split; [apply truediv_simples; exact Hs|].
  split; [subst nome; rewrite !replace_length; reflexivity|].
  split; [exact Hn47|].
  split; [apply replace_not_In; discriminate|].
  split.
  { intros H47 H92. subst nome. rewrite (replace_id 47) by assumption.
    apply replace_id. assumption. }
  intros Hfonte.
  assert (Hdata : componente_simples (lit "data")).
  { repeat split; try discriminate. vm_compute. intuition discriminate. }
  assert (Hraw : componente_simples (lit "raw")).
  { repeat split; try discriminate. vm_compute. intuition discriminate. }
  rewrite (truediv_simples _ _ Hs),
    (truediv_simples _ _ (of_Z_02d_simples _)),
    (truediv_simples _ _ (of_Z_simples _)),
    (truediv_simples _ _ Hfonte),
    (truediv_simples _ _ Hraw), (truediv_simples _ _ Hdata).
  cbn [Path.root Path.parts projeto_dir].
  repeat rewrite <- (List.app_assoc (A:=pystr)). cbn [app].
  split; [reflexivity|].
  unfold Path.relative_to. cbn [Path.root Path.parts projeto_dir Path.mesma_raiz].
  rewrite sem_prefixo_app.
  cbn [fmap option_fmap option_map Path.str Path.root Path.parts Path.join].
  reflexivity.
Qed.
End Caminho.

(** ** The candidates of a page *)

Section Candidatos.
Context {platform : Platform}.
Import CositScraper.
Local Open Scope N_scope.
#[local] Opaque lit.

Lemma span_digits_digits s : Forall (fun c => is_digit c = true) (fst (span_digits s)).
Proof.
  induction s as [|c s IH]; cbn [span_digits]; [constructor|].
  destruct (is_digit c) eqn:Hc; cbn [fst]; [constructor; assumption|constructor].
Qed.

Lemma grupo_ano_ok s a :
  grupo_ano s = Some a -> length a = 4%nat /\ Forall (fun c => is_digit c = true) a.
Proof.
  unfold grupo_ano.
  destruct s as [|barra [|a0 [|b0 [|c0 [|d0 s]]]]]; try discriminate.
  destruct (barra =? 47); cbn [andb]; [|discriminate].
  destruct (is_digit a0) eqn:Ha; cbn [andb]; [|discriminate].
  destruct (is_digit b0) eqn:Hb; cbn [andb]; [|discriminate].
  destruct (is_digit c0) eqn:Hc; cbn [andb]; [|discriminate].
  destruct (is_digit d0) eqn:Hd; [|discriminate].
  intros [= <-]. split; [reflexivity|]. repeat constructor; assumption.
Qed.

Lemma match_numero_grupos s r : match_numero s = Some r -> grupos_ok r.
Proof.
  unfold match_numero, grupos_ok.
  pose proof (span_digits_digits s) as Hd.
  destruct (span_digits s) as [[|c numero] resto]; [discriminate|].
  intros [= <-]. cbn [fst snd] in *.
  split; [discriminate|]. split; [exact Hd|].
  destruct (grupo_ano resto) as [a|] eqn:Ha; [|exact I].
  exact (grupo_ano_ok resto a Ha).
Qed.

Lemma match_espacos_grupos s r : match_espacos s = Some r -> grupos_ok r.
Proof.
  revert r. induction s as [|c s IH]; intros r; cbn [match_espacos].
  - apply match_numero_grupos.
  - destruct (unicode_space c); [|apply match_numero_grupos].
    destruct (match_espacos s) as [r'|]; [|apply match_numero_grupos].
    intros [= <-]. apply IH. reflexivity.
Qed.

Lemma match_ordinal_grupos s r : match_ordinal s = Some r -> grupos_ok r.
Proof.
  destruct s as [|c s]; cbn [match_ordinal]; [apply match_espacos_grupos|].
  destruct ((c =? Str.c_degree) || (c =? Str.c_ordm)); [|apply match_espacos_grupos].
  destruct (match_espacos s) as [r'|] eqn:Hs; [|apply match_espacos_grupos].
  intros [= <-]. exact (match_espacos_grupos s r' Hs).
Qed.

Lemma re_search_grupos texto r : re_search texto = Some r -> grupos_ok r.
Proof.
  induction texto as [|c s IH]; cbn [re_search]; [discriminate|].
  destruct ((c =? 110) || (c =? 78)); [|exact IH].
  destruct (match_ordinal s) as [r'|] eqn:Hs; [|exact IH].
  intros [= <-]. exact (match_ordinal_grupos s r' Hs).
Qed.

(** X15. What _extrair_info_documento gives when it gives a candidate.
    The text has a number; the address is absolute (it begins with http);
    the title is the first 500 characters of the text; the number is a run
    of digits that is not empty; the type is consulta; and the identifier is
    cosit_<year>_<number>, the number padded with zeros to four characters
    at least, the year being the four digits after the slash when the text
    has them and the year of the index page otherwise. *)
Theorem extrair_info_documento_forma href texto ano_pagina info :
  _extrair_info_documento href texto ano_pagina = Some info ->
  tem_numero texto
  /\ Str.startswith (lit "http") (url info) = true
  /\ titulo info = take 500 texto
  /\ (length (titulo info) <= 500)%nat
  /\ numero info <> []
  /\ Forall (fun c => is_digit c = true) (numero info)
  /\ tipo info = lit "consulta"
  /\ exists ano_doc,
       identificador info
       = lit "cosit_" ++ ano_doc ++ lit "_" ++ Str.zfill 4 (numero info)
       /\ (4 <= length (Str.zfill 4 (numero info)))%nat
       /\ ((ano_doc = Str.of_Z ano_pagina /\ ano info = ano_pagina)
           \/ (length ano_doc = 4%nat
               /\ Forall (fun c => is_digit c = true) ano_doc
               /\ ano info = int_of_digits ano_doc)).
Proof.
  unfold _extrair_info_documento.
  destruct (re_search texto) as [[num g2]|] eqn:Hr; [|discriminate].
  pose proof (re_search_Some texto _ Hr) as Htem.
  destruct (re_search_grupos texto _ Hr) as (Hne & Hdig & Hg2). cbn [fst snd] in *.
  intros Heq. injection Heq as <-.
  cbn [url titulo numero tipo identificador CositScraper.ano].
  split; [exact Htem|].
  split.
  { destruct (Str.startswith (lit "http") href) eqn:Hh; [exact Hh|].
    destruct (Str.startswith (lit "/") href); vm_compute; reflexivity. }
  split; [reflexivity|].
  split; [rewrite length_take; lia|].
  split; [exact Hne|]. split; [exact Hdig|]. split; [reflexivity|].
  destruct g2 as [a|].
  - exists a. split; [reflexivity|]. split; [rewrite zfill_length; lia|].
    right. destruct Hg2 as [Hl Hd]. repeat split; assumption.
  - exists (Str.of_Z ano_pagina). split; [reflexivity|].
    split; [rewrite zfill_length; lia|]. left. split; reflexivity.
Qed.

(** X16. The candidates of a page are found link by link.  The
    candidates of two lists of links put together are those of the first
    followed by those of the second, so the order of the page is kept and
    nothing is merged; there are at most as many candidates as links; and a
    candidate is on the list exactly when some link passes
    _e_solucao_consulta and _extrair_info_documento gives that candidate
    for it. *)
Theorem parsear_links_compoe links1 links2 ano_pagina :
  parsear_links (links1 ++ links2) ano_pagina
  = parsear_links links1 ano_pagina ++ parsear_links links2 ano_pagina
  /\ (length (parsear_links links1 ano_pagina) <= length links1)%nat
  /\ (forall info,
        In info (parsear_links links1 ano_pagina)
        <-> exists href texto,
              In (href, texto) links1
              /\ _e_solucao_consulta texto href = true
              /\ _extrair_info_documento href texto ano_pagina = Some info).
Proof.
  split; [|split].
  - induction links1 as [|[href texto] l IH]; cbn [app parsear_links]; [reflexivity|].
    destruct (_e_solucao_consulta texto href); [|exact IH].
    destruct (_extrair_info_documento href texto ano_pagina); [|exact IH].
    rewrite IH. reflexivity.
  - induction links1 as [|[href texto] l IH]; cbn [parsear_links length]; [lia|].
    destruct (_e_solucao_consulta texto href); [|lia].
    destruct (_extrair_info_documento href texto ano_pagina); cbn [length]; lia.
  - intros info. induction links1 as [|[href texto] l IH]; cbn [parsear_links].
    + split; [intros []|intros (h & t & [] & _)].
    + destruct (_e_solucao_consulta texto href) eqn:He.
      * destruct (_extrair_info_documento href texto ano_pagina) as [i|] eqn:Hx.
        -- cbn [In]. rewrite IH. split.
           ++ intros [<-|(h & t & Hin & H1 & H2)].
              ** exists href, texto. repeat split; [left; reflexivity|assumption..].
              ** exists h, t. repeat split; [right; assumption|assumption..].
           ++ intros (h & t & [[= <- <-]|Hin] & H1 & H2).
              ** left. congruence.
              ** right. exists h, t. repeat split; assumption.
        -- rewrite IH. split.
           ++ intros (h & t & Hin & H1 & H2).
              exists h, t. repeat split; [right; assumption|assumption..].
           ++ intros (h & t & [[= <- <-]|Hin] & H1 & H2); [congruence|].
              exists h, t. repeat split; assumption.
      * rewrite IH. split.
        -- intros (h & t & Hin & H1 & H2).
           exists h, t. repeat split; [right; assumption|assumption..].
        -- intros (h & t & [[= <- <-]|Hin] & H1 & H2); [congruence|].
           exists h, t. repeat split; assumption.
Qed.
End Candidatos.

(** ** The tasks of the scheduler *)

Section Tarefas.
Import tasks.
#[local] Opaque lit.

Lemma frequencias_valores rotulo :
  default (timedelta_days 1) (frequencias rotulo)
  = (if decide (rotulo = lit "horaria") then 3600000000
     else if decide (rotulo = lit "semanal") then 604800000000
     else if decide (rotulo = lit "mensal") then 2592000000000
     else 86400000000)%Z.
Proof.
  unfold frequencias.
  destruct (decide (rotulo = lit "horaria")) as [->|]; [reflexivity|].
  destruct (decide (rotulo = lit "diaria")) as [->|].
  { repeat (destruct (decide _); [discriminate|]). reflexivity. }
  repeat (destruct (decide _); [reflexivity|]). reflexivity.
Qed.

(** X17. calcular_proxima_coleta on a source of the table, with no
    failure of the database: the next harvest is set to the reading of the
    clock plus one hour, one day, seven days or thirty days for horaria,
    diaria, semanal and mensal, and plus one day for any other label; only
    that row changes.  From then on executar_todas_fontes_ativas does not
    select the source before that instant, and selects it from that instant
    on when it is active with status ativo. *)
Theorem calcular_proxima_coleta_agenda fonte_id f w :
  fontes w !! fonte_id = Some f ->
  FonteDados.pk f = fonte_id ->
  sem_falhas 2 (run_faults w) ->
  exists delta w',
    calcular_proxima_coleta fonte_id w = (Ok tt, w')
    /\ delta
       = (if decide (FonteDados.frequencia_coleta f = lit "horaria") then 3600000000
          else if decide (FonteDados.frequencia_coleta f = lit "semanal")
               then 604800000000
          else if decide (FonteDados.frequencia_coleta f = lit "mensal")
               then 2592000000000
          else 86400000000)%Z
    /\ fontes w'
       = <[fonte_id := set_proxima_coleta (Some (relogio w (leituras w) + delta)%Z) f]>
           (fontes w)
    /\ logs w' = logs w
    /\ documentos w' = documentos w
    /\ (forall t, (t < relogio w (leituras w) + delta)%Z ->
          pronta t (set_proxima_coleta (Some (relogio w (leituras w) + delta)%Z) f)
          = false)
    /\ (forall t, (relogio w (leituras w) + delta <= t)%Z ->
          pronta t (set_proxima_coleta (Some (relogio w (leituras w) + delta)%Z) f)
          = FonteDados.ativo f && bool_decide (FonteDados.status f = lit "ativo")).
Proof.
  intros Hf Hpk Hfa.
  apply sem_falhas_S in Hfa as [Hf0 Hfa]. apply sem_falhas_S in Hfa as [Hf1 _].
  cbv [calcular_proxima_coleta fonte_get fonte_save_proxima_coleta try_except run_op
       clock_now modify emit gets raise mbind mret M_bind M_ret]. proj.
  rewrite Hf0. proj. rewrite Hf. proj. rewrite Hf1. proj.
  cbn [set_proxima_coleta FonteDados.pk FonteDados.proxima_coleta].
  rewrite Hpk, Hf. proj.
  rewrite frequencias_valores.
  eexists _, _. split; [reflexivity|]. proj.
  split; [reflexivity|]. split.
  { cbn [set_proxima_coleta FonteDados.pk FonteDados.nome FonteDados.descricao
         FonteDados.tipo FonteDados.url_base FonteDados.frequencia_coleta
         FonteDados.scraper_class FonteDados.status FonteDados.ativo
         FonteDados.ultima_coleta FonteDados.proxima_coleta]. reflexivity. }
  split; [reflexivity|]. split; [reflexivity|].
  unfold pronta.
  cbn [set_proxima_coleta FonteDados.ativo FonteDados.status FonteDados.proxima_coleta].
  split; intros t Ht.
  - rewrite (proj2 (Z.leb_gt _ _)) by lia. apply andb_false_r.
  - rewrite (proj2 (Z.leb_le _ _)) by lia. apply andb_true_r.
Qed.

(** X18. calcular_proxima_coleta never raises.  Whatever fails,
    run logs and documents are untouched, the rows of the other sources are
    as they were, the row of the source differs at most in proxima_coleta,
    and for an identifier that is not in the table nothing changes and the
    clock is not read. *)
Theorem calcular_proxima_coleta_nao_propaga fonte_id w :
  fontes_ok w ->
  fst (calcular_proxima_coleta fonte_id w) = Ok tt
  /\ logs (snd (calcular_proxima_coleta fonte_id w)) = logs w
  /\ documentos (snd (calcular_proxima_coleta fonte_id w)) = documentos w
  /\ (forall k, k <> fonte_id ->
        fontes (snd (calcular_proxima_coleta fonte_id w)) !! k = fontes w !! k)
  /\ (fontes w !! fonte_id = None ->
        fontes (snd (calcular_proxima_coleta fonte_id w)) = fontes w
        /\ trace (snd (calcular_proxima_coleta fonte_id w)) = trace w
        /\ leituras (snd (calcular_proxima_coleta fonte_id w)) = leituras w)
  /\ (forall f', fontes (snd (calcular_proxima_coleta fonte_id w)) !! fonte_id = Some f' ->
        exists f, fontes w !! fonte_id = Some f
                  /\ set_proxima_coleta (FonteDados.proxima_coleta f) f' = f).
Proof.
  intros Hok.
  cbv [calcular_proxima_coleta fonte_get fonte_save_proxima_coleta try_except run_op
       clock_now modify emit gets raise mbind mret M_bind M_ret]. proj.
  destruct (hd false (run_faults w)); proj.
  { repeat split; try reflexivity. intros f' Hf'. exists f'. split; [exact Hf'|].
    destruct f'; reflexivity. }
  destruct (fontes w !! fonte_id) as [f|] eqn:Hf; proj.
  2:{ repeat split; try reflexivity. intros f' Hf'. rewrite Hf in Hf'. discriminate. }
  pose proof (Hok _ _ Hf) as Hpk.
  destruct (hd false (tl (run_faults w))); proj.
  { repeat split; try reflexivity; try discriminate.
    intros f' Hf'. exists f'. split; [congruence|]. destruct f'; reflexivity. }
  cbn [set_proxima_coleta FonteDados.pk FonteDados.proxima_coleta].
  rewrite Hpk, Hf. proj.
  repeat split; try reflexivity; try discriminate.
  - intros k Hk. rewrite lookup_insert_ne by congruence. reflexivity.
  - intros f' Hf'. rewrite lookup_insert_eq in Hf'. injection Hf' as <-.
    exists f. split; [reflexivity|]. destruct f; reflexivity.
Qed.
(* The loop of executar_todas_fontes_ativas. *)
Lemma despachar_fold apply_async prontas r d :
  detalhes r = Some d ->
  total (fold_left (despachar apply_async) prontas r) = total r
  /\ sucesso (fold_left (despachar apply_async) prontas r) = sucesso r
  /\ (executadas (fold_left (despachar apply_async) prontas r)
       + erro (fold_left (despachar apply_async) prontas r)
      = executadas r + erro r + Z.of_nat (length prontas))%Z
  /\ detalhes (fold_left (despachar apply_async) prontas r)
     = Some (d ++ omap (fun f => (fun task_id =>
                                   (FonteDados.pk f, FonteDados.nome f, task_id))
                                <$> apply_async (FonteDados.pk f)) prontas)
  /\ (executadas (fold_left (despachar apply_async) prontas r)
      = executadas r
        + Z.of_nat (length (omap (fun f => apply_async (FonteDados.pk f)) prontas)))%Z.
Proof.
  revert r d. induction prontas as [|f l IH]; intros r d Hd; cbn [fold_left].
  - cbn [omap list_omap length]. rewrite app_nil_r.
    repeat split; try reflexivity; try assumption; lia.
  - cbn [omap list_omap].
    destruct (apply_async (FonteDados.pk f)) as [task_id|] eqn:Ha.
    + assert (Hs : despachar apply_async r f
                   = mk_resumo (total r) (executadas r + 1) (sucesso r) (erro r)
                       (Some (d ++ [(FonteDados.pk f, FonteDados.nome f, task_id)]))).
      { unfold despachar. rewrite Ha, Hd. reflexivity. }
      rewrite Hs.
      destruct (IH (mk_resumo (total r) (executadas r + 1) (sucesso r) (erro r)
                      (Some (d ++ [(FonteDados.pk f, FonteDados.nome f, task_id)])))
                   (d ++ [(FonteDados.pk f, FonteDados.nome f, task_id)]) eq_refl)
        as (H1 & H2 & H3 & H4 & H5).
      rewrite H1, H2, H3, H4, H5.
      cbn [total executadas sucesso erro detalhes fmap option_fmap option_map length].
      rewrite <- app_assoc.
      repeat split; try reflexivity; lia.
    + assert (Hs : despachar apply_async r f
                   = mk_resumo (total r) (executadas r) (sucesso r) (erro r + 1)
                       (Some d)).
      { unfold despachar. rewrite Ha, Hd. reflexivity. }
      rewrite Hs.
      destruct (IH (mk_resumo (total r) (executadas r) (sucesso r) (erro r + 1)
                      (Some d)) d eq_refl)
        as (H1 & H2 & H3 & H4 & H5).
      rewrite H1, H2, H3, H4, H5.
      cbn [total executadas sucesso erro detalhes length].
      repeat split; try reflexivity; lia.
Qed.

(** X19. executar_todas_fontes_ativas, when its two queries go
    through.  total is the number of sources that are active, have status
    ativo and are due at the reading of the clock; each of them is either
    dispatched or counted as an error, so executadas + erro = total;
    detalhes lists the dispatched ones in the order of the query; sucesso is
    always 0; and the task itself runs no scraper: sources, run logs,
    documents and trace are as they were. *)
Theorem executar_todas_fontes_ativas_contagem apply_async w :
  sem_falhas 2 (run_faults w) ->
  exists r w',
    executar_todas_fontes_ativas apply_async w = (Ok r, w')
    /\ total r
       = Z.of_nat (length (List.filter (pronta (relogio w (leituras w)))
                             (por_nome (map snd (map_to_list (fontes w))))))
    /\ (executadas r + erro r = total r)%Z
    /\ sucesso r = 0%Z
    /\ (executadas r
        = Z.of_nat (length (omap (fun f => apply_async (FonteDados.pk f))
                              (List.filter (pronta (relogio w (leituras w)))
                                 (por_nome (map snd (map_to_list (fontes w))))))))%Z
    /\ (total r <> 0%Z ->
        detalhes r
        = Some (omap (fun f => (fun task_id =>
                                  (FonteDados.pk f, FonteDados.nome f, task_id))
                               <$> apply_async (FonteDados.pk f))
                  (List.filter (pronta (relogio w (leituras w)))
                     (por_nome (map snd (map_to_list (fontes w)))))))
    /\ fontes w' = fontes w
    /\ logs w' = logs w
    /\ documentos w' = documentos w
    /\ trace w' = trace w.
Proof.
  intros Hfa.
  apply sem_falhas_S in Hfa as [Hf0 Hfa]. apply sem_falhas_S in Hfa as [Hf1 _].
  cbv [executar_todas_fontes_ativas fontes_prontas run_op clock_now gets mbind mret
       M_bind M_ret]. proj.
  rewrite Hf0. proj.
  set (prontas := List.filter (pronta (relogio w (leituras w)))
                    (por_nome (map snd (map_to_list (fontes w))))).
  destruct (decide (Z.of_nat (length prontas) = 0%Z)) as [Hz|Hz].
  - eexists _, _. split; [reflexivity|]. proj.
    cbn [total executadas sucesso erro detalhes].
    assert (prontas = []) as -> by (destruct prontas; [reflexivity|cbn in Hz; lia]).
    repeat split; try reflexivity. intros H. contradiction.
  - proj. rewrite Hf1. proj.
    eexists _, _. split; [reflexivity|]. proj. fold prontas.
    destruct (despachar_fold apply_async prontas
                (mk_resumo (Z.of_nat (length prontas)) 0 0 0 (Some [])) [] eq_refl)
      as (H1 & H2 & H3 & H4 & H5).
    rewrite H1, H2, H3, H4, H5.
    cbn [total executadas sucesso erro detalhes app].
    repeat split; try reflexivity; lia.
Qed.

(** X20. limpar_logs_antigos never raises and leaves sources and
    documents alone.  When dias is more than timedelta holds, or the limit
    would fall outside the years 1 to 9999, it reports the failure without
    asking the database, and the run logs are as they were.  When the limit
    can be computed and the database fails, it reports the failure and the
    run logs are as they were.  Otherwise the run logs that remain are
    exactly those that began at or after the clock reading minus dias days,
    each unchanged, and the number it reports is the number of logs
    removed. *)
Theorem limpar_logs_antigos_efeito dias w :
  exists r w',
    limpar_logs_antigos dias w = (Ok r, w')
    /\ fontes w' = fontes w
    /\ documentos w' = documentos w
    /\ (~ limite_valido (relogio w (leituras w)) dias ->
        (exists erro, r = NaoLimpou erro)
        /\ logs w' = logs w /\ run_faults w' = run_faults w)
    /\ (limite_valido (relogio w (leituras w)) dias ->
        if hd false (run_faults w) then
          r = NaoLimpou (exn_str DatabaseError) /\ logs w' = logs w
        else
          (forall k l,
             logs w' !! k = Some l
             <-> logs w !! k = Some l
                 /\ (relogio w (leituras w) - timedelta_days dias
                     <= LogColeta.iniciado_em l)%Z)
          /\ exists n, r = Limpou n dias
                       /\ Z.of_nat (size (logs w)) = (Z.of_nat (size (logs w')) + n)%Z).
Proof.
  unfold limite_valido.
  cbv [limpar_logs_antigos try_except timedelta_de_dias datetime_menos run_op clock_now
       modify gets raise mbind mret M_bind M_ret]. proj.
  destruct (decide (-999999999 <= dias <= 999999999)%Z) as [Hd|Hd]; proj.
  2:{ eexists _, _. split; [reflexivity|]. proj.
      split; [reflexivity|]. split; [reflexivity|]. split; [|tauto].
      intros _. split; [eexists; reflexivity|]. split; reflexivity. }
  destruct (decide (datetime_min <= relogio w (leituras w) - timedelta_days dias
                    <= datetime_max)%Z) as [Hl|Hl]; proj.
  2:{ eexists _, _. split; [reflexivity|]. proj.
      split; [reflexivity|]. split; [reflexivity|]. split; [|tauto].
      intros _. split; [eexists; reflexivity|]. split; reflexivity. }
  destruct (hd false (run_faults w)); proj.
  - eexists _, _. split; [reflexivity|]. proj.
    split; [reflexivity|]. split; [reflexivity|]. split; [tauto|].
    intros _. split; reflexivity.
  - eexists _, _. split; [reflexivity|]. proj.
    split; [reflexivity|]. split; [reflexivity|]. split; [tauto|].
    intros _. split.
    + intros k l. rewrite map_lookup_filter_Some. cbn [snd]. split.
      * intros [H1 H2]. split; [exact H1|lia].
      * intros [H1 H2]. split; [exact H1|lia].
    + eexists. split; [reflexivity|].
      set (P := fun kl : Z * LogColeta.t =>
                  (LogColeta.iniciado_em kl.2
                   < relogio w (leituras w) - timedelta_days dias)%Z).
      pose proof (map_filter_union_complement P (logs w)) as Hu.
      pose proof (map_disjoint_filter_complement P (logs w)) as Hdj.
      rewrite <- Hu at 1. rewrite map_size_disj_union by exact Hdj.
      subst P. cbv beta. lia.
Qed.
End Tarefas.

Section TarefaScraper.
Context {platform : Platform}.
Import tasks.
#[local] Opaque lit.

(** X21. executar_scraper_fonte refuses without running anything.
    When the lookup goes through and the source is missing, inactive, or
    names a scraper class that is not registered, the task returns the
    short failure dict, asks for no retry, and apart from the lookup
    itself the world is as it was: no scraper object, no run log, no
    request. *)
Theorem executar_scraper_fonte_recusa self_retry fonte_id w :
  hd false (run_faults w) = false ->
  match fontes w !! fonte_id with
  | Some f =>
      FonteDados.ativo f = false \/ FonteDados.scraper_class f <> lit "CositScraper"
  | None => True
  end ->
  exists erro,
    executar_scraper_fonte self_retry fonte_id w
    = (Devolve (Falha None erro), with_run_faults (tl (run_faults w)) w).
Proof.
  intros Hf0 Hrow.
  cbv [executar_scraper_fonte executar_scraper_fonte_try fonte_get_ativa try_except
       run_op gets raise mbind mret M_bind M_ret]. proj.
  rewrite Hf0. proj.
  destruct (fontes w !! fonte_id) as [f|]; proj; [|eexists; reflexivity].
  destruct (FonteDados.ativo f) eqn:Ha; proj; [|eexists; reflexivity].
  destruct Hrow as [Hrow|Hrow]; [discriminate|].
  unfold SCRAPERS_DISPONIVEIS. rewrite decide_False by exact Hrow.
  eexists. reflexivity.
Qed.

(** X22. The dict that executar_scraper_fonte returns for a run
    agrees with the run log.  For an active COSIT source with a valid
    configuration and no failure of the database on the run log and the
    source: log_id is the key of the log that the run created, the four
    counters of the dict are those of that row, sucesso tells whether the
    row has status sucesso, and mensagem is there exactly when the run did
    not succeed, with the message of the row. *)
Theorem executar_scraper_fonte_resultado self_retry fonte_id f w :
  fontes w !! fonte_id = Some f ->
  FonteDados.ativo f = true ->
  FonteDados.scraper_class f = lit "CositScraper" ->
  FonteDados.url_base f <> [] ->
  FonteDados.tipo f = lit "web" ->
  sem_falhas 4 (run_faults w) ->
  exists sucesso novos atualizados ignorados erros l w',
    executar_scraper_fonte self_retry fonte_id w
    = (Devolve (Resultado sucesso fonte_id (FonteDados.nome f)
                  novos atualizados ignorados erros (Some (log_seq w))
                  (if sucesso then None else Some (LogColeta.mensagem l))), w')
    /\ logs w' !! log_seq w = Some l
    /\ LogColeta.fonte l = FonteDados.pk f
    /\ LogColeta.status l = (if sucesso then lit "sucesso" else lit "erro")
    /\ LogColeta.documentos_novos l = novos
    /\ LogColeta.documentos_atualizados l = atualizados
    /\ LogColeta.documentos_ignorados l = ignorados
    /\ LogColeta.documentos_erro l = erros
    /\ (novos + atualizados + ignorados + erros
        = contados (self w') )%Z.
Proof.
  intros Hrow Ha Hcl Hu Ht Hfa.
  apply sem_falhas_S in Hfa as [Hf0 Hfa].
  cbv [executar_scraper_fonte executar_scraper_fonte_try fonte_get_ativa try_except
       run_op gets raise mbind mret M_bind M_ret __init__ modify]. proj.
  rewrite Hf0. proj. rewrite Hrow, Ha. proj.
  unfold SCRAPERS_DISPONIVEIS. rewrite decide_True by exact Hcl.
  set (w1 := with_self (mkScraper f None true 0 0 0 0)
               (with_run_faults (tl (run_faults w)) w)).
  assert (Hv : @validar_configuracao CositScraper.impl w1 = (Ok true, w1)).
  { apply cosit_validar_true; assumption. }
  pose proof (coletar_result (snd (_criar_log w1))) as Hr.
  pose proof (preserva_coletar (snd (_criar_log w1))) as Hp.
  destruct (CositScraper.coletar (snd (_criar_log w1))) as [r w2] eqn:Hc.
  cbn [fst snd] in Hr, Hp.
  destruct (@executar_run CositScraper.impl w1 r w2 Hv Hfa Hc Hp)
    as (w' & t & He & _ & _ & Hl & _ & Hlg & _ & Hno & Hat & Hig & Her & _).
  rewrite He. proj. rewrite Hlg. cbn [fmap option_fmap option_map].
  subst r. cbn [LogColeta.pk log_final].
  match goal with
  | |- context [Resultado ?b _ _ _ _ _ _ _ _] =>
      exists b, (docs_novos (self w2)), (docs_atualizados (self w2)),
        (docs_ignorados (self w2)), (docs_erro (self w2)),
        (log_final w1 (Ok b) w2), w'
  end.
  rewrite Hno, Hat, Hig, Her.
  split.
  { destruct (0 <? _)%Z; reflexivity. }
  split; [rewrite Hl; apply lookup_insert_eq|].
  unfold log_final, desfecho, contados. rewrite Hno, Hat, Hig, Her.
  destruct (0 <? _)%Z; repeat split; reflexivity.
Qed.

(** X23. A run does not reschedule its source.  After executar of the
    COSIT scraper the row of the source has a last harvest, and its
    proxima_coleta, ativo and status are as before: at every instant
    executar_todas_fontes_ativas selects the source after the run exactly
    when it selected it before. *)
Theorem executar_nao_reagenda w :
  FonteDados.url_base (fonte (self w)) <> [] ->
  FonteDados.tipo (fonte (self w)) = lit "web" ->
  sem_falhas 3 (run_faults w) ->
  exists f',
    fontes (snd (@executar CositScraper.impl w)) !! FonteDados.pk (fonte (self w))
    = Some f'
    /\ FonteDados.ultima_coleta f' <> None
    /\ FonteDados.proxima_coleta f' = FonteDados.proxima_coleta (fonte (self w))
    /\ forall agora, pronta agora f' = pronta agora (fonte (self w)).
Proof.
  intros Hu Ht Hfa.
  pose proof (cosit_validar_true w Hu Ht) as Hv.
  pose proof (preserva_coletar (snd (_criar_log w))) as Hp.
  change (@coletar CositScraper.impl) with CositScraper.coletar in *.
  destruct (CositScraper.coletar (snd (_criar_log w))) as [r w2] eqn:Hc.
  cbn [snd] in Hp.
  destruct (executar_run w r w2 Hv Hfa Hc Hp)
    as (w' & t & He & _ & _ & _ & Hfs & _).
  exists (fonte_final w w2). rewrite He. cbn [snd]. rewrite Hfs, lookup_insert_eq.
  split; [reflexivity|]. unfold fonte_final, pronta.
  cbn [FonteDados.set_ultima_coleta FonteDados.ultima_coleta FonteDados.proxima_coleta
       FonteDados.ativo FonteDados.status].
  repeat split; try reflexivity. discriminate.
Qed.
End TarefaScraper.

(** ** The management command *)

Section Comando.
Context {platform : Platform}.
Import executar_scraper.
#[local] Opaque lit.

Lemma find_nome_Some w k f :
  nome_unico w ->
  fontes w !! k = Some f ->
  List.find (fun g => bool_decide (FonteDados.nome g = FonteDados.nome f))
    (map snd (map_to_list (fontes w))) = Some f.
Proof.
  intros Hu Hf.
  assert (Hin : In f (map snd (map_to_list (fontes w)))).
  { apply in_map_iff. exists (k, f). split; [reflexivity|].
    apply list_elem_of_In, elem_of_map_to_list. exact Hf. }
  destruct (List.find _ _) as [g|] eqn:Hg.
  - apply find_some in Hg as [Hgin Hgn].
    apply bool_decide_eq_true in Hgn.
    apply in_map_iff in Hgin as ([k' g'] & Heq & Hk'). cbn [snd] in Heq. subst g'.
    apply list_elem_of_In, elem_of_map_to_list in Hk'.
    pose proof (Hu _ _ _ _ Hk' Hf Hgn) as ->. congruence.
  - pose proof (find_none _ _ Hg f Hin) as Hn. cbv beta in Hn.
    rewrite bool_decide_eq_false in Hn. contradiction.
Qed.

(** X24. The management command and the Celery task run a source the
    same way.  For a source of the table, names being unique,
    _executar_fonte called with its name and executar_scraper_fonte called
    with its key leave the same world behind, whatever fails; the command
    returns the sucesso of the dict of the task; it raises CommandError
    exactly when the task returns the short failure dict; and it returns
    False when the task asks for a retry or gives up. *)
Theorem comando_e_tarefa_concordam self_retry k f w :
  nome_unico w ->
  fontes w !! k = Some f ->
  snd (_executar_fonte (FonteDados.nome f) w)
  = snd (tasks.executar_scraper_fonte self_retry k w)
  /\ match fst (tasks.executar_scraper_fonte self_retry k w),
           fst (_executar_fonte (FonteDados.nome f) w) with
     | tasks.Devolve (tasks.Resultado sucesso _ _ _ _ _ _ _ _), Retorna b => b = sucesso
     | tasks.Devolve (tasks.Falha None _), CommandError _ => True
     | tasks.Devolve (tasks.Falha (Some _) _), Retorna b => b = false
     | tasks.Levanta _, Retorna b => b = false
     | _, _ => False
     end.
Proof.
  intros Hu Hf.
  cbv [_executar_fonte fonte_get_nome tasks.executar_scraper_fonte
       tasks.executar_scraper_fonte_try tasks.fonte_get_ativa try_except run_op gets
       raise mbind mret M_bind M_ret]. proj.
  destruct (hd false (run_faults w)); proj.
  { destruct (self_retry DatabaseError); split; reflexivity. }
  rewrite (find_nome_Some w k f Hu Hf), Hf.
  destruct (FonteDados.ativo f); cbn [negb]; proj; [|split; reflexivity].
  unfold _obter_scraper_class, tasks.SCRAPERS_DISPONIVEIS.
  destruct (decide (FonteDados.scraper_class f = lit "CositScraper")); proj;
    [|split; reflexivity].
  cbv [__init__ modify]. proj.
  destruct (@executar CositScraper.impl _) as [[b|ex] w2]; proj.
  - split; reflexivity.
  - destruct (self_retry ex); split; reflexivity.
Qed.
Lemma executar_cada_total fontes sucesso_total erro_total w :
  exists s e w',
    executar_cada fontes sucesso_total erro_total w = (Ok (s, e), w')
    /\ (s + e = sucesso_total + erro_total + Z.of_nat (length fontes))%Z
    /\ (sucesso_total <= s)%Z
    /\ (erro_total <= e)%Z.
Proof.
  revert sucesso_total erro_total w.
  induction fontes as [|f l IH]; intros s0 e0 w; cbn [executar_cada].
  - exists s0, e0, w. cbn [length]. repeat split; try reflexivity; lia.
  - destruct (_executar_fonte (FonteDados.nome f) w) as [[[|]|m|ex] w1].
    + destruct (IH (s0 + 1)%Z e0 w1) as (s & e & w' & He & H1 & H2 & H3).
      exists s, e, w'. split; [exact He|]. cbn [length]. lia.
    + destruct (IH s0 (e0 + 1)%Z w1) as (s & e & w' & He & H1 & H2 & H3).
      exists s, e, w'. split; [exact He|]. cbn [length]. lia.
    + destruct (IH s0 (e0 + 1)%Z w1) as (s & e & w' & He & H1 & H2 & H3).
      exists s, e, w'. split; [exact He|]. cbn [length]. lia.
    + destruct (IH s0 (e0 + 1)%Z w1) as (s & e & w' & He & H1 & H2 & H3).
      exists s, e, w'. split; [exact He|]. cbn [length]. lia.
Qed.

(** X25. _executar_todos, when its three queries go through.  With no
    source that is active with status ativo it does nothing more.
    Otherwise every such source is counted once, as a success or as an
    error, whatever happens in its run: the two totals add up to the number
    of those sources, and none is negative. *)
Theorem executar_todos_contagem w :
  sem_falhas 3 (run_faults w) ->
  exists r w',
    _executar_todos w = (Ok r, w')
    /\ match r with
       | None =>
           List.filter
             (fun f => FonteDados.ativo f
                       && bool_decide (FonteDados.status f = lit "ativo"))
             (tasks.por_nome (map snd (map_to_list (fontes w)))) = []
           /\ w' = with_run_faults (tl (run_faults w)) w
       | Some (sucesso_total, erro_total) =>
           (sucesso_total + erro_total
            = Z.of_nat (length (List.filter
                                  (fun f => FonteDados.ativo f
                                            && bool_decide (FonteDados.status f
                                                            = lit "ativo"))
                                  (tasks.por_nome (map snd (map_to_list (fontes w)))))))%Z
           /\ (0 <= sucesso_total)%Z
           /\ (0 <= erro_total)%Z
           /\ (0 < sucesso_total + erro_total)%Z
       end.
Proof.
  intros Hfa.
  apply sem_falhas_S in Hfa as [Hf0 Hfa]. apply sem_falhas_S in Hfa as [Hf1 Hfa].
  apply sem_falhas_S in Hfa as [Hf2 _].
  cbv [_executar_todos fontes_ativas run_op gets mbind mret M_bind M_ret]. proj.
  rewrite Hf0. proj.
  set (ativas := List.filter _ _).
  destruct ativas as [|f l] eqn:Ha.
  - eexists _, _. split; [reflexivity|]. split; reflexivity.
  - proj. rewrite Hf1. proj. rewrite Hf2. proj. fold ativas. rewrite Ha.
    match goal with
    | |- context [executar_cada ?fs 0%Z 0%Z ?w0] =>
        destruct (executar_cada_total fs 0 0 w0) as (s & e & w' & He & H1 & H2 & H3)
    end.
    rewrite He. eexists _, _. split; [reflexivity|]. cbv beta iota.
    cbn [length] in *. repeat split; lia.
Qed.
Lemma find_nome_existe (tb : gmap Z FonteDados.t) k f :
  tb !! k = Some f ->
  exists f',
    List.find (fun g => bool_decide (FonteDados.nome g = FonteDados.nome f))
      (map snd (map_to_list tb)) = Some f'.
Proof.
  intros Hf.
  destruct (List.find _ _) as [g|] eqn:Hg; [eauto|].
  assert (Hin : In f (map snd (map_to_list tb))).
  { apply in_map_iff. exists (k, f). split; [reflexivity|].
    apply list_elem_of_In, elem_of_map_to_list. exact Hf. }
  pose proof (find_none _ _ Hg f Hin) as Hn. cbv beta in Hn.
  rewrite bool_decide_eq_false in Hn. contradiction.
Qed.

Lemma find_nome_In (tb : gmap Z FonteDados.t) nome f :
  List.find (fun g => bool_decide (FonteDados.nome g = nome))
    (map snd (map_to_list tb)) = Some f ->
  FonteDados.nome f = nome /\ exists k, tb !! k = Some f.
Proof.
  intros Hg. apply find_some in Hg as [Hin Hn].
  apply bool_decide_eq_true in Hn. split; [exact Hn|].
  apply in_map_iff in Hin as ([k g] & Heq & Hk). cbn [snd] in Heq. subst g.
  exists k. apply elem_of_map_to_list, list_elem_of_In. exact Hk.
Qed.

(** X26. _criar_fonte_cosit, when the database does not fail.  It
    returns a source with the name of the example, which the table holds.
    When it created the source, the key was free, only that row was added,
    and the source is one the rest of the code accepts: its address is
    BASE_URL of the COSIT scraper, validar_configuracao of a scraper made
    for it answers True, _obter_scraper_class knows its scraper class, and
    executar_todas_fontes_ativas selects it at every instant.  A second
    call creates nothing. *)
Theorem criar_fonte_cosit_exemplo w :
  sem_falhas 2 (run_faults w) ->
  exists f criada w1,
    _criar_fonte_cosit w = (Ok (f, criada), w1)
    /\ FonteDados.nome f = FonteDados.nome (fonte_cosit 0)
    /\ (exists k, fontes w1 !! k = Some f)
    /\ (if criada : bool
        then f = fonte_cosit (FonteDados.pk f)
             /\ fontes w !! FonteDados.pk f = None
             /\ fontes w1 = <[FonteDados.pk f := f]> (fontes w)
             /\ FonteDados.url_base f = CositScraper.BASE_URL
             /\ fst ((__init__ f;; CositScraper.validar_configuracao) w1) = Ok true
             /\ _obter_scraper_class (FonteDados.scraper_class f)
                = inr CositScraper.impl
             /\ forall agora, tasks.pronta agora f = true
        else fontes w1 = fontes w)
    /\ (forall w2,
          fontes w2 = fontes w1 -> hd false (run_faults w2) = false ->
          exists f',
            _criar_fonte_cosit w2
            = (Ok (f', false), with_run_faults (tl (run_faults w2)) w2)).
Proof.
  intros Hfa.
  apply sem_falhas_S in Hfa as [Hf0 Hfa]. apply sem_falhas_S in Hfa as [Hf1 _].
  assert (Hagain : forall (tb : gmap Z FonteDados.t) k f w2,
            tb !! k = Some f ->
            FonteDados.nome f = FonteDados.nome (fonte_cosit 0) ->
            fontes w2 = tb -> hd false (run_faults w2) = false ->
            exists f',
              _criar_fonte_cosit w2
              = (Ok (f', false), with_run_faults (tl (run_faults w2)) w2)).
  { intros tb k f w2 Hk Hn Htb Hf2.
    destruct (find_nome_existe tb k f Hk) as (f' & Hfind). rewrite Hn in Hfind.
    cbv [_criar_fonte_cosit run_op gets modify emit mbind mret M_bind M_ret]. proj.
    rewrite Hf2. proj. rewrite Htb, Hfind. eexists. reflexivity. }
  cbv [_criar_fonte_cosit run_op gets modify emit mbind mret M_bind M_ret]. proj.
  rewrite Hf0. proj.
  destruct (List.find _ _) as [f|] eqn:Hfind.
  - destruct (find_nome_In _ _ _ Hfind) as [Hn (k & Hk)].
    exists f, false. eexists. split; [reflexivity|]. proj.
    split; [exact Hn|]. split; [eauto|]. split; [reflexivity|].
    intros w2 Htb Hf2. exact (Hagain _ k f w2 Hk Hn Htb Hf2).
  - proj. rewrite Hf1. proj.
    set (pk := fresh (dom (fontes w))).
    assert (Hfresh : fontes w !! pk = None).
    { apply not_elem_of_dom. apply is_fresh. }
    exists (fonte_cosit pk), true. eexists. split; [reflexivity|]. proj.
    split; [reflexivity|].
    split; [exists pk; apply lookup_insert_eq|].
    split.
    + split; [reflexivity|]. split; [exact Hfresh|]. split; [reflexivity|].
      split; [reflexivity|].
      split.
      { cbv [__init__ modify mbind M_bind]. rewrite cosit_validar_configuracao.
        proj. cbn [fonte_cosit FonteDados.url_base FonteDados.tipo].
        rewrite decide_False by (vm_compute; discriminate).
        rewrite decide_True by reflexivity. reflexivity. }
      split.
      { unfold _obter_scraper_class. cbn [fonte_cosit FonteDados.scraper_class].
        rewrite decide_True by reflexivity. reflexivity. }
      intros agora. unfold tasks.pronta.
      cbn [fonte_cosit FonteDados.ativo FonteDados.status FonteDados.proxima_coleta].
      rewrite bool_decide_eq_true_2 by reflexivity. reflexivity.
    + intros w2 Htb Hf2.
      refine (Hagain _ pk (fonte_cosit pk) w2 _ eq_refl Htb Hf2).
      apply lookup_insert_eq.
Qed.
(** X27. The options of the command, in the order handle reads them.
    With --criar-fonte-exemplo nothing is run, whatever else was given: run
    logs and documents are as they were and no request is made.  With
    neither that option nor --todos, and no name or an empty one, handle
    raises CommandError and the world is as it was. *)
Theorem handle_opcoes options w :
  (criar_fonte_exemplo options = true ->
   logs (snd (handle options w)) = logs w
   /\ documentos (snd (handle options w)) = documentos w
   /\ self (snd (handle options w)) = self w
   /\ exists t, trace (snd (handle options w)) = trace w ++ t
                /\ List.filter evento_de_rede t = [])
  /\ (criar_fonte_exemplo options = false ->
      todos options = false ->
      fonte_nome options = None \/ fonte_nome options = Some [] ->
      exists mensagem, handle options w = (CommandError mensagem, w)).
Proof.
  split.
  - intros Hc. unfold handle. rewrite Hc.
    cbv [_criar_fonte_cosit run_op gets modify emit raise mbind mret M_bind M_ret]. proj.
    destruct (hd false (run_faults w)); proj.
    { repeat split; try reflexivity. exists []. split; [symmetry; apply app_nil_r|reflexivity]. }
    destruct (List.find _ _); proj.
    { repeat split; try reflexivity. exists []. split; [symmetry; apply app_nil_r|reflexivity]. }
    destruct (hd false (tl (run_faults w))); proj.
    { repeat split; try reflexivity. exists []. split; [symmetry; apply app_nil_r|reflexivity]. }
    repeat split; try reflexivity. eexists. split; reflexivity.
  - intros Hc Ht Hn. unfold handle. rewrite Hc, Ht.
    destruct Hn as [-> | ->]; eexists; reflexivity.
Qed.
End Comando.

(** ** The properties on the small catalogue and the small origin *)

Lemma tabela_ok_sitio : tabela_ok Sitio.w.
Proof. apply map_Forall_empty. Qed.

Lemma fontes_ok_sitio : fontes_ok Sitio.w.
Proof. apply map_Forall_singleton. reflexivity. Qed.

Lemma preserva_coletar_que_falha : preserva Falhas.coletar_que_falha.
Proof.
  unfold Falhas.coletar_que_falha, modify_self.
  apply preserva_bind; [apply preserva_modify; intros w; pe_solve|].
  intros _. apply preserva_raise.
Qed.

Lemma salvar_documento_efeito_local_witness :
  tabela_ok Cenario.w1
  /\ forall k,
       k <> (FonteDados.pk (fonte (self Cenario.w1)), Cenario.ident) ->
       documentos (snd (_salvar_documento (lit "SC 12") (lit "abd") Cenario.url
                          Cenario.ident (lit "consulta") None Cenario.w1)) !! k
       = documentos Cenario.w1 !! k.
Proof.
  split; [exact tabela_ok_w1|].
  exact (proj1 (salvar_documento_efeito_local (lit "SC 12") (lit "abd") Cenario.url
                  Cenario.ident (lit "consulta") None Cenario.w1 tabela_ok_w1)).
Defined.

Lemma salvar_documento_devolve_existente_witness :
  Cenario.salvar (lit "SC 12") (lit "abc") Cenario.w1
  = (Ok (Some Cenario.d1), snd (Cenario.salvar (lit "SC 12") (lit "abc") Cenario.w1))
  /\ documentos Cenario.w1 !! (FonteDados.pk (fonte (self Cenario.w1)), Cenario.ident)
     = Some Cenario.d1
  /\ DocumentoFonte.calcular_hash (lit "abc")
     = Some (DocumentoFonte.hash_conteudo Cenario.d1)
  /\ documentos (snd (Cenario.salvar (lit "SC 12") (lit "abc") Cenario.w1))
     = documentos Cenario.w1
  /\ trace (snd (Cenario.salvar (lit "SC 12") (lit "abc") Cenario.w1))
     = trace Cenario.w1.
Proof.
  assert (H : fst (Cenario.salvar (lit "SC 12") (lit "abc") Cenario.w1)
              = Ok (Some Cenario.d1)) by (vm_compute; reflexivity).
  destruct (salvar_documento_devolve_existente (lit "SC 12") (lit "abc") Cenario.url
              Cenario.ident (lit "consulta") None Cenario.w1 Cenario.d1
              (snd (Cenario.salvar (lit "SC 12") (lit "abc") Cenario.w1))
              (pair_eta (Cenario.salvar (lit "SC 12") (lit "abc") Cenario.w1)
                 (Ok (Some Cenario.d1)) H))
    as (Hl & Hh & Hd & _ & Ht & _).
  split; [exact (pair_eta (Cenario.salvar (lit "SC 12") (lit "abc") Cenario.w1)
                   (Ok (Some Cenario.d1)) H)|].
  split; [exact Hl|]. split; [exact Hh|]. split; [exact Hd|exact Ht].
Defined.

Lemma coletar_outras_fontes_witness :
  tabela_ok Sitio.w
  /\ (2%Z, lit "cosit_2024_0012").1 <> FonteDados.pk (fonte (self Sitio.w))
  /\ documentos (snd (CositScraper.coletar Sitio.w)) !! (2%Z, lit "cosit_2024_0012")
     = documentos Sitio.w !! (2%Z, lit "cosit_2024_0012").
Proof.
  assert (H : (2%Z, lit "cosit_2024_0012").1 <> FonteDados.pk (fonte (self Sitio.w)))
    by (vm_compute; discriminate).
  split; [exact tabela_ok_sitio|]. split; [exact H|].
  exact (coletar_outras_fontes Sitio.w (2%Z, lit "cosit_2024_0012") tabela_ok_sitio H).
Defined.

(* An exception does leave executar when the database refuses every save
   of the run log. *)
Example executar_propaga :
  fst (@executar Sitio.cosit Falhas.w_sem_finalizar) = Raise DatabaseError
  /\ LogColeta.status <$> log (self (snd (@executar Sitio.cosit Falhas.w_sem_finalizar)))
     = Some (lit "erro")
  /\ LogColeta.status
       <$> logs (snd (@executar Sitio.cosit Falhas.w_sem_finalizar)) !! 1%Z
     = Some (lit "iniciado").
Proof. vm_compute. repeat split; reflexivity. Qed.

Lemma salvar_documento_criacao_falha_witness :
  documentos Falhas.w_criacao_falha
    !! (FonteDados.pk (fonte (self Falhas.w_criacao_falha)), Cenario.ident) = None
  /\ DocumentoFonte.calcular_hash (lit "abc")
     = Some (lit "ba7816bf8f01cfea414140de5dae2223b00361a396177a9cb410ff61f20015ad")
  /\ sem_falhas 2 (doc_faults Falhas.w_criacao_falha)
  /\ hd false (tl (tl (doc_faults Falhas.w_criacao_falha))) = false
  /\ hd false (tl (tl (tl (doc_faults Falhas.w_criacao_falha)))) = true
  /\ exists caminho w',
       _salvar_documento (lit "SC 12") (lit "abc") Cenario.url Cenario.ident
         (lit "consulta") None Falhas.w_criacao_falha
       = (Ok None, w')
       /\ documentos w' = documentos Falhas.w_criacao_falha
       /\ arquivos w' = <[caminho := lit "abc"]> (arquivos Falhas.w_criacao_falha)
       /\ trace w' = trace Falhas.w_criacao_falha ++ [EvWriteText caminho (lit "abc")]
       /\ docs_erro (self w') = (docs_erro (self Falhas.w_criacao_falha) + 1)%Z
       /\ docs_novos (self w') = docs_novos (self Falhas.w_criacao_falha).
Proof.
  assert (H1 : documentos Falhas.w_criacao_falha
                 !! (FonteDados.pk (fonte (self Falhas.w_criacao_falha)), Cenario.ident)
               = None) by (vm_compute; reflexivity).
  assert (H2 : DocumentoFonte.calcular_hash (lit "abc")
               = Some (lit "ba7816bf8f01cfea414140de5dae2223b00361a396177a9cb410ff61f20015ad"))
    by (vm_compute; reflexivity).
  assert (H3 : sem_falhas 2 (doc_faults Falhas.w_criacao_falha))
    by (vm_compute; repeat constructor).
  assert (H4 : hd false (tl (tl (doc_faults Falhas.w_criacao_falha))) = false)
    by reflexivity.
  assert (H5 : hd false (tl (tl (tl (doc_faults Falhas.w_criacao_falha)))) = true)
    by reflexivity.
  split; [exact H1|]. split; [exact H2|]. split; [exact H3|]. split; [exact H4|].
  split; [exact H5|].
  exact (proj2 (salvar_documento_criacao_falha (lit "SC 12") (lit "abc") Cenario.url
                  Cenario.ident (lit "consulta") None Falhas.w_criacao_falha
                  (lit "ba7816bf8f01cfea414140de5dae2223b00361a396177a9cb410ff61f20015ad")
                  H1 H2 H3) H4 H5).
Defined.

Lemma executar_falha_ao_salvar_fonte_witness :
  @validar_configuracao Sitio.cosit Falhas.w_fonte_falha = (Ok true, Falhas.w_fonte_falha)
  /\ run_faults Falhas.w_fonte_falha = [false; false; true]
  /\ fst (@coletar Sitio.cosit (snd (_criar_log Falhas.w_fonte_falha))) = Ok true
  /\ exists w' l2,
       @executar Sitio.cosit Falhas.w_fonte_falha = (Ok false, w')
       /\ logs w' !! log_seq Falhas.w_fonte_falha = Some l2
       /\ LogColeta.status l2 = lit "erro"
       /\ LogColeta.erro_detalhe l2 = exn_str DatabaseError.
Proof.
  assert (Hu : FonteDados.url_base (fonte (self Falhas.w_fonte_falha)) <> [])
    by (vm_compute; discriminate).
  assert (Ht : FonteDados.tipo (fonte (self Falhas.w_fonte_falha)) = lit "web")
    by (vm_compute; reflexivity).
  assert (H1 : @validar_configuracao Sitio.cosit Falhas.w_fonte_falha
               = (Ok true, Falhas.w_fonte_falha))
    by exact (cosit_validar_true Falhas.w_fonte_falha Hu Ht).
  assert (H2 : run_faults Falhas.w_fonte_falha = [false; false; true]) by reflexivity.
  assert (H3 : fst (@coletar Sitio.cosit (snd (_criar_log Falhas.w_fonte_falha)))
               = Ok true) by (vm_compute; reflexivity).
  assert (H4 : preserva_execucao (snd (_criar_log Falhas.w_fonte_falha))
                 (snd (@coletar Sitio.cosit (snd (_criar_log Falhas.w_fonte_falha)))))
    by exact (preserva_coletar_impl (snd (_criar_log Falhas.w_fonte_falha))).
  split; [exact H1|]. split; [exact H2|]. split; [exact H3|].
  destruct (@executar_falha_ao_salvar_fonte Sitio.cosit Falhas.w_fonte_falha true
              (snd (@coletar Sitio.cosit (snd (_criar_log Falhas.w_fonte_falha))))
              H1 H2
              (pair_eta (@coletar Sitio.cosit (snd (_criar_log Falhas.w_fonte_falha)))
                 (Ok true) H3) H4)
    as (w' & l1 & l2 & f2 & t & He & _ & _ & _ & _ & Hs & Hd & _ & Hl & _).
  exists w', l2. repeat split; assumption.
Defined.

Lemma executar_sem_registro_witness :
  @validar_configuracao Sitio.cosit Falhas.w_sem_registro
  = (Ok true, Falhas.w_sem_registro)
  /\ hd false (run_faults Falhas.w_sem_registro) = true
  /\ log (self Falhas.w_sem_registro) = None
  /\ exists w',
       @executar Sitio.cosit Falhas.w_sem_registro = (Ok false, w')
       /\ logs w' = logs Falhas.w_sem_registro
       /\ log_seq w' = log_seq Falhas.w_sem_registro
       /\ log (self w') = None
       /\ fontes w' = fontes Falhas.w_sem_registro
       /\ fonte (self w') = fonte (self Falhas.w_sem_registro)
       /\ documentos w' = documentos Falhas.w_sem_registro
       /\ arquivos w' = arquivos Falhas.w_sem_registro
       /\ contados (self w') = contados (self Falhas.w_sem_registro)
       /\ trace w' = trace Falhas.w_sem_registro ++ [EvSessionClose].
Proof.
  assert (Hu : FonteDados.url_base (fonte (self Falhas.w_sem_registro)) <> [])
    by (vm_compute; discriminate).
  assert (Ht : FonteDados.tipo (fonte (self Falhas.w_sem_registro)) = lit "web")
    by (vm_compute; reflexivity).
  assert (H1 : @validar_configuracao Sitio.cosit Falhas.w_sem_registro
               = (Ok true, Falhas.w_sem_registro))
    by exact (cosit_validar_true Falhas.w_sem_registro Hu Ht).
  assert (H2 : hd false (run_faults Falhas.w_sem_registro) = true) by reflexivity.
  assert (H3 : log (self Falhas.w_sem_registro) = None) by reflexivity.
  split; [exact H1|]. split; [exact H2|]. split; [exact H3|].
  exact (@executar_sem_registro Sitio.cosit Falhas.w_sem_registro H1 H2 H3).
Defined.

Lemma executar_coleta_com_excecao_witness :
  @validar_configuracao Falhas.impl_que_falha Sitio.w = (Ok true, Sitio.w)
  /\ sem_falhas 3 (run_faults Sitio.w)
  /\ fst (@coletar Falhas.impl_que_falha (snd (_criar_log Sitio.w))) = Raise OSError
  /\ exists w' l,
       @executar Falhas.impl_que_falha Sitio.w = (Ok false, w')
       /\ logs w' !! log_seq Sitio.w = Some l
       /\ LogColeta.status l = lit "erro"
       /\ LogColeta.erro_detalhe l = exn_str OSError
       /\ LogColeta.documentos_erro l = 2%Z.
Proof.
  assert (H1 : @validar_configuracao Falhas.impl_que_falha Sitio.w = (Ok true, Sitio.w))
    by reflexivity.
  assert (H2 : sem_falhas 3 (run_faults Sitio.w)) by (vm_compute; constructor).
  assert (H3 : fst (@coletar Falhas.impl_que_falha (snd (_criar_log Sitio.w)))
               = Raise OSError)
    by (vm_compute; reflexivity).
  assert (H4 : preserva_execucao (snd (_criar_log Sitio.w))
                 (snd (@coletar Falhas.impl_que_falha (snd (_criar_log Sitio.w)))))
    by exact (preserva_coletar_que_falha (snd (_criar_log Sitio.w))).
  assert (H5 : docs_erro (self (snd (@coletar Falhas.impl_que_falha
                                       (snd (_criar_log Sitio.w))))) = 2%Z)
    by (vm_compute; reflexivity).
  split; [exact H1|]. split; [exact H2|]. split; [exact H3|].
  destruct (@executar_coleta_com_excecao Falhas.impl_que_falha Sitio.w OSError
              (snd (@coletar Falhas.impl_que_falha (snd (_criar_log Sitio.w)))) H1 H2
              (pair_eta (@coletar Falhas.impl_que_falha (snd (_criar_log Sitio.w)))
                 (Raise OSError) H3) H4)
    as (w' & l & He & Hl & Hs & _ & Hd & _ & _ & _ & Her & _).
  exists w', l. rewrite Her. repeat split; assumption.
Defined.

Lemma executar_contabiliza_witness :
  FonteDados.url_base (fonte (self Sitio.w)) <> []
  /\ FonteDados.tipo (fonte (self Sitio.w)) = lit "web"
  /\ sem_falhas 3 (run_faults Sitio.w)
  /\ exists l,
       logs (snd (@executar Sitio.cosit Sitio.w)) !! log_seq Sitio.w = Some l
       /\ (LogColeta.documentos_novos l + LogColeta.documentos_atualizados l
           + LogColeta.documentos_ignorados l + LogColeta.documentos_erro l
           = 2)%Z.
Proof.
  assert (H1 : FonteDados.url_base (fonte (self Sitio.w)) <> [])
    by (vm_compute; discriminate).
  assert (H2 : FonteDados.tipo (fonte (self Sitio.w)) = lit "web")
    by (vm_compute; reflexivity).
  assert (H3 : sem_falhas 3 (run_faults Sitio.w)) by (vm_compute; constructor).
  split; [exact H1|]. split; [exact H2|]. split; [exact H3|].
  destruct (@executar_contabiliza Reference.platform Sitio.w H1 H2 H3) as (l & Hl & Hc).
  exists l. split; [exact Hl|]. rewrite Hc. vm_compute. reflexivity.
Defined.

Lemma calcular_duracao_segundos_witness :
  LogColeta.finalizado_em
    (LogColeta.mk 1 1 (lit "sucesso") 1715731201000000 (Some 1715731203500000%Z) None
       0 0 0 0 [] [])
  = Some 1715731203500000%Z
  /\ (1715731201000000 <= 1715731203500000)%Z
  /\ (1715731203500000 - 1715731201000000 < 2 ^ 53)%Z
  /\ LogColeta.duracao_segundos
       (LogColeta.calcular_duracao
          (LogColeta.mk 1 1 (lit "sucesso") 1715731201000000 (Some 1715731203500000%Z)
             None 0 0 0 0 [] []))
     = Some 2%Z.
Proof.
  assert (H1 : LogColeta.finalizado_em
                 (LogColeta.mk 1 1 (lit "sucesso") 1715731201000000
                    (Some 1715731203500000%Z) None 0 0 0 0 [] [])
               = Some 1715731203500000%Z) by reflexivity.
  assert (H2 : (LogColeta.iniciado_em
                  (LogColeta.mk 1 1 (lit "sucesso") 1715731201000000
                     (Some 1715731203500000%Z) None 0 0 0 0 [] [])
                <= 1715731203500000)%Z) by (vm_compute; discriminate).
  assert (H3 : (1715731203500000
                - LogColeta.iniciado_em
                    (LogColeta.mk 1 1 (lit "sucesso") 1715731201000000
                       (Some 1715731203500000%Z) None 0 0 0 0 [] [])
                < 2 ^ 53)%Z) by (vm_compute; reflexivity).
  split; [exact H1|]. split; [exact H2|]. split; [exact H3|].
  destruct (calcular_duracao_segundos
              (LogColeta.mk 1 1 (lit "sucesso") 1715731201000000 (Some 1715731203500000%Z)
                 None 0 0 0 0 [] [])
              1715731203500000%Z H1 H2 H3) as (d & Hd & H0 & Hb & _).
  rewrite Hd. cbn [LogColeta.iniciado_em] in Hb. f_equal. lia.
Defined.

Lemma cosit_rfb_simples :
  componente_simples
    (Str.replace 32 95 (str_lower (FonteDados.nome (fonte (self Cenario.w0))))).
Proof.
  split; [vm_compute; discriminate|]. split; [vm_compute; discriminate|].
  vm_compute. intuition discriminate.
Qed.

Lemma obter_caminho_arquivo_seguro_witness :
  hd false (doc_faults Cenario.w0) = false
  /\ lit "html" <> []
  /\ ~ In 47%N (lit "html")
  /\ componente_simples
       (Str.replace 32 95 (str_lower (FonteDados.nome (fonte (self Cenario.w0)))))
  /\ exists nome_seguro caminho,
       fst (_obter_caminho_arquivo (lit "cosit/2024/0012") (lit "html") Cenario.w0)
       = Ok caminho
       /\ length nome_seguro = length (lit "cosit/2024/0012")
       /\ ~ In 47%N nome_seguro
       /\ ~ In 92%N nome_seguro
       /\ (Path.str <$> Path.relative_to caminho projeto_dir)
          = Some (lit "data/raw/cosit_rfb/2024/05/" ++ nome_seguro ++ lit ".html").
Proof.
  assert (H : hd false (doc_faults Cenario.w0) = false) by reflexivity.
  assert (H1 : lit "html" <> []) by (vm_compute; discriminate).
  assert (H2 : ~ In 47%N (lit "html")) by (vm_compute; intuition discriminate).
  split; [exact H|]. split; [exact H1|]. split; [exact H2|].
  split; [exact cosit_rfb_simples|].
  destruct (obter_caminho_arquivo_seguro (lit "cosit/2024/0012") (lit "html")
              Cenario.w0 H H1 H2)
    as (dir & nome & caminho & He & _ & Hl & H47 & H92 & _ & Hs).
  destruct (Hs cosit_rfb_simples) as [_ Hr].
  exists nome, caminho.
  split; [exact He|]. split; [exact Hl|]. split; [exact H47|]. split; [exact H92|].
  exact Hr.
Defined.

Lemma extrair_info_documento_forma_witness :
  CositScraper._extrair_info_documento (lit "/sc/11") (Sitio.solucao (lit "11/2024")) 2023
  = Some (CositScraper.mk_doc_info (lit "cosit_2024_0011")
            (Sitio.solucao (lit "11/2024")) Sitio.url11 (lit "11") 2024 (lit "consulta"))
  /\ Str.startswith (lit "http") Sitio.url11 = true.
Proof.
  assert (H : CositScraper._extrair_info_documento (lit "/sc/11")
                (Sitio.solucao (lit "11/2024")) 2023
              = Some (CositScraper.mk_doc_info (lit "cosit_2024_0011")
                        (Sitio.solucao (lit "11/2024")) Sitio.url11 (lit "11") 2024
                        (lit "consulta")))
    by (vm_compute; reflexivity).
  split; [exact H|].
  exact (proj1 (proj2 (extrair_info_documento_forma (lit "/sc/11")
                         (Sitio.solucao (lit "11/2024")) 2023
                         (CositScraper.mk_doc_info (lit "cosit_2024_0011")
                            (Sitio.solucao (lit "11/2024")) Sitio.url11 (lit "11") 2024
                            (lit "consulta")) H))).
Defined.

Lemma calcular_proxima_coleta_agenda_witness :
  fontes Sitio.w !! 1%Z = Some Cenario.fonte0
  /\ FonteDados.pk Cenario.fonte0 = 1%Z
  /\ sem_falhas 2 (run_faults Sitio.w)
  /\ exists w',
       tasks.calcular_proxima_coleta 1 Sitio.w = (Ok tt, w')
       /\ fontes w'
          = <[1%Z := tasks.set_proxima_coleta
                       (Some (relogio Sitio.w (leituras Sitio.w) + 86400000000)%Z)
                       Cenario.fonte0]> (fontes Sitio.w).
Proof.
  assert (H1 : fontes Sitio.w !! 1%Z = Some Cenario.fonte0) by (vm_compute; reflexivity).
  assert (H2 : FonteDados.pk Cenario.fonte0 = 1%Z) by reflexivity.
  assert (H3 : sem_falhas 2 (run_faults Sitio.w)) by (vm_compute; constructor).
  split; [exact H1|]. split; [exact H2|]. split; [exact H3|].
  destruct (calcular_proxima_coleta_agenda 1 Cenario.fonte0 Sitio.w H1 H2 H3)
    as (delta & w' & He & Hd & Hfs & _).
  exists w'. split; [exact He|]. rewrite Hfs, Hd.
  assert (Hdelta : (if decide (FonteDados.frequencia_coleta Cenario.fonte0 = lit "horaria")
                    then 3600000000
                    else if decide (FonteDados.frequencia_coleta Cenario.fonte0
                                    = lit "semanal")
                         then 604800000000
                         else if decide (FonteDados.frequencia_coleta Cenario.fonte0
                                         = lit "mensal")
                              then 2592000000000
                              else 86400000000)%Z = 86400000000%Z)
    by (vm_compute; reflexivity).
  rewrite Hdelta. reflexivity.
Defined.

Example agenda_executar_todas :
  fst (tasks.executar_todas_fontes_ativas Agenda.fila Agenda.w)
  = Ok (tasks.mk_resumo 1 1 0 0 (Some [(1%Z, lit "COSIT RFB", lit "task-1")]))
  /\ fst (tasks.executar_todas_fontes_ativas Agenda.fila
            (with_leituras (24 * 3600) Agenda.w))
     = Ok (tasks.mk_resumo 2 1 0 1 (Some [(1%Z, lit "COSIT RFB", lit "task-1")]))
  /\ fst (tasks.executar_todas_fontes_ativas Agenda.fila Cenario.w0)
     = Ok (tasks.mk_resumo 1 1 0 0 (Some [(1%Z, lit "COSIT RFB", lit "task-1")]))
  /\ fst (tasks.executar_todas_fontes_ativas Agenda.fila
            (with_fontes ∅ Cenario.w0))
     = Ok (tasks.mk_resumo 0 0 0 0 None).
Proof. vm_compute. repeat split; reflexivity. Qed.

Lemma fontes_ok_agenda : fontes_ok Agenda.w.
Proof.
  unfold fontes_ok, Agenda.w. cbn [fontes with_fontes].
  repeat (apply map_Forall_insert_2; [reflexivity|]).
  apply map_Forall_empty.
Qed.

Lemma calcular_proxima_coleta_nao_propaga_witness :
  fontes_ok Agenda.w
  /\ fst (tasks.calcular_proxima_coleta 9 Agenda.w) = Ok tt
  /\ logs (snd (tasks.calcular_proxima_coleta 9 Agenda.w)) = logs Agenda.w.
Proof.
  split; [exact fontes_ok_agenda|].
  destruct (calcular_proxima_coleta_nao_propaga 9 Agenda.w fontes_ok_agenda)
    as (H1 & H2 & _).
  split; assumption.
Defined.

Lemma executar_todas_fontes_ativas_contagem_witness :
  sem_falhas 2 (run_faults Agenda.w)
  /\ exists r w',
       tasks.executar_todas_fontes_ativas Agenda.fila Agenda.w = (Ok r, w')
       /\ (tasks.executadas r + tasks.erro r = tasks.total r)%Z
       /\ tasks.sucesso r = 0%Z
       /\ fontes w' = fontes Agenda.w
       /\ logs w' = logs Agenda.w.
Proof.
  assert (H : sem_falhas 2 (run_faults Agenda.w)) by (vm_compute; constructor).
  split; [exact H|].
  destruct (executar_todas_fontes_ativas_contagem Agenda.fila Agenda.w H)
    as (r & w' & He & _ & Hs & Hz & _ & _ & Hf & Hl & _).
  exists r, w'. repeat split; assumption.
Defined.

Lemma executar_scraper_fonte_recusa_witness :
  hd false (run_faults Agenda.w) = false
  /\ match fontes Agenda.w !! 2%Z with
     | Some f =>
         FonteDados.ativo f = false \/ FonteDados.scraper_class f <> lit "CositScraper"
     | None => True
     end
  /\ exists erro,
       tasks.executar_scraper_fonte Agenda.retry_sempre 2 Agenda.w
       = (tasks.Devolve (tasks.Falha None erro),
          with_run_faults (tl (run_faults Agenda.w)) Agenda.w).
Proof.
  assert (H1 : hd false (run_faults Agenda.w) = false) by reflexivity.
  assert (H2 : match fontes Agenda.w !! 2%Z with
               | Some f =>
                   FonteDados.ativo f = false
                   \/ FonteDados.scraper_class f <> lit "CositScraper"
               | None => True
               end) by (vm_compute; left; reflexivity).
  split; [exact H1|]. split; [exact H2|].
  exact (executar_scraper_fonte_recusa Agenda.retry_sempre 2 Agenda.w H1 H2).
Defined.

Lemma executar_scraper_fonte_resultado_witness :
  fontes Agenda.w !! 1%Z = Some Cenario.fonte0
  /\ FonteDados.ativo Cenario.fonte0 = true
  /\ FonteDados.scraper_class Cenario.fonte0 = lit "CositScraper"
  /\ FonteDados.url_base Cenario.fonte0 <> []
  /\ FonteDados.tipo Cenario.fonte0 = lit "web"
  /\ sem_falhas 4 (run_faults Agenda.w)
  /\ exists sucesso novos atualizados ignorados erros l w',
       tasks.executar_scraper_fonte Agenda.retry_sempre 1 Agenda.w
       = (tasks.Devolve
            (tasks.Resultado sucesso 1 (FonteDados.nome Cenario.fonte0)
               novos atualizados ignorados erros (Some (log_seq Agenda.w))
               (if sucesso then None else Some (LogColeta.mensagem l))), w')
       /\ logs w' !! log_seq Agenda.w = Some l
       /\ LogColeta.documentos_novos l = novos
       /\ LogColeta.documentos_erro l = erros.
Proof.
  assert (H1 : fontes Agenda.w !! 1%Z = Some Cenario.fonte0) by (vm_compute; reflexivity).
  assert (H2 : FonteDados.ativo Cenario.fonte0 = true) by reflexivity.
  assert (H3 : FonteDados.scraper_class Cenario.fonte0 = lit "CositScraper")
    by reflexivity.
  assert (H4 : FonteDados.url_base Cenario.fonte0 <> []) by (vm_compute; discriminate).
  assert (H5 : FonteDados.tipo Cenario.fonte0 = lit "web") by reflexivity.
  assert (H6 : sem_falhas 4 (run_faults Agenda.w)) by (vm_compute; constructor).
  split; [exact H1|]. split; [exact H2|]. split; [exact H3|]. split; [exact H4|].
  split; [exact H5|]. split; [exact H6|].
  destruct (executar_scraper_fonte_resultado Agenda.retry_sempre 1 Cenario.fonte0
              Agenda.w H1 H2 H3 H4 H5 H6)
    as (b & n & a & i & e & l & w' & He & Hl & _ & _ & Hn & _ & _ & Her & _).
  exists b, n, a, i, e, l, w'. repeat split; assumption.
Defined.

(* The range of datetime on the calendar of the reference platform. *)
Example datetime_limites :
  Reference.year_month tasks.datetime_min = (1, 1)%Z
  /\ Reference.year_month (tasks.datetime_min - 1) = (0, 12)%Z
  /\ Reference.year_month tasks.datetime_max = (9999, 12)%Z
  /\ Reference.year_month (tasks.datetime_max + 1) = (10000, 1)%Z.
Proof. vm_compute. repeat split; reflexivity. Qed.

(* Ninety days are kept; ten thousand million days are more than timedelta
   holds, and eight hundred thousand days before May 2024 is before the
   year 1: the task reports a failure and asks the database nothing. *)
Example limpar_logs_antigos_exemplos :
  fst (tasks.limpar_logs_antigos 90 Sitio.w) = Ok (tasks.Limpou 0 90)
  /\ fst (tasks.limpar_logs_antigos (10 ^ 10) Sitio.w)
     = Ok (tasks.NaoLimpou (exn_str OverflowError))
  /\ fst (tasks.limpar_logs_antigos 800000 Sitio.w)
     = Ok (tasks.NaoLimpou (exn_str OverflowError))
  /\ run_faults (snd (tasks.limpar_logs_antigos 800000 (with_run_faults [true] Sitio.w)))
     = [true].
Proof. vm_compute. repeat split; reflexivity. Qed.

Example agenda_executar_scraper_fonte :
  fst (tasks.executar_scraper_fonte Agenda.retry_sempre 1 Agenda.w)
  = tasks.Devolve (tasks.Resultado true 1 (lit "COSIT RFB") 0 0 0 2 (Some 1%Z) None)
  /\ fst (tasks.executar_scraper_fonte Agenda.retry_sempre 3 Agenda.w)
     = tasks.Devolve
         (tasks.Falha None
            (lit "Scraper BoletimScraper n" ++ [Str.c_atilde] ++ lit "o implementado"))
  /\ fst (tasks.executar_scraper_fonte Agenda.retry_sempre 1
            (with_run_faults [true] Agenda.w))
     = tasks.Levanta tasks.Retry.
Proof. vm_compute. repeat split; reflexivity. Qed.

Lemma executar_nao_reagenda_witness :
  FonteDados.url_base (fonte (self Sitio.w)) <> []
  /\ FonteDados.tipo (fonte (self Sitio.w)) = lit "web"
  /\ sem_falhas 3 (run_faults Sitio.w)
  /\ exists f',
       fontes (snd (@executar Sitio.cosit Sitio.w)) !! FonteDados.pk (fonte (self Sitio.w))
       = Some f'
       /\ FonteDados.ultima_coleta f' <> None
       /\ FonteDados.proxima_coleta f' = FonteDados.proxima_coleta (fonte (self Sitio.w))
       /\ forall agora, tasks.pronta agora f' = tasks.pronta agora (fonte (self Sitio.w)).
Proof.
  assert (H1 : FonteDados.url_base (fonte (self Sitio.w)) <> [])
    by (vm_compute; discriminate).
  assert (H2 : FonteDados.tipo (fonte (self Sitio.w)) = lit "web")
    by (vm_compute; reflexivity).
  assert (H3 : sem_falhas 3 (run_faults Sitio.w)) by (vm_compute; constructor).
  split; [exact H1|]. split; [exact H2|]. split; [exact H3|].
  exact (@executar_nao_reagenda Reference.platform Sitio.w H1 H2 H3).
Defined.

Lemma nome_unico_agenda : nome_unico Agenda.w.
Proof.
  intros k1 k2 f1 f2 H1 H2 Hn.
  unfold Agenda.w, Sitio.w in H1, H2. cbn [fontes with_fontes] in H1, H2.
  repeat match goal with
         | H : <[_ := _]> _ !! _ = Some _ |- _ =>
             apply lookup_insert_Some in H as [[<- <-]|[? H]]
         | H : {[_ := _]} !! _ = Some _ |- _ =>
             apply lookup_singleton_Some in H as [<- <-]
         end;
    try reflexivity; vm_compute in Hn; discriminate.
Qed.

Lemma comando_e_tarefa_concordam_witness :
  nome_unico Agenda.w
  /\ fontes Agenda.w !! 1%Z = Some Cenario.fonte0
  /\ snd (executar_scraper._executar_fonte (FonteDados.nome Cenario.fonte0) Agenda.w)
     = snd (tasks.executar_scraper_fonte Agenda.retry_sempre 1 Agenda.w).
Proof.
  assert (H : fontes Agenda.w !! 1%Z = Some Cenario.fonte0) by (vm_compute; reflexivity).
  split; [exact nome_unico_agenda|]. split; [exact H|].
  exact (proj1 (comando_e_tarefa_concordam Agenda.retry_sempre 1 Cenario.fonte0 Agenda.w
                  nome_unico_agenda H)).
Defined.

Lemma executar_todos_contagem_witness :
  sem_falhas 3 (run_faults Agenda.w)
  /\ exists r w',
       executar_scraper._executar_todos Agenda.w = (Ok r, w')
       /\ r <> None.
Proof.
  assert (H : sem_falhas 3 (run_faults Agenda.w)) by (vm_compute; constructor).
  assert (Hr : fst (executar_scraper._executar_todos Agenda.w) <> Ok None)
    by (vm_compute; discriminate).
  split; [exact H|].
  destruct (executar_todos_contagem Agenda.w H) as (r & w' & He & _).
  exists r, w'. split; [exact He|].
  intros ->. apply Hr. rewrite He. reflexivity.
Defined.

Lemma criar_fonte_cosit_exemplo_witness :
  sem_falhas 2 (run_faults Agenda.w)
  /\ exists f criada w1,
       executar_scraper._criar_fonte_cosit Agenda.w = (Ok (f, criada), w1)
       /\ FonteDados.nome f = FonteDados.nome (executar_scraper.fonte_cosit 0)
       /\ exists k, fontes w1 !! k = Some f.
Proof.
  assert (H : sem_falhas 2 (run_faults Agenda.w)) by (vm_compute; constructor).
  split; [exact H|].
  destruct (criar_fonte_cosit_exemplo Agenda.w H) as (f & c & w1 & He & Hn & Hk & _).
  exists f, c, w1. repeat split; assumption.
Defined.

Example agenda_comando :
  fst (executar_scraper.handle (executar_scraper.mk_opcoes false false None) Agenda.w)
  = executar_scraper.CommandError
      (lit "Forne" ++ [Str.c_ccedil]
         ++ lit "a o nome da fonte ou use --todos. Use --criar-fonte-exemplo para criar fonte de teste.")
  /\ fst (executar_scraper._executar_fonte (lit "COSIT RFB") Agenda.w)
     = executar_scraper.Retorna true
  /\ fst (executar_scraper._executar_todos Agenda.w) = Ok (Some (1, 1)%Z)
  /\ fst (executar_scraper._executar_fonte (lit "Antiga") Agenda.w)
     = executar_scraper.CommandError
         (lit "Fonte " ++ [34%N] ++ lit "Antiga" ++ [34%N] ++ lit " est" ++ [225%N]
            ++ lit " inativa")
  /\ size (fontes (snd (executar_scraper.handle
                          (executar_scraper.mk_opcoes true true None) Agenda.w)))
     = 4%nat.
Proof. vm_compute. repeat split; reflexivity. Qed.

Lemma handle_opcoes_witness :
  executar_scraper.criar_fonte_exemplo (executar_scraper.mk_opcoes true true None) = true
  /\ logs (snd (executar_scraper.handle (executar_scraper.mk_opcoes true true None)
                  Agenda.w))
     = logs Agenda.w
  /\ documentos (snd (executar_scraper.handle
                        (executar_scraper.mk_opcoes true true None) Agenda.w))
     = documentos Agenda.w.
Proof.
  assert (H : executar_scraper.criar_fonte_exemplo
                (executar_scraper.mk_opcoes true true None) = true) by reflexivity.
  split; [exact H|].
  destruct (proj1 (handle_opcoes (executar_scraper.mk_opcoes true true None) Agenda.w) H)
    as (H1 & H2 & _).
  split; assumption.
Defined.

